(** * Sentiment dashboard: the classification and keyword pipeline

    A shallow embedding of [sentiment_analyzer.py] (the classifier, the
    keyword extractor, the batch orchestrator and the explanation
    template), of [create_sentiment_metrics_summary] from
    [visualizations.py], of [batch_process_files] from [export_utils.py]
    and of what the three input forms of [app.py] do to the session
    results.

    Conventions of the embedding
    - Python [str] values are [string]s; the character operations
      ([lower], [isalpha], [split]) are the ASCII ones, characters
      above 127 are left alone and are not letters.  [Module Unicode]
      repeats the keyword extractor over code points and a character
      database, for what depends on the letters of Unicode.
    - Python [float] values are IEEE binary64 numbers, [spec_float];
      only comparisons and [abs] are computed on them, both exact.
    - Python exceptions are the [Raise] alternative of [result].
    - The third-party capabilities (the TextBlob sentiment model, the
      NLTK stop-word corpus and tokenizer, float formatting, pandas'
      [mean]) are the variables of [Section Pipeline]. *)

From Stdlib Require Import String Ascii List ZArith Lia Bool Arith PeanoNat.
From Stdlib Require Import Sorting.Sorted Sorting.Permutation.
From Stdlib Require Import Floats.SpecFloat.
From Stdlib Require Import DecimalString.
From Stdlib Require DecimalNat.
Import ListNotations.

Local Open Scope string_scope.
Local Open Scope list_scope.
Local Open Scope nat_scope.

(** ** Exceptions *)

Inductive exn : Type :=
| LookupError
| KeyError
| TypeError
| AttributeError
| ValueError.

Inductive result (A : Type) : Type :=
| Ok (a : A)
| Raise (e : exn).

Arguments Ok {A} a.
Arguments Raise {A} e.

Definition bind {A B : Type} (r : result A) (k : A -> result B) : result B :=
  match r with
  | Ok a => k a
  | Raise e => Raise e
  end.

Notation "x <- c ;; k" := (bind c (fun x => k))
  (at level 61, c at next level, right associativity).

(** [try: body except LookupError: handler] *)
Definition try_except_LookupError {A : Type} (body handler : result A) : result A :=
  match body with
  | Raise LookupError => handler
  | other => other
  end.

(** The for-loop that appends one computed element per item and stops at
    the first exception. *)
Fixpoint for_each {A B : Type} (f : A -> result B) (l : list A) : result (list B) :=
  match l with
  | [] => Ok []
  | x :: xs =>
      y <- f x ;;
      ys <- for_each f xs ;;
      Ok (y :: ys)
  end.

(** ** Characters and strings *)

Definition is_upper_char (c : ascii) : bool :=
  let n := nat_of_ascii c in (65 <=? n) && (n <=? 90).

Definition is_lower_char (c : ascii) : bool :=
  let n := nat_of_ascii c in (97 <=? n) && (n <=? 122).

Definition is_alpha_char (c : ascii) : bool :=
  is_upper_char c || is_lower_char c.

(** Whitespace of [str.split()] and [str.isspace()] within ASCII:
    tab, line feed, vertical tab, form feed, carriage return, the four
    separators 28..31 and the space. *)
Definition is_space_char (c : ascii) : bool :=
  let n := nat_of_ascii c in
  ((9 <=? n) && (n <=? 13)) || ((28 <=? n) && (n <=? 32)).

Definition lower_char (c : ascii) : ascii :=
  if is_upper_char c then ascii_of_nat (nat_of_ascii c + 32) else c.

(** [s.lower()] *)
Fixpoint lower (s : string) : string :=
  match s with
  | EmptyString => EmptyString
  | String c s' => String (lower_char c) (lower s')
  end.

Fixpoint all_chars (p : ascii -> bool) (s : string) : bool :=
  match s with
  | EmptyString => true
  | String c s' => p c && all_chars p s'
  end.

(** [s.isalpha()]: at least one character and every character a letter. *)
Definition isalpha (s : string) : bool :=
  match s with
  | EmptyString => false
  | _ => all_chars is_alpha_char s
  end.

(** [s.split()]: the maximal runs of non-whitespace characters.
    [cur] is the run being read, in reverse. *)
Definition rev_string (cs : list ascii) : string :=
  string_of_list_ascii (rev cs).

Definition flush (cur : list ascii) (acc : list string) : list string :=
  match cur with
  | [] => acc
  | _ => rev_string cur :: acc
  end.

Fixpoint split_aux (s : string) (cur : list ascii) (acc : list string) : list string :=
  match s with
  | EmptyString => rev (flush cur acc)
  | String c s' =>
      if is_space_char c then split_aux s' [] (flush cur acc)
      else split_aux s' (c :: cur) acc
  end.

Definition split (s : string) : list string := split_aux s [] [].

(** Membership in a Python [set] of strings. *)
Definition mem (w : string) (l : list string) : bool :=
  existsb (String.eqb w) l.

(** ** Python values *)

Definition float := spec_float.

Inductive pyval : Type :=
| PStr (s : string)
| PInt (z : Z)
| PFloat (f : float)
| PNone
| PList (l : list string).

Definition float_zero : float := S754_zero false.
Definition float_one : float := S754_finite false 4503599627370496 (-52).
Definition float_minus_one : float := S754_finite true 4503599627370496 (-52).

(** [a > b], [a < b], [a == b], [a <= b] on floats; all false on NaN. *)
Definition float_gt (a b : float) : bool := SFltb b a.
Definition float_lt (a b : float) : bool := SFltb a b.
Definition float_eq (a b : float) : bool := SFeqb a b.
Definition float_le (a b : float) : bool := SFleb a b.

(** [abs(x)] *)
Definition float_abs (x : float) : float := SFabs x.

(** [v == 'literal'] *)
Definition eq_str (v : pyval) (s : string) : bool :=
  match v with
  | PStr t => String.eqb t s
  | _ => false
  end.

(** Dictionaries keep their insertion order. *)
Definition dict : Type := list (string * pyval).

Fixpoint dict_lookup (d : dict) (k : string) : option pyval :=
  match d with
  | [] => None
  | (k', v) :: d' => if String.eqb k' k then Some v else dict_lookup d' k
  end.

(** [d[k]] *)
Definition getitem (d : dict) (k : string) : result pyval :=
  match dict_lookup d k with
  | Some v => Ok v
  | None => Raise KeyError
  end.

(** [d.get(k, default)] *)
Definition dict_get (d : dict) (k : string) (default : pyval) : pyval :=
  match dict_lookup d k with
  | Some v => v
  | None => default
  end.

Definition keys (d : dict) : list string := map fst d.

(** [d[k] = v]: overwrite in place, or append a new key. *)
Fixpoint dict_set (d : dict) (k : string) (v : pyval) : dict :=
  match d with
  | [] => [(k, v)]
  | (k', v') :: d' =>
      if String.eqb k' k then (k', v) :: d' else (k', v') :: dict_set d' k v
  end.

(** A data frame built from a list of row dictionaries. *)
Definition DataFrame : Type := list dict.

(** ** [collections.Counter] and [most_common]

    A counter is a dictionary from word to count, in order of first
    insertion. *)

Definition counter : Type := list (string * nat).

(** [c[w] += 1] *)
Fixpoint counter_incr (w : string) (c : counter) : counter :=
  match c with
  | [] => [(w, 1)]
  | (k, n) :: c' =>
      if String.eqb k w then (k, S n) :: c' else (k, n) :: counter_incr w c'
  end.

(** [Counter(words)]: the words are counted from left to right. *)
Definition Counter (words : list string) : counter :=
  fold_left (fun c w => counter_incr w c) words [].

(** [sorted(items, key=itemgetter(1), reverse=True)]: a stable sort, so
    an item stays in front of the later items of the same count. *)
Fixpoint insert_item (x : string * nat) (l : counter) : counter :=
  match l with
  | [] => [x]
  | y :: l' => if snd x <? snd y then y :: insert_item x l' else x :: y :: l'
  end.

Definition sorted_by_count (c : counter) : counter :=
  fold_right insert_item [] c.

(** [c.most_common(n)] is [heapq.nlargest(n, c.items(), key=itemgetter(1))],
    which the library documents as
    [sorted(c.items(), key=itemgetter(1), reverse=True)[:n]] and which is
    empty for [n <= 0]. *)
Definition most_common (n : Z) (c : counter) : counter :=
  firstn (Z.to_nat n) (sorted_by_count c).

(** ** [str(v)] on the values whose rendering is fixed by the language;
    the rendering of floats and lists is the parameter [str_other]. *)

Definition str_of_int (z : Z) : string := NilZero.string_of_int (Z.to_int z).

Definition str_of_nat (n : nat) : string := NilZero.string_of_uint (Nat.to_uint n).

(** ** The built-in stop words of the fallback *)

Definition fallback_stop_words : list string :=
  ["the"; "a"; "an"; "and"; "or"; "but"; "in"; "on"; "at"; "to"; "for";
   "of"; "with"; "by"; "is"; "are"; "was"; "were"; "be"; "been"; "being";
   "have"; "has"; "had"; "do"; "does"; "did"; "will"; "would"; "could";
   "should"; "may"; "might"; "must"; "can"; "this"; "that"; "these";
   "those"; "i"; "you"; "he"; "she"; "it"; "we"; "they"; "me"; "him";
   "her"; "us"; "them"].

(** ** Data frames

    [pd.DataFrame(rows)]: the columns are the keys of the rows in order of
    first appearance; a cell that a row lacks reads as NaN. *)

Definition add_column (cols : list string) (k : string) : list string :=
  if mem k cols then cols else cols ++ [k].

Definition df_columns (df : DataFrame) : list string :=
  fold_left (fun cols row => fold_left add_column (keys row) cols) df [].

(** [len(df)] *)
Definition df_len (df : DataFrame) : Z := Z.of_nat (length df).

(** [df.empty]: no rows or no columns. *)
Definition df_empty (df : DataFrame) : bool :=
  (length df =? 0) || (length (df_columns df) =? 0).

(** [df[col]] *)
Definition df_getitem (df : DataFrame) (col : string) : result (list pyval) :=
  if mem col (df_columns df)
  then Ok (map (fun row => dict_get row col (PFloat S754_nan)) df)
  else Raise KeyError.

(** A cell that can be hashed: any value but a list. *)
Definition is_hashable (v : pyval) : bool :=
  match v with
  | PStr _ | PInt _ | PFloat _ | PNone => true
  | PList _ => false
  end.

(** [series.value_counts()]: the cells are hashed to be counted, so a
    list among them raises TypeError.  The counts are kept as the
    series they are taken from. *)
Definition value_counts (series : list pyval) : result (list pyval) :=
  if forallb is_hashable series then Ok series else Raise TypeError.

(** [series.value_counts().get(label, 0)] *)
Definition value_count (series : list pyval) (label : string) : Z :=
  Z.of_nat (length (filter (fun v => eq_str v label) series)).

(** [enumerate(l)] *)
Definition enumerate {A : Type} (l : list A) : list (nat * A) :=
  combine (seq 0 (length l)) l.

(** Binary64 arithmetic of the percentage computation. *)
Definition float_of_Z (z : Z) : float := binary_normalize 53 1024 z 0 false.
Definition float_div (a b : float) : float := SFdiv 53 1024 a b.
Definition float_mul (a b : float) : float := SFmul 53 1024 a b.

Section Pipeline.

(** [TextBlob(text).sentiment]: polarity and subjectivity of a string. *)
Variable textblob_sentiment : string -> float * float.

(** [stopwords.words('english')]; raises [LookupError] when the corpus
    is not installed. *)
Variable stopwords_words_english : result (list string).

(** [word_tokenize(s)]; raises [LookupError] when the tokenizer data is
    not installed. *)
Variable word_tokenize : string -> result (list string).

(** [format(x, '.2f')] *)
Variable format_2f : pyval -> result string.

(** [str(v)] for floats and lists. *)
Variable str_other : pyval -> string.

(** [str(v)] *)
Definition str (v : pyval) : string :=
  match v with
  | PStr s => s
  | PInt z => str_of_int z
  | PNone => "None"
  | other => str_other other
  end.

(** [TextBlob(text)]: the constructor refuses what is not a string. *)
Definition TextBlob (text : pyval) : result (float * float) :=
  match text with
  | PStr s => Ok (textblob_sentiment s)
  | _ => Raise TypeError
  end.

(** [text.lower()]: of the values of [pyval], only the strings have the
    method; an int, a float, None and a list raise AttributeError. *)
Definition method_lower (text : pyval) : result string :=
  match text with
  | PStr s => Ok (lower s)
  | PInt _ | PFloat _ | PNone | PList _ => Raise AttributeError
  end.

(** [analyze_sentiment_textblob(text)] *)
Definition analyze_sentiment_textblob (text : pyval)
  : result (string * float * float * float) :=
  analysis <- TextBlob text ;;
  let polarity := fst analysis in
  let subjectivity := snd analysis in
  let sentiment :=
    if float_gt polarity float_zero then "Positive"
    else if float_lt polarity float_zero then "Negative"
    else "Neutral" in
  let confidence := float_abs polarity in
  Ok (sentiment, confidence, polarity, subjectivity).

(** The two [try]/[except LookupError] blocks of [extract_keywords]. *)
Definition load_stop_words : result (list string) :=
  try_except_LookupError stopwords_words_english (Ok fallback_stop_words).

Definition tokenize (text : pyval) : result (list string) :=
  try_except_LookupError
    (lowered <- method_lower text ;; word_tokenize lowered)
    (lowered <- method_lower text ;; Ok (split lowered)).

(** [[word for word in word_tokens
      if word.isalpha() and word not in stop_words]] *)
Definition filter_words (stop_words word_tokens : list string) : list string :=
  filter (fun word => isalpha word && negb (mem word stop_words)) word_tokens.

(** The part of [extract_keywords] after the two resources are loaded. *)
Definition rank_keywords (stop_words word_tokens : list string) (num_keywords : Z)
  : list string :=
  let filtered_words := filter_words stop_words word_tokens in
  let word_counts := Counter filtered_words in
  let most_common := most_common num_keywords word_counts in
  map fst most_common.

(** [extract_keywords(text, num_keywords)] *)
Definition extract_keywords (text : pyval) (num_keywords : Z) : result (list string) :=
  stop_words <- load_stop_words ;;
  word_tokens <- tokenize text ;;
  Ok (rank_keywords stop_words word_tokens num_keywords).

(** One iteration of the loop of [batch_analyze_sentiment];
    [extract_keywords] is called with its default [num_keywords=5]. *)
Definition analyze_item (text_item : dict) : result dict :=
  text <- getitem text_item "text" ;;
  scores <- analyze_sentiment_textblob text ;;
  let '(sentiment, confidence, polarity, subjectivity) := scores in
  keywords <- extract_keywords text 5%Z ;;
  Ok [ ("text", text);
       ("sentiment", PStr sentiment);
       ("confidence", PFloat confidence);
       ("polarity", PFloat polarity);
       ("subjectivity", PFloat subjectivity);
       ("keywords", PList keywords);
       ("source", dict_get text_item "source" (PStr "N/A"));
       ("date", dict_get text_item "date" (PStr "N/A")) ].

(** [batch_analyze_sentiment(texts)] *)
Definition batch_analyze_sentiment (texts : list dict) : result DataFrame :=
  for_each analyze_item texts.

(** [get_sentiment_explanation(text, sentiment, polarity)] *)
Definition get_sentiment_explanation (text sentiment polarity : pyval)
  : result string :=
  if eq_str sentiment "Positive" then
    score <- format_2f polarity ;;
    Ok (String.concat EmptyString
          ["The text '"; str text;
           "' is classified as Positive due to words and phrases indicating approval or satisfaction. The polarity score is ";
           score; "."])
  else if eq_str sentiment "Negative" then
    score <- format_2f polarity ;;
    Ok (String.concat EmptyString
          ["The text '"; str text;
           "' is classified as Negative due to words and phrases indicating disapproval or dissatisfaction. The polarity score is ";
           score; "."])
  else
    score <- format_2f polarity ;;
    Ok (String.concat EmptyString
          ["The text '"; str text;
           "' is classified as Neutral. The polarity score is ";
           score;
           ". This could be due to a lack of strong emotional language or a balance of positive and negative terms."]).

(** *** [app.py]: what the callers do around the orchestrator *)

(** [results['explanation'] = results.apply(lambda row:
      get_sentiment_explanation(row['text'], row['sentiment'],
      row['polarity']), axis=1)] *)
Definition explain_row (row : dict) : result dict :=
  text <- getitem row "text" ;;
  sentiment <- getitem row "sentiment" ;;
  polarity <- getitem row "polarity" ;;
  explanation <- get_sentiment_explanation text sentiment polarity ;;
  Ok (dict_set row "explanation" (PStr explanation)).

Definition add_explanations (results : DataFrame) : result DataFrame :=
  for_each explain_row results.

(** [batch_text_analysis]: the records built from the non-blank lines
    [texts]; [default_date] is [str(default_date)]. *)
Definition batch_text_data (texts : list string) (default_source default_date : string)
  : list dict :=
  map (fun it : nat * string =>
         let (i, text) := it in
         [ ("text", PStr text);
           ("source",
            PStr (if (String.length default_source =? 0)
                  then String.append "Batch Input " (str_of_nat (i + 1))
                  else default_source));
           ("date", PStr default_date) ])
      (enumerate texts).

Definition batch_text_analysis (texts : list string) (default_source default_date : string)
  : result DataFrame :=
  results <- batch_analyze_sentiment (batch_text_data texts default_source default_date) ;;
  add_explanations results.

(** [file_upload_analysis]: the records built from the rows of the
    combined frame; [today] is [datetime.now().date()], which [str]
    renders as its ISO text. *)
Definition file_upload_record (today : string) (row : dict) : result dict :=
  text <- getitem row "text" ;;
  Ok [ ("text", PStr (str text));
       ("source",
        PStr (str (dict_get row "source"
                     (dict_get row "file_source" (PStr "File Upload")))));
       ("date", PStr (str (dict_get row "date" (PStr today)))) ].

Definition file_upload_analysis (today : string) (combined_df : DataFrame)
  : result DataFrame :=
  text_data <- for_each (file_upload_record today) combined_df ;;
  results <- batch_analyze_sentiment text_data ;;
  add_explanations results.

(** *** [visualizations.py] *)

(** [series.mean()] of a series of numbers and missing values. *)
Variable series_mean : list pyval -> pyval.

(** A cell that [mean()] can take: a number or a missing value.  A
    column that holds a string or a list has no mean. *)
Definition is_numeric (v : pyval) : bool :=
  match v with
  | PInt _ | PFloat _ | PNone => true
  | PStr _ | PList _ => false
  end.

Definition percentage (count total : Z) : pyval :=
  if (0 <? total)%Z
  then PFloat (float_mul (float_div (float_of_Z count) (float_of_Z total))
                         (float_of_Z 100))
  else PInt 0.

(** [df[col].mean() if col in df.columns else 0]; [mean()] raises
    TypeError on a column that holds a string or a list, which pandas
    does not convert to numbers. *)
Definition column_mean (df : DataFrame) (col : string) : result pyval :=
  if mem col (df_columns df)
  then (series <- df_getitem df col ;;
        if forallb is_numeric series then Ok (series_mean series)
        else Raise TypeError)
  else Ok (PInt 0).

(** [create_sentiment_metrics_summary(df)] *)
Definition create_sentiment_metrics_summary (df : DataFrame) : result dict :=
  if df_empty df then Ok []
  else
    let total_texts := df_len df in
    sentiments <- df_getitem df "sentiment" ;;
    sentiment_counts <- value_counts sentiments ;;
    let positive_count := value_count sentiment_counts "Positive" in
    let negative_count := value_count sentiment_counts "Negative" in
    let neutral_count := value_count sentiment_counts "Neutral" in
    let positive_pct := percentage positive_count total_texts in
    let negative_pct := percentage negative_count total_texts in
    let neutral_pct := percentage neutral_count total_texts in
    avg_confidence <- column_mean df "confidence" ;;
    avg_polarity <- column_mean df "polarity" ;;
    avg_subjectivity <- column_mean df "subjectivity" ;;
    Ok [ ("total_texts", PInt total_texts);
         ("positive_count", PInt positive_count);
         ("negative_count", PInt negative_count);
         ("neutral_count", PInt neutral_count);
         ("positive_pct", positive_pct);
         ("negative_pct", negative_pct);
         ("neutral_pct", neutral_pct);
         ("avg_confidence", avg_confidence);
         ("avg_polarity", avg_polarity);
         ("avg_subjectivity", avg_subjectivity) ].

End Pipeline.

(** ** Specification-side notions *)

(** An external call that fails only because its resource is missing. *)
Definition only_LookupError {A : Type} (r : result A) : Prop :=
  forall e, r = Raise e -> e = LookupError.

(** The stop-word set and the tokens that [extract_keywords] works with. *)
Definition stop_words_in_use (stopwords_words_english : result (list string))
  : list string :=
  match stopwords_words_english with
  | Ok stop_words => stop_words
  | Raise _ => fallback_stop_words
  end.

Definition tokens_in_use (word_tokenize : string -> result (list string))
  (text : string) : list string :=
  match word_tokenize (lower text) with
  | Ok word_tokens => word_tokens
  | Raise _ => split (lower text)
  end.

(** Position of the first occurrence of [w] in [l] ([length l] if none). *)
Fixpoint first_index (w : string) (l : list string) : nat :=
  match l with
  | [] => 0
  | x :: xs => if String.eqb x w then 0 else S (first_index w xs)
  end.

(** Number of occurrences of [w] in [l]. *)
Definition frequency (l : list string) (w : string) : nat :=
  count_occ string_dec l w.

(** Number of distinct words of [l]. *)
Definition distinct (l : list string) : nat :=
  length (nodup string_dec l).

(** The count that a counter holds for [w] (0 when [w] is not a key). *)
Fixpoint counter_get (c : counter) (w : string) : nat :=
  match c with
  | [] => 0
  | (k, n) :: c' => if String.eqb k w then n else counter_get c' w
  end.

(** No upper-case letter: the string is its own [lower()]. *)
Definition no_upper (s : string) : bool :=
  all_chars (fun c => negb (is_upper_char c)) s.

(** [a] is ranked before [b]: more frequent, or as frequent and first
    seen earlier. *)
Definition ranked_before (l : list string) (a b : string) : Prop :=
  frequency l b < frequency l a \/
  (frequency l a = frequency l b /\ first_index a l < first_index b l).

(** The order that a stable descending sort by count produces from an
    input in which [earlier a b] holds whenever [a] stands before [b]. *)
Definition count_then_earlier (earlier : string * nat -> string * nat -> Prop)
  (a b : string * nat) : Prop :=
  snd b < snd a \/ (snd a = snd b /\ earlier a b).

Definition batch_columns : list string :=
  ["text"; "sentiment"; "confidence"; "polarity"; "subjectivity";
   "keywords"; "source"; "date"].

Definition result_columns : list string := batch_columns ++ ["explanation"].

(** The column [col] of the frame, whether [value_counts] can count
    it: none of its cells is a list; and whether [column_mean] can
    average it: it is missing, or all its cells are numeric. *)
Definition column_values (df : DataFrame) (col : string) : list pyval :=
  map (fun row => dict_get row col (PFloat S754_nan)) df.
Definition countable (df : DataFrame) (col : string) : bool :=
  forallb is_hashable (column_values df col).

Definition averageable (df : DataFrame) (col : string) : bool :=
  negb (mem col (df_columns df)) || forallb is_numeric (column_values df col).

Definition metric_fields : list string :=
  ["total_texts"; "positive_count"; "negative_count"; "neutral_count";
   "positive_pct"; "negative_pct"; "neutral_pct";
   "avg_confidence"; "avg_polarity"; "avg_subjectivity"].

(** A record whose text is a string. *)
Definition has_str_text (text_item : dict) : Prop :=
  exists s, dict_lookup text_item "text" = Some (PStr s).

(** The row that the orchestrator builds for [text_item]. *)
Definition is_batch_row (text_item row : dict) : Prop :=
  exists text sentiment confidence polarity subjectivity keywords,
    dict_lookup text_item "text" = Some text /\
    row = [ ("text", text);
            ("sentiment", PStr sentiment);
            ("confidence", PFloat confidence);
            ("polarity", PFloat polarity);
            ("subjectivity", PFloat subjectivity);
            ("keywords", PList keywords);
            ("source", dict_get text_item "source" (PStr "N/A"));
            ("date", dict_get text_item "date" (PStr "N/A")) ].

(** The row after the caller has added its explanation. *)
Definition is_explained (row explained : dict) : Prop :=
  exists explanation, explained = row ++ [("explanation", PStr explanation)].

(** ** Concrete capabilities, for running the pipeline on examples *)

Definition float_half : float := S754_finite false 4503599627370496 (-53).
Definition float_minus_half : float := S754_finite true 4503599627370496 (-53).

(** A two-word lexicon. *)
Definition toy_sentiment (s : string) : float * float :=
  if mem "good" (split (lower s)) then (float_half, float_one)
  else if mem "bad" (split (lower s)) then (float_minus_half, float_one)
  else (float_zero, float_zero).

(** The NLTK data is not installed. *)
Definition no_corpus : result (list string) := Raise LookupError.
Definition no_tokenizer (s : string) : result (list string) := Raise LookupError.

(** The NLTK data is installed. *)
Definition toy_corpus : result (list string) := Ok ["the"; "on"; "and"; "is"].
Definition toy_tokenizer (s : string) : result (list string) := Ok (split s).

Definition toy_format_2f (v : pyval) : result string :=
  match v with
  | PFloat (S754_zero _) => Ok "0.00"
  | PFloat (S754_finite false _ _) => Ok "0.50"
  | PFloat (S754_finite true _ _) => Ok "-0.50"
  | PFloat S754_nan => Ok "nan"
  | PFloat (S754_infinity false) => Ok "inf"
  | PFloat (S754_infinity true) => Ok "-inf"
  | PInt z => Ok (String.append (str_of_int z) ".00")
  | _ => Raise TypeError
  end.

Definition toy_str_other (v : pyval) : string := "nan".

Definition toy_mean (series : list pyval) : pyval := PFloat float_zero.

Definition cat_text : string := "The cat sat on the mat and the cat slept".

(** Two records, one without a date and one without a source. *)
Definition two_records : list dict :=
  [ [("text", PStr "This is good"); ("source", PStr "survey")];
    [("text", PStr "bad bad day"); ("date", PStr "2024-05-01")] ].

(** Two records without source and date. *)
Definition bare_records : list dict :=
  [ [("text", PStr "good")]; [("text", PStr "bad")] ].

(** A batch whose second text is the number 5. *)
Definition mixed_records : list dict :=
  [ [("text", PStr "good")]; [("text", PInt 5)] ].

(** The same cells as rows of an uploaded file. *)
Definition uploaded_rows : DataFrame :=
  [ [("text", PStr "good"); ("file_source", PStr "a.csv")];
    [("text", PInt 5); ("file_source", PStr "a.csv")] ].

(** ** More of [app.py] and of [export_utils.py] *)

(** [s.lstrip()], [s.rstrip()] and [s.strip()] *)
Fixpoint lstrip (s : string) : string :=
  match s with
  | EmptyString => EmptyString
  | String c s' => if is_space_char c then lstrip s' else s
  end.

Fixpoint rstrip (s : string) : string :=
  match s with
  | EmptyString => EmptyString
  | String c s' =>
      match rstrip s' with
      | EmptyString => if is_space_char c then EmptyString else String c EmptyString
      | kept => String c kept
      end
  end.

Definition strip (s : string) : string := rstrip (lstrip s).

(** A string that does not begin with whitespace. *)
Definition starts_clean (s : string) : Prop :=
  match s with
  | EmptyString => True
  | String c _ => is_space_char c = false
  end.

(** The truth value of a string: it is not empty. *)
Definition truthy (s : string) : bool := negb (String.length s =? 0).

Definition newline : ascii := ascii_of_nat 10.

(** [s.split(sep)] for a separator of one character: the pieces between
    the separators, empty pieces included. *)
Fixpoint split_on (sep : ascii) (s : string) : list string :=
  match s with
  | EmptyString => [EmptyString]
  | String c s' =>
      if Ascii.eqb c sep then EmptyString :: split_on sep s'
      else match split_on sep s' with
           | piece :: pieces => String c piece :: pieces
           | [] => [String c EmptyString]
           end
  end.

(** [[line.strip() for line in content.split('\n') if line.strip()]] *)
Definition nonblank_lines (content : string) : list string :=
  map strip (filter (fun line => truthy (strip line)) (split_on newline content)).

(** [s.endswith(suffix)] *)
Definition endswith (s suffix : string) : bool :=
  (String.length suffix <=? String.length s) &&
  String.eqb (substring (String.length s - String.length suffix)
                        (String.length suffix) s)
             suffix.

(** A frame with its columns, which a frame without rows still has. *)
Definition frame : Type := list string * list dict.

Definition frame_of (df : DataFrame) : frame := (df_columns df, df).

(** The row with exactly the columns [cols]; a missing cell is NaN. *)
Definition reindex (cols : list string) (row : dict) : dict :=
  map (fun col => (col, dict_get row col (PFloat S754_nan))) cols.

Definition union_columns (frames : list frame) : list string :=
  fold_left (fun cols f => fold_left add_column (fst f) cols) frames [].

(** [pd.concat(frames, ignore_index=True)]: the rows of the frames one
    after the other, over the union of their columns. *)
Definition pd_concat (frames : list frame) : result DataFrame :=
  match frames with
  | [] => Raise ValueError
  | _ => Ok (map (reindex (union_columns frames)) (concat (map snd frames)))
  end.

(** [df[col] = v] with a scalar [v] *)
Definition frame_set_column (f : frame) (col : string) (v : pyval) : frame :=
  (add_column (fst f) col, map (fun row => dict_set row col v) (snd f)).

(** An uploaded file: its name, what [pd.read_csv] returns for it and
    what [read().decode('utf-8')] returns for it. *)
Record uploaded_file : Type := {
  file_name : string;
  file_read_csv : result frame;
  file_read_decode : result string
}.

(** The body of the [try] in the loop of [batch_process_files]: the
    frame to append, if any. *)
Definition process_file (f : uploaded_file) : result (option frame) :=
  if endswith (file_name f) ".csv" then
    df <- file_read_csv f ;;
    if mem "text" (fst df)
    then Ok (Some (frame_set_column df "file_source" (PStr (file_name f))))
    else Ok None
  else if endswith (file_name f) ".txt" then
    content <- file_read_decode f ;;
    let lines := nonblank_lines content in
    Ok (Some (["text"; "file_source"],
              map (fun line => [("text", PStr line);
                                ("file_source", PStr (file_name f))]) lines))
  else Ok None.

(** The loop of [batch_process_files]; [except Exception] skips the
    file. *)
Definition collect_frames (uploaded_files : list uploaded_file) : list frame :=
  fold_left (fun all_results f =>
               match process_file f with
               | Ok (Some df) => all_results ++ [df]
               | Ok None => all_results
               | Raise _ => all_results
               end)
            uploaded_files [].

(** [batch_process_files(uploaded_files)] *)
Definition batch_process_files (uploaded_files : list uploaded_file)
  : result DataFrame :=
  match collect_frames uploaded_files with
  | [] => Ok []
  | all_results => pd_concat all_results
  end.

(** [pd.concat([st.session_state.analysis_results, results],
    ignore_index=True)] *)
Definition session_append (analysis_results results : DataFrame)
  : result DataFrame :=
  pd_concat [frame_of analysis_results; frame_of results].

(** The "Clear All Results" button: [pd.DataFrame()] *)
Definition clear_all_results : DataFrame := [].

Section Session.

Variable textblob_sentiment : string -> float * float.
Variable stopwords_words_english : result (list string).
Variable word_tokenize : string -> result (list string).
Variable format_2f : pyval -> result string.
Variable str_other : pyval -> string.

(** [single_text_analysis], from the pressed button on: the session
    results afterwards.  [date] is [str(date)]. *)
Definition single_text_analysis (analysis_results : DataFrame)
  (text_input source date : string) (num_keywords : Z) : result DataFrame :=
  if truthy (strip text_input) then
    scores <- analyze_sentiment_textblob textblob_sentiment (PStr text_input) ;;
    let '(sentiment, confidence, polarity, subjectivity) := scores in
    keywords <- extract_keywords stopwords_words_english word_tokenize
                                 (PStr text_input) num_keywords ;;
    explanation <- get_sentiment_explanation format_2f str_other
                     (PStr text_input) (PStr sentiment) (PFloat polarity) ;;
    session_append analysis_results
      [[ ("text", PStr text_input);
         ("sentiment", PStr sentiment);
         ("confidence", PFloat confidence);
         ("polarity", PFloat polarity);
         ("subjectivity", PFloat subjectivity);
         ("keywords", PList keywords);
         ("source", PStr (if truthy source then source else "Manual Input"));
         ("date", PStr date);
         ("explanation", PStr explanation) ]]
  else Ok analysis_results.

(** [batch_text_analysis], from the pressed button on: the session
    results afterwards. *)
Definition batch_text_session (analysis_results : DataFrame)
  (batch_text default_source default_date : string) : result DataFrame :=
  if truthy (strip batch_text) then
    results <- batch_text_analysis textblob_sentiment stopwords_words_english
                 word_tokenize format_2f str_other
                 (nonblank_lines batch_text) default_source default_date ;;
    session_append analysis_results results
  else Ok analysis_results.

(** [file_upload_analysis], from the pressed button on: the session
    results afterwards; [except Exception] reports the error and leaves
    them as they were. *)
Definition file_upload_session (analysis_results : DataFrame) (today : string)
  (uploaded_files : list uploaded_file) : DataFrame :=
  match
    (combined_df <- batch_process_files uploaded_files ;;
     if df_empty combined_df then Ok analysis_results
     else
       results <- file_upload_analysis textblob_sentiment stopwords_words_english
                    word_tokenize format_2f str_other today combined_df ;;
       session_append analysis_results results)
  with
  | Ok session => session
  | Raise _ => analysis_results
  end.

End Session.

(** Files for the upload form: a text file of two lines among blank
    ones, a CSV file with a source column and a number as second text,
    and a picture. *)
Definition notes_content : string :=
  String.concat (String newline EmptyString)
                ["good day"; EmptyString; "  bad day  "; EmptyString].

Definition notes_txt : uploaded_file :=
  {| file_name := "notes.txt";
     file_read_csv := Raise ValueError;
     file_read_decode := Ok notes_content |}.

Definition data_csv_frame : frame :=
  (["text"; "source"],
   [ [("text", PStr "good"); ("source", PStr "survey")];
     [("text", PInt 5); ("source", PStr "survey")] ]).

Definition data_csv : uploaded_file :=
  {| file_name := "data.csv";
     file_read_csv := Ok data_csv_frame;
     file_read_decode := Raise ValueError |}.

Definition image_png : uploaded_file :=
  {| file_name := "image.png";
     file_read_csv := Raise ValueError;
     file_read_decode := Raise ValueError |}.

(** Analysed rows without the average columns, and rows without a
    sentiment column. *)
Definition labelled_rows : DataFrame :=
  [ [("text", PStr "good"); ("sentiment", PStr "Positive")];
    [("text", PStr "bad"); ("sentiment", PStr "Negative")];
    [("text", PStr "so so"); ("sentiment", PStr "Mixed")] ].

Definition unlabelled_rows : DataFrame := [ [("text", PStr "good")] ].

(** A session that already holds the result of one analysis. *)
Definition earlier_session : DataFrame :=
  [ [ ("text", PStr "bad day");
      ("sentiment", PStr "Negative");
      ("confidence", PFloat float_half);
      ("polarity", PFloat float_minus_half);
      ("subjectivity", PFloat float_one);
      ("keywords", PList ["bad"; "day"]);
      ("source", PStr "Manual Input");
      ("date", PStr "2024-04-30");
      ("explanation", PStr "negative") ] ].

(** Rows whose confidence was written in words. *)
Definition worded_rows : DataFrame :=
  [ [("text", PStr "good"); ("sentiment", PStr "Positive");
     ("confidence", PStr "high")];
    [("text", PStr "bad"); ("sentiment", PStr "Negative");
     ("confidence", PStr "low")] ].

(** How an output row of the file upload relates to the row of the
    combined frame it was made from. *)
Definition uploaded_as (str_other : pyval -> string) (today : string)
  (row out : dict) : Prop :=
  keys out = result_columns /\
  (forall cell, dict_lookup row "text" = Some cell ->
                dict_lookup out "text" = Some (PStr (str str_other cell))) /\
  dict_lookup out "source" =
    Some (PStr (str str_other
                  (dict_get row "source"
                     (dict_get row "file_source" (PStr "File Upload"))))) /\
  dict_lookup out "date" =
    Some (PStr (str str_other (dict_get row "date" (PStr today)))).

(** ** The keyword extractor on Unicode text

    A Python string is a sequence of code points, and [str.lower],
    [str.isalpha], [str.islower] and [str.split] read the Unicode
    character database.  This module repeats [extract_keywords], for a
    string argument, over code points and an arbitrary database: it
    serves the properties that depend on which characters are letters
    and on what [lower] does to them. *)

Module Unicode.

Definition text : Type := list N.

(** The tables that the string methods read: the full lower-case
    mapping of a character and its properties. *)
Record database : Type := {
  to_lower : N -> list N;
  is_alpha : N -> bool;
  is_space : N -> bool;
  is_upper : N -> bool;
  is_lower : N -> bool;
  is_title : N -> bool;
  is_cased : N -> bool;
  is_case_ignorable : N -> bool
}.

(** The capital sigma U+03A3 and its two lower-case forms U+03C3 and,
    at the end of a word, U+03C2. *)
Definition capital_sigma : N := 0x3A3%N.
Definition small_sigma : N := 0x3C3%N.
Definition final_small_sigma : N := 0x3C2%N.

Section Strings.

Variable db : database.

(** The first character that is not case-ignorable. *)
Fixpoint first_not_ignorable (s : text) : option N :=
  match s with
  | [] => None
  | c :: s' => if is_case_ignorable db c then first_not_ignorable s' else Some c
  end.

(** Whether a capital sigma ends a word: case-ignorable characters set
    aside, a cased character stands before it and none after it.
    [before] is the text in front of the sigma, read backwards. *)
Definition final_sigma (before after : text) : bool :=
  match first_not_ignorable before with
  | Some c =>
      is_cased db c &&
      match first_not_ignorable after with
      | Some d => negb (is_cased db d)
      | None => true
      end
  | None => false
  end.

(** The lower-case form of the character [c] between [before] and
    [after]. *)
Definition lower_char (before : text) (c : N) (after : text) : text :=
  if (c =? capital_sigma)%N
  then [if final_sigma before after then final_small_sigma else small_sigma]
  else to_lower db c.

Fixpoint lower_aux (before s : text) : text :=
  match s with
  | [] => []
  | c :: s' => lower_char before c s' ++ lower_aux (c :: before) s'
  end.

(** [s.lower()] *)
Definition lower (s : text) : text := lower_aux [] s.

(** [s.isalpha()]: at least one character and every character a letter. *)
Definition isalpha (s : text) : bool :=
  match s with
  | [] => false
  | _ => forallb (is_alpha db) s
  end.

(** [s.islower()]: no upper-case or title-case character and at least
    one lower-case character. *)
Definition islower (s : text) : bool :=
  forallb (fun c => negb (is_upper db c || is_title db c)) s &&
  existsb (is_lower db) s.

(** [s.isupper()]: no lower-case or title-case character and at least
    one upper-case character. *)
Definition isupper (s : text) : bool :=
  forallb (fun c => negb (is_lower db c || is_title db c)) s &&
  existsb (is_upper db) s.

(** [s.split()]: the maximal runs of non-whitespace characters.
    [cur] is the run being read, in reverse. *)
Definition flush (cur : text) (acc : list text) : list text :=
  match cur with
  | [] => acc
  | _ => rev cur :: acc
  end.

Fixpoint split_aux (s cur : text) (acc : list text) : list text :=
  match s with
  | [] => rev (flush cur acc)
  | c :: s' =>
      if is_space db c then split_aux s' [] (flush cur acc)
      else split_aux s' (c :: cur) acc
  end.

Definition split (s : text) : list text := split_aux s [] [].

End Strings.

(** Equality of strings is equality of their code points. *)
Fixpoint text_eqb (a b : text) : bool :=
  match a, b with
  | [], [] => true
  | x :: a', y :: b' => (x =? y)%N && text_eqb a' b'
  | _, _ => false
  end.

(** Membership in a Python [set] of strings. *)
Definition mem (w : text) (l : list text) : bool :=
  existsb (text_eqb w) l.

(** An ASCII literal of the source as code points. *)
Definition literal (s : string) : text :=
  map N_of_ascii (list_ascii_of_string s).

(** [collections.Counter] and [most_common], as above. *)
Definition counter : Type := list (text * nat).

Fixpoint counter_incr (w : text) (c : counter) : counter :=
  match c with
  | [] => [(w, 1)]
  | (k, n) :: c' =>
      if text_eqb k w then (k, S n) :: c' else (k, n) :: counter_incr w c'
  end.

Definition Counter (words : list text) : counter :=
  fold_left (fun c w => counter_incr w c) words [].

Fixpoint insert_item (x : text * nat) (l : counter) : counter :=
  match l with
  | [] => [x]
  | y :: l' => if snd x <? snd y then y :: insert_item x l' else x :: y :: l'
  end.

Definition sorted_by_count (c : counter) : counter :=
  fold_right insert_item [] c.

Definition most_common (n : Z) (c : counter) : counter :=
  firstn (Z.to_nat n) (sorted_by_count c).

(** The built-in stop words of the fallback. *)
Definition fallback_stop_words : list text := map literal fallback_stop_words.

Section Extractor.

Variable db : database.

(** [stopwords.words('english')] and [word_tokenize(s)]; each raises
    [LookupError] when its data is not installed. *)
Variable stopwords_words_english : result (list text).
Variable word_tokenize : text -> result (list text).

(** The two [try]/[except LookupError] blocks of [extract_keywords]. *)
Definition load_stop_words : result (list text) :=
  try_except_LookupError stopwords_words_english (Ok fallback_stop_words).

Definition tokenize (text : text) : result (list Unicode.text) :=
  try_except_LookupError
    (word_tokenize (lower db text))
    (Ok (split db (lower db text))).

(** [[word for word in word_tokens
      if word.isalpha() and word not in stop_words]] *)
Definition filter_words (stop_words word_tokens : list text) : list text :=
  filter (fun word => isalpha db word && negb (mem word stop_words)) word_tokens.

Definition rank_keywords (stop_words word_tokens : list text) (num_keywords : Z)
  : list text :=
  let filtered_words := filter_words stop_words word_tokens in
  let word_counts := Counter filtered_words in
  let most_common := most_common num_keywords word_counts in
  map fst most_common.

(** [extract_keywords(text, num_keywords)] for a string [text] *)
Definition extract_keywords (text : text) (num_keywords : Z) : result (list Unicode.text) :=
  stop_words <- load_stop_words ;;
  word_tokens <- tokenize text ;;
  Ok (rank_keywords stop_words word_tokens num_keywords).

End Extractor.

(** *** Specification-side notions *)

(** A character that [lower] leaves as it is, wherever it stands. *)
Definition unchanged_by_lower (db : database) (c : N) : Prop :=
  c <> capital_sigma /\ to_lower db c = [c].

(** Lower-casing settles: the characters that [lower] produces are
    left as they are by [lower]. *)
Definition lower_settles (db : database) : Prop :=
  (forall c d, In d (to_lower db c) -> unchanged_by_lower db d) /\
  unchanged_by_lower db small_sigma /\
  unchanged_by_lower db final_small_sigma.

(** The tokenizer invents no letters: the characters of an alphabetic
    token are characters of the tokenized text. *)
Definition keeps_letters (db : database)
  (word_tokenize : text -> result (list text)) : Prop :=
  forall s tokens w c,
    word_tokenize s = Ok tokens -> In w tokens -> isalpha db w = true ->
    In c w -> In c s.

(** The stop words and the tokens that [extract_keywords] works with. *)
Definition stop_words_in_use (stopwords_words_english : result (list text))
  : list text :=
  match stopwords_words_english with
  | Ok stop_words => stop_words
  | Raise _ => fallback_stop_words
  end.

Definition tokens_in_use (db : database)
  (word_tokenize : text -> result (list text)) (s : text) : list text :=
  match word_tokenize (lower db s) with
  | Ok word_tokens => word_tokens
  | Raise _ => split db (lower db s)
  end.

(** *** An excerpt of the character database

    ASCII, Latin-1, the dotted capital I U+0130 and the dotless i
    U+0131, the Greek alphabet U+0391..U+03C9, the combining marks
    U+0300..U+0344 and the mathematical bold letters U+1D400..U+1D433,
    which are upper-case and lower-case letters without case mappings.
    Every other character is left out: it counts as a character without
    case that is neither a letter nor a space. *)

Definition between (lo hi c : N) : bool := ((lo <=? c) && (c <=? hi))%N.

(** The characters with a one-character lower-case form 32 places on. *)
Definition shifts_to_lower (c : N) : bool :=
  between 0x41 0x5A c ||
  (between 0xC0 0xDE c && negb (c =? 0xD7)%N) ||
  (between 0x391 0x3A9 c && negb (c =? 0x3A2)%N).

Definition sample_to_lower (c : N) : list N :=
  if shifts_to_lower c then [(c + 32)%N]
  else if (c =? 0x130)%N then [0x69%N; 0x307%N]
  else [c].

Definition sample_is_upper (c : N) : bool :=
  shifts_to_lower c || (c =? 0x130)%N || between 0x1D400 0x1D419 c.

Definition sample_is_lower (c : N) : bool :=
  between 0x61 0x7A c ||
  (c =? 0xAA)%N || (c =? 0xB5)%N || (c =? 0xBA)%N ||
  (between 0xDF 0xFF c && negb (c =? 0xF7)%N) ||
  (c =? 0x131)%N ||
  between 0x3B1 0x3C9 c ||
  between 0x1D41A 0x1D433 c.

Definition sample_is_space (c : N) : bool :=
  between 0x09 0x0D c || between 0x1C 0x20 c || (c =? 0x85)%N || (c =? 0xA0)%N.

Definition sample_is_case_ignorable (c : N) : bool :=
  (c =? 0x27)%N || (c =? 0x2E)%N || (c =? 0x3A)%N || (c =? 0x5E)%N ||
  (c =? 0x60)%N || (c =? 0xA8)%N || (c =? 0xAD)%N || (c =? 0xAF)%N ||
  (c =? 0xB4)%N || (c =? 0xB7)%N || (c =? 0xB8)%N || between 0x300 0x344 c.

Definition sample : database :=
  {| to_lower := sample_to_lower;
     is_alpha := fun c => sample_is_upper c || sample_is_lower c;
     is_space := sample_is_space;
     is_upper := sample_is_upper;
     is_lower := sample_is_lower;
     is_title := fun _ => false;
     is_cased := fun c => sample_is_upper c || sample_is_lower c;
     is_case_ignorable := sample_is_case_ignorable |}.

(** The database cut down to ASCII: the tables of the [string] model
    above, in which the characters above 127 are left alone and are
    neither letters nor spaces. *)
Definition ascii_only : database :=
  {| to_lower := fun c => if between 0x41 0x5A c then [(c + 32)%N] else [c];
     is_alpha := fun c => between 0x41 0x5A c || between 0x61 0x7A c;
     is_space := fun c => between 0x09 0x0D c || between 0x1C 0x20 c;
     is_upper := fun c => between 0x41 0x5A c;
     is_lower := fun c => between 0x61 0x7A c;
     is_title := fun _ => false;
     is_cased := fun c => between 0x41 0x5A c || between 0x61 0x7A c;
     is_case_ignorable := fun _ => false |}.

(** A result of the [string] model as a result over code points. *)
Definition literals (r : result (list string)) : result (list text) :=
  match r with
  | Ok words => Ok (map literal words)
  | Raise e => Raise e
  end.

(** The NLTK data is not installed. *)
Definition no_corpus : result (list text) := Raise LookupError.
Definition no_tokenizer (s : text) : result (list text) := Raise LookupError.

(** The NLTK data is installed. *)
Definition toy_corpus : result (list text) :=
  Ok (map literal ["the"; "on"; "and"; "is"]).
Definition toy_tokenizer (s : text) : result (list text) := Ok (split sample s).

(** The one-letter text U+1D400, MATHEMATICAL BOLD CAPITAL A. *)
Definition bold_capital_a : text := [0x1D400%N].

(** The text "Café ΟΔΟΣ café" followed by a space and U+1D400. *)
Definition street_text : text :=
  [0x43; 0x61; 0x66; 0xE9; 0x20;
   0x39F; 0x394; 0x39F; 0x3A3; 0x20;
   0x63; 0x61; 0x66; 0xE9; 0x20;
   0x1D400]%N.

End Unicode.

(** * Properties *)

(** ** Floats *)

Lemma float_sign_trichotomy (p : float) :
  p <> S754_nan ->
  (float_gt p float_zero = true /\ float_lt p float_zero = false /\ float_eq p float_zero = false) \/
  (float_gt p float_zero = false /\ float_lt p float_zero = true /\ float_eq p float_zero = false) \/
  (float_gt p float_zero = false /\ float_lt p float_zero = false /\ float_eq p float_zero = true).
Proof.
  intros Hnan.
  destruct p as [s | s | | s m e]; try congruence; destruct s; cbn; tauto.
Qed.

Lemma float_le_not_nan (a b : float) : float_le a b = true -> b <> S754_nan.
Proof.
  intros H ->. destruct a; discriminate H.
Qed.

Lemma abs_between_opposites (m1 : positive) (e1 : Z) (p : float) :
  SFleb (S754_finite true m1 e1) p = true ->
  SFleb p (S754_finite false m1 e1) = true ->
  SFleb (S754_zero false) (SFabs p) = true /\
  SFleb (SFabs p) (S754_finite false m1 e1) = true.
Proof.
  unfold SFleb.
  destruct p as [s | s | | s m e]; simpl.
  - intros _ _. split; reflexivity.
  - destruct s; discriminate.
  - discriminate.
  - destruct s; simpl.
    + (* a negative number above the lower bound *)
      intros Hlow _. split; [reflexivity|].
      rewrite (Z.compare_antisym e e1) in Hlow.
      destruct (Z.compare e e1); simpl in *; try reflexivity; try discriminate.
      change (Pos.compare_cont Eq ?a ?b) with (Pos.compare a b) in *.
      rewrite (Pos.compare_antisym m m1) in Hlow.
      destruct (Pos.compare m m1); simpl in *; congruence.
    + intros _ Hup. split; [reflexivity | exact Hup].
Qed.

Lemma float_abs_in_unit (p : float) :
  float_le float_minus_one p = true ->
  float_le p float_one = true ->
  float_le float_zero (float_abs p) = true /\ float_le (float_abs p) float_one = true.
Proof. apply abs_between_opposites. Qed.

(** ** Characters and strings *)

Lemma lower_char_not_upper (c : ascii) : is_upper_char (lower_char c) = false.
Proof.
  destruct c as [[] [] [] [] [] [] [] []]; vm_compute; reflexivity.
Qed.

Lemma no_upper_lower (s : string) : no_upper (lower s) = true.
Proof.
  induction s as [| c s IH]; [reflexivity|].
  unfold no_upper in *. cbn. now rewrite lower_char_not_upper, IH.
Qed.

Lemma no_upper_fixes_lower (s : string) : no_upper s = true -> lower s = s.
Proof.
  unfold no_upper. induction s as [| c s IH]; cbn; [reflexivity|].
  intros [Hc Hs]%andb_true_iff. rewrite (IH Hs).
  unfold lower_char. apply negb_true_iff in Hc. now rewrite Hc.
Qed.

Lemma alpha_no_upper_is_lower (c : ascii) :
  is_alpha_char c = true -> is_upper_char c = false -> is_lower_char c = true.
Proof.
  unfold is_alpha_char. intros H Hu. rewrite Hu in H. exact H.
Qed.

Lemma isalpha_all_chars (w : string) :
  isalpha w = true -> all_chars is_alpha_char w = true.
Proof. destruct w; [discriminate | trivial]. Qed.

Lemma isalpha_no_upper_lowercase (w : string) :
  isalpha w = true -> no_upper w = true -> all_chars is_lower_char w = true.
Proof.
  intros Ha%isalpha_all_chars Hn. unfold no_upper in Hn.
  induction w as [| c w IH]; [reflexivity|]. cbn in *.
  apply andb_true_iff in Ha as [Hc Ha]. apply andb_true_iff in Hn as [Hu Hn].
  apply negb_true_iff in Hu.
  now rewrite (alpha_no_upper_is_lower c Hc Hu), (IH Ha Hn).
Qed.

Lemma all_chars_rev_string (p : ascii -> bool) (cur : list ascii) :
  forallb p cur = true -> all_chars p (rev_string cur) = true.
Proof.
  unfold rev_string. intros H.
  assert (Hrev : forallb p (rev cur) = true).
  { rewrite forallb_forall in *. intros x Hx. apply H, in_rev, Hx. }
  clear H. induction (rev cur) as [| c l IH]; [reflexivity|]. cbn in *.
  apply andb_true_iff in Hrev as [Hc Hl]. now rewrite Hc, IH.
Qed.

Lemma split_aux_all_chars (p : ascii -> bool) (s : string) :
  forall cur acc,
    all_chars p s = true ->
    forallb p cur = true ->
    Forall (fun w => all_chars p w = true) acc ->
    Forall (fun w => all_chars p w = true) (split_aux s cur acc).
Proof.
  assert (Hflush : forall cur acc,
             forallb p cur = true ->
             Forall (fun w => all_chars p w = true) acc ->
             Forall (fun w => all_chars p w = true) (flush cur acc)).
  { intros [| c cur] acc Hc Ha; cbn [flush]; [exact Ha|].
    constructor; [now apply all_chars_rev_string | exact Ha]. }
  induction s as [| c s IH]; intros cur acc Hs Hcur Hacc; cbn.
  - apply Forall_rev, Hflush; assumption.
  - cbn in Hs. apply andb_true_iff in Hs as [Hc Hs].
    destruct (is_space_char c).
    + apply IH; [exact Hs | reflexivity | now apply Hflush].
    + apply IH; [exact Hs | cbn; now rewrite Hc | exact Hacc].
Qed.

(** The whitespace tokenizer only cuts: a letter case that the text lacks
    is absent from every token. *)
Lemma split_no_upper (s w : string) :
  no_upper s = true -> In w (split s) -> no_upper w = true.
Proof.
  intros Hs Hw. unfold no_upper in *.
  pose proof (split_aux_all_chars _ s [] [] Hs eq_refl (Forall_nil _)) as H.
  rewrite Forall_forall in H. now apply H.
Qed.

Lemma mem_In (w : string) (l : list string) : mem w l = true <-> In w l.
Proof.
  unfold mem. rewrite existsb_exists. split.
  - intros [x [Hx Heq]]. apply String.eqb_eq in Heq. now subst.
  - intros H. exists w. split; [exact H | apply String.eqb_refl].
Qed.

Lemma mem_false_not_In (w : string) (l : list string) : mem w l = false <-> ~ In w l.
Proof.
  rewrite <- mem_In. destruct (mem w l); split; congruence.
Qed.

(** ** Counters *)

Lemma Counter_snoc (l : list string) (w : string) :
  Counter (l ++ [w]) = counter_incr w (Counter l).
Proof. unfold Counter. now rewrite fold_left_app. Qed.

Lemma counter_incr_keys (w : string) (c : counter) :
  map fst (counter_incr w c) =
  if mem w (map fst c) then map fst c else map fst c ++ [w].
Proof.
  induction c as [| [k n] c IH]; cbn; [reflexivity|].
  rewrite (String.eqb_sym w k). destruct (String.eqb k w); cbn; [reflexivity|].
  rewrite IH. unfold mem. now destruct (existsb (String.eqb w) (map fst c)).
Qed.

Lemma counter_incr_get (w w' : string) (c : counter) :
  counter_get (counter_incr w c) w' =
  if String.eqb w w' then S (counter_get c w') else counter_get c w'.
Proof.
  induction c as [| [k n] c IH]; cbn.
  - now destruct (String.eqb w w').
  - destruct (String.eqb k w) eqn:Hkw; cbn.
    + apply String.eqb_eq in Hkw. subst k. now destruct (String.eqb w w').
    + destruct (String.eqb k w') eqn:Hkw'; [|exact IH].
      apply String.eqb_eq in Hkw'. subst k.
      rewrite String.eqb_sym in Hkw. now rewrite Hkw.
Qed.

Lemma frequency_snoc (l : list string) (w w' : string) :
  frequency (l ++ [w]) w' =
  if String.eqb w w' then S (frequency l w') else frequency l w'.
Proof.
  unfold frequency. rewrite count_occ_app. cbn.
  destruct (string_dec w w') as [-> | Hne].
  - rewrite String.eqb_refl. lia.
  - apply String.eqb_neq in Hne. rewrite Hne. lia.
Qed.

Lemma Counter_get (l : list string) (w : string) :
  counter_get (Counter l) w = frequency l w.
Proof.
  induction l as [| x l IH] using rev_ind; [reflexivity|].
  rewrite Counter_snoc, counter_incr_get, frequency_snoc, IH. reflexivity.
Qed.

Lemma Counter_keys_In (l : list string) (w : string) :
  In w (map fst (Counter l)) <-> In w l.
Proof.
  induction l as [| x l IH] using rev_ind; [reflexivity|].
  rewrite Counter_snoc, counter_incr_keys, in_app_iff. cbn.
  destruct (mem x (map fst (Counter l))) eqn:Hm.
  - apply mem_In in Hm. rewrite IH. split; [tauto|].
    intros [H | [<- | []]]; [exact H | now apply IH].
  - rewrite in_app_iff, IH. cbn. tauto.
Qed.

Lemma Counter_keys_NoDup (l : list string) : NoDup (map fst (Counter l)).
Proof.
  induction l as [| x l IH] using rev_ind; [constructor|].
  rewrite Counter_snoc, counter_incr_keys.
  destruct (mem x (map fst (Counter l))) eqn:Hm; [exact IH|].
  apply mem_false_not_In in Hm.
  apply NoDup_rev in IH. rewrite <- (rev_involutive (_ ++ _)).
  apply NoDup_rev. rewrite rev_app_distr. cbn. constructor; [|exact IH].
  now rewrite <- in_rev.
Qed.

Lemma counter_get_In (c : counter) (w : string) (n : nat) :
  NoDup (map fst c) -> In (w, n) c -> counter_get c w = n.
Proof.
  induction c as [| [k m] c IH]; cbn; [tauto|].
  intros Hnd [Heq | Hin].
  - inversion Heq; subst. now rewrite String.eqb_refl.
  - inversion Hnd as [| ? ? Hk Hnd']; subst.
    destruct (String.eqb k w) eqn:Hkw; [|now apply IH].
    apply String.eqb_eq in Hkw. subst k.
    exfalso. apply Hk. apply (in_map fst) in Hin. exact Hin.
Qed.

(** Every item of the counter holds the frequency of its word. *)
Lemma Counter_items (l : list string) (w : string) (n : nat) :
  In (w, n) (Counter l) -> In w l /\ n = frequency l w.
Proof.
  intros Hin. split.
  - apply Counter_keys_In. apply (in_map fst) in Hin. exact Hin.
  - rewrite <- Counter_get. symmetry.
    apply counter_get_In; [apply Counter_keys_NoDup | exact Hin].
Qed.

Lemma Counter_length (l : list string) : length (Counter l) = distinct l.
Proof.
  unfold distinct. rewrite <- (length_map fst).
  apply Permutation_length, NoDup_Permutation.
  - apply Counter_keys_NoDup.
  - apply NoDup_nodup.
  - intros w. rewrite Counter_keys_In, nodup_In. reflexivity.
Qed.

(** *** First occurrences *)

Lemma first_index_lt (w : string) (l : list string) :
  In w l -> first_index w l < length l.
Proof.
  induction l as [| x l IH]; cbn; [tauto|].
  intros H. destruct (String.eqb x w) eqn:Hx; [lia|].
  apply String.eqb_neq in Hx. destruct H as [H | H]; [congruence|].
  specialize (IH H). lia.
Qed.

Lemma first_index_app_In (w : string) (l l' : list string) :
  In w l -> first_index w (l ++ l') = first_index w l.
Proof.
  induction l as [| x l IH]; cbn; [tauto|].
  intros H. destruct (String.eqb x w) eqn:Hx; [reflexivity|].
  apply String.eqb_neq in Hx. destruct H as [H | H]; [congruence|].
  now rewrite IH.
Qed.

Lemma first_index_app_notIn (w : string) (l : list string) :
  ~ In w l -> first_index w (l ++ [w]) = length l.
Proof.
  induction l as [| x l IH]; cbn.
  - now rewrite String.eqb_refl.
  - intros H. destruct (String.eqb x w) eqn:Hx.
    + apply String.eqb_eq in Hx. tauto.
    + rewrite IH; tauto.
Qed.

Lemma StronglySorted_snoc {A : Type} (R : A -> A -> Prop) (l : list A) (x : A) :
  StronglySorted R l -> Forall (fun y => R y x) l -> StronglySorted R (l ++ [x]).
Proof.
  induction 1 as [| y l Hs IH Hy]; intros Hx; cbn.
  - repeat constructor.
  - inversion Hx; subst. constructor; [now apply IH|].
    apply Forall_app. split; [exact Hy | now constructor].
Qed.

Lemma StronglySorted_weaken {A : Type} (R R' : A -> A -> Prop) (l : list A) :
  (forall a b, In a l -> In b l -> R a b -> R' a b) ->
  StronglySorted R l -> StronglySorted R' l.
Proof.
  intros Himp Hs. induction Hs as [| y l Hs IH Hy]; [constructor|].
  constructor.
  - apply IH. intros a b Ha Hb. apply Himp; now right.
  - rewrite Forall_forall in *. intros b Hb.
    apply Himp; [now left | now right | now apply Hy].
Qed.

(** The keys of a counter are in order of first occurrence. *)
Lemma Counter_keys_order (l : list string) :
  StronglySorted (fun a b => first_index a l < first_index b l)
                 (map fst (Counter l)).
Proof.
  induction l as [| x l IH] using rev_ind; [constructor|].
  assert (Hold : StronglySorted
                   (fun a b => first_index a (l ++ [x]) < first_index b (l ++ [x]))
                   (map fst (Counter l))).
  { eapply StronglySorted_weaken; [|exact IH].
    intros a b Ha Hb Hab. cbn beta in *.
    apply (proj1 (Counter_keys_In _ _)) in Ha, Hb.
    rewrite !first_index_app_In by assumption. exact Hab. }
  rewrite Counter_snoc, counter_incr_keys.
  destruct (mem x (map fst (Counter l))) eqn:Hm; [exact Hold|].
  apply mem_false_not_In in Hm.
  assert (Hx : ~ In x l) by (intros H; apply Hm, Counter_keys_In, H).
  apply StronglySorted_snoc; [exact Hold|].
  apply Forall_forall. intros y Hy.
  apply (proj1 (Counter_keys_In _ _)) in Hy.
  rewrite first_index_app_In by exact Hy.
  rewrite first_index_app_notIn by exact Hx.
  now apply first_index_lt.
Qed.

(** ** The stable sort behind [most_common] *)

Lemma insert_item_Permutation (x : string * nat) (l : counter) :
  Permutation (insert_item x l) (x :: l).
Proof.
  induction l as [| y l IH]; cbn [insert_item]; [reflexivity|].
  destruct (snd x <? snd y); [|reflexivity].
  rewrite IH. apply perm_swap.
Qed.

Lemma sorted_by_count_Permutation (c : counter) :
  Permutation (sorted_by_count c) c.
Proof.
  induction c as [| x c IH]; cbn [sorted_by_count fold_right]; [reflexivity|].
  fold (sorted_by_count c).
  rewrite insert_item_Permutation. now constructor.
Qed.

Section StableSort.

(** [earlier a b]: item [a] stands before item [b] in the input. *)
Variable earlier : string * nat -> string * nat -> Prop.

Lemma insert_item_sorted (x : string * nat) (l : counter) :
  StronglySorted (count_then_earlier earlier) l ->
  Forall (earlier x) l ->
  StronglySorted (count_then_earlier earlier) (insert_item x l).
Proof.
  induction 1 as [| y l Hs IH Hy]; intros Hx; cbn [insert_item].
  - repeat constructor.
  - inversion Hx as [| ? ? Hxy Hxl]; subst.
    destruct (snd x <? snd y) eqn:Hlt.
    + apply Nat.ltb_lt in Hlt. constructor; [now apply IH|].
      rewrite (insert_item_Permutation x l).
      constructor; [now left | exact Hy].
    + apply Nat.ltb_ge in Hlt.
      constructor; [now constructor|].
      constructor.
      * unfold count_then_earlier.
        destruct (Nat.eq_dec (snd x) (snd y)); [right; tauto | left; lia].
      * rewrite Forall_forall in *. intros z Hz.
        assert (Hzy : snd z <= snd y).
        { destruct (Hy z Hz) as [H | [H _]]; lia. }
        unfold count_then_earlier.
        destruct (Nat.eq_dec (snd x) (snd z)); [right; auto | left; lia].
Qed.

Lemma sorted_by_count_sorted (c : counter) :
  StronglySorted earlier c ->
  StronglySorted (count_then_earlier earlier) (sorted_by_count c).
Proof.
  induction 1 as [| x c Hs IH Hx]; cbn [sorted_by_count fold_right];
    [constructor|].
  fold (sorted_by_count c).
  apply insert_item_sorted; [exact IH|].
  now rewrite sorted_by_count_Permutation.
Qed.

End StableSort.

Lemma firstn_In {A : Type} (n : nat) (l : list A) (x : A) :
  In x (firstn n l) -> In x l.
Proof.
  intros H. rewrite <- (firstn_skipn n l). apply in_or_app. now left.
Qed.

Lemma StronglySorted_firstn {A : Type} (R : A -> A -> Prop) (n : nat) (l : list A) :
  StronglySorted R l -> StronglySorted R (firstn n l).
Proof.
  intros Hs. revert n. induction Hs as [| x l Hs IH Hx]; intros [| n]; cbn;
    try constructor.
  - apply IH.
  - rewrite Forall_forall in *. intros y Hy. eapply Hx, firstn_In, Hy.
Qed.

Lemma StronglySorted_map {A B : Type} (f : A -> B) (R : B -> B -> Prop) (l : list A) :
  StronglySorted (fun a b => R (f a) (f b)) l <-> StronglySorted R (map f l).
Proof.
  induction l as [| x l IH]; cbn.
  - split; constructor.
  - split; intros H; inversion H; subst; constructor;
      try (now apply IH); rewrite Forall_forall in *.
    + intros y [z [<- Hz]]%in_map_iff. auto.
    + intros z Hz. match goal with Hf : forall _, In _ (map f l) -> _ |- _ =>
                     apply Hf end. now apply in_map.
Qed.

Lemma StronglySorted_nth_error {A : Type} (R : A -> A -> Prop) (l : list A) :
  StronglySorted R l ->
  forall i j a b,
    i < j -> nth_error l i = Some a -> nth_error l j = Some b -> R a b.
Proof.
  induction 1 as [| x l Hs IH Hx]; intros i j a b Hij Ha Hb.
  - destruct i; discriminate.
  - destruct j as [| j]; [lia|]. cbn in Hb.
    destruct i as [| i]; cbn in Ha.
    + inversion Ha; subst. rewrite Forall_forall in Hx.
      eapply Hx, nth_error_In, Hb.
    + eapply IH; [| exact Ha | exact Hb]. lia.
Qed.

(** ** Ranking *)

Section Ranking.

Variables (stop_words word_tokens : list string) (num_keywords : Z).

Let filtered_words := filter_words stop_words word_tokens.

Lemma most_common_incl (it : string * nat) :
  In it (most_common num_keywords (Counter filtered_words)) ->
  In it (Counter filtered_words).
Proof.
  unfold most_common. intros H%firstn_In.
  eapply Permutation_in; [apply sorted_by_count_Permutation | exact H].
Qed.

Lemma rank_keywords_In (w : string) :
  In w (rank_keywords stop_words word_tokens num_keywords) ->
  In w filtered_words.
Proof.
  unfold rank_keywords. intros [[w' n] [<- Hin]]%in_map_iff.
  apply most_common_incl, Counter_items in Hin. apply Hin.
Qed.

Lemma rank_keywords_length :
  length (rank_keywords stop_words word_tokens num_keywords) =
  Nat.min (Z.to_nat num_keywords) (distinct filtered_words).
Proof.
  unfold rank_keywords, most_common.
  rewrite length_map, length_firstn.
  now rewrite (Permutation_length (sorted_by_count_Permutation _)), Counter_length.
Qed.

Lemma sorted_keys_NoDup : NoDup (map fst (sorted_by_count (Counter filtered_words))).
Proof.
  eapply Permutation_NoDup; [| apply (Counter_keys_NoDup filtered_words)].
  apply Permutation_map, Permutation_sym, sorted_by_count_Permutation.
Qed.

Lemma rank_keywords_NoDup :
  NoDup (rank_keywords stop_words word_tokens num_keywords).
Proof.
  unfold rank_keywords, most_common.
  pose proof sorted_keys_NoDup as Hnd.
  rewrite <- (firstn_skipn (Z.to_nat num_keywords) (sorted_by_count _)) in Hnd.
  rewrite map_app in Hnd. now apply NoDup_app_remove_r in Hnd.
Qed.

Lemma rank_keywords_sorted :
  StronglySorted (ranked_before filtered_words)
                 (rank_keywords stop_words word_tokens num_keywords).
Proof.
  unfold rank_keywords, most_common.
  apply (proj1 (StronglySorted_map fst _ _)), StronglySorted_firstn.
  pose proof (Counter_keys_order filtered_words) as Hord.
  apply (proj2 (StronglySorted_map fst _ _)) in Hord.
  apply sorted_by_count_sorted in Hord.
  eapply StronglySorted_weaken; [|exact Hord].
  intros [a na] [b nb] Ha Hb Hab.
  apply (Permutation_in _ (sorted_by_count_Permutation _)), Counter_items in Ha, Hb.
  destruct Ha as [_ ->], Hb as [_ ->].
  exact Hab.
Qed.

End Ranking.

(** ** The pipeline *)

Lemma for_each_Forall2 {A B : Type} (f : A -> result B) (l : list A) (ys : list B) :
  for_each f l = Ok ys -> Forall2 (fun x y => f x = Ok y) l ys.
Proof.
  revert ys. induction l as [| x l IH]; cbn; intros ys H.
  - inversion H. constructor.
  - destruct (f x) as [y | e] eqn:Hx; cbn in H; [|discriminate].
    destruct (for_each f l) as [ys' | e]; cbn in H; [|discriminate].
    inversion H; subst. constructor; [exact Hx | now apply IH].
Qed.

Lemma for_each_total {A B : Type} (f : A -> result B) (l : list A) :
  Forall (fun x => exists y, f x = Ok y) l ->
  exists ys, for_each f l = Ok ys.
Proof.
  induction 1 as [| x l [y Hy] _ [ys Hys]]; cbn.
  - now exists [].
  - rewrite Hy, Hys. cbn. now exists (y :: ys).
Qed.

Lemma Forall2_nth_error {A B : Type} {R : A -> B -> Prop} {l : list A} {l' : list B} :
  Forall2 R l l' ->
  forall i x, nth_error l i = Some x ->
              exists y, nth_error l' i = Some y /\ R x y.
Proof.
  induction 1 as [| a b l l' Hab _ IH]; intros [| i] x Hx; cbn in *;
    try discriminate.
  - inversion Hx; subst. now exists b.
  - now apply IH.
Qed.

Lemma enumerate_nth_error {A : Type} (l : list A) (i : nat) (x : A) :
  nth_error l i = Some x -> nth_error (enumerate l) i = Some (i, x).
Proof.
  unfold enumerate. intros H.
  enough (Hgen : forall start,
             nth_error (combine (seq start (length l)) l) i = Some (start + i, x))
    by apply (Hgen 0).
  revert i H. induction l as [| y l IH]; intros [| i] H start; cbn in *;
    try discriminate.
  - inversion H. now rewrite Nat.add_0_r.
  - rewrite (IH i H (S start)). f_equal. f_equal. lia.
Qed.

Section PipelineProperties.

Variable textblob_sentiment : string -> float * float.
Variable stopwords_words_english : result (list string).
Variable word_tokenize : string -> result (list string).
Variable format_2f : pyval -> result string.
Variable str_other : pyval -> string.
Variable series_mean : list pyval -> pyval.

Lemma load_stop_words_ok :
  only_LookupError stopwords_words_english ->
  load_stop_words stopwords_words_english =
  Ok (stop_words_in_use stopwords_words_english).
Proof.
  unfold load_stop_words, stop_words_in_use, try_except_LookupError.
  intros H. destruct stopwords_words_english as [sw | e]; [reflexivity|].
  now rewrite (H e eq_refl).
Qed.

Lemma tokenize_ok (text : string) :
  only_LookupError (word_tokenize (lower text)) ->
  tokenize word_tokenize (PStr text) = Ok (tokens_in_use word_tokenize text).
Proof.
  unfold tokenize, tokens_in_use, try_except_LookupError. cbn.
  intros H. destruct (word_tokenize (lower text)) as [toks | e]; [reflexivity|].
  now rewrite (H e eq_refl).
Qed.

Lemma extract_keywords_ok (text : string) (k : Z) :
  only_LookupError stopwords_words_english ->
  only_LookupError (word_tokenize (lower text)) ->
  extract_keywords stopwords_words_english word_tokenize (PStr text) k =
  Ok (rank_keywords (stop_words_in_use stopwords_words_english)
                    (tokens_in_use word_tokenize text) k).
Proof.
  intros Hsw Htok. unfold extract_keywords.
  now rewrite (load_stop_words_ok Hsw), (tokenize_ok text Htok).
Qed.

Lemma filter_words_In (stop_words word_tokens : list string) (w : string) :
  In w (filter_words stop_words word_tokens) <->
  In w word_tokens /\ isalpha w = true /\ ~ In w stop_words.
Proof.
  unfold filter_words. rewrite filter_In, andb_true_iff, negb_true_iff.
  now rewrite mem_false_not_In.
Qed.

(** C1. For a text whose polarity lies in [-1, 1], the label is
    Positive exactly when the polarity is above zero, Negative exactly
    when it is below zero and Neutral exactly when it equals zero; the
    confidence is the absolute value of the polarity and lies in
    [0, 1]. *)
Theorem sentiment_follows_polarity_sign
  (text : string) (polarity subjectivity : float) :
  textblob_sentiment text = (polarity, subjectivity) ->
  float_le float_minus_one polarity = true ->
  float_le polarity float_one = true ->
  exists sentiment confidence,
    analyze_sentiment_textblob textblob_sentiment (PStr text) =
      Ok (sentiment, confidence, polarity, subjectivity) /\
    (sentiment = "Positive" <-> float_gt polarity float_zero = true) /\
    (sentiment = "Negative" <-> float_lt polarity float_zero = true) /\
    (sentiment = "Neutral" <-> float_eq polarity float_zero = true) /\
    confidence = float_abs polarity /\
    float_le float_zero confidence = true /\
    float_le confidence float_one = true.
Proof.
  intros Hscore Hlow Hup.
  unfold analyze_sentiment_textblob. cbn [TextBlob bind]. rewrite Hscore.
  cbn [fst snd].
  pose proof (float_abs_in_unit polarity Hlow Hup) as [Hc0 Hc1].
  pose proof (float_sign_trichotomy polarity (float_le_not_nan _ _ Hlow))
    as [(Hg & Hl & He) | [(Hg & Hl & He) | (Hg & Hl & He)]];
    rewrite Hg, ?Hl, ?He;
    eexists; eexists; (split; [reflexivity|]);
    repeat split; intros; congruence.
Qed.

(** C2. For a positive [k], [extract_keywords] returns as many keywords
    as the smaller of [k] and the number of distinct tokens that are
    alphabetic and not stop words: whatever duplicate-free list
    enumerates the qualifying tokens of the lower-cased text, the number
    of keywords is the smaller of [k] and its length.  Every keyword is
    such a token, alphabetic and not a stop word; nothing is returned
    when no token qualifies. *)
Theorem extract_keywords_length_and_filter (text : string) (k : Z) :
  (0 < k)%Z ->
  only_LookupError stopwords_words_english ->
  only_LookupError (word_tokenize (lower text)) ->
  exists keywords,
    extract_keywords stopwords_words_english word_tokenize (PStr text) k =
      Ok keywords /\
    (forall qualifying : list string,
        NoDup qualifying ->
        (forall w, In w qualifying <->
                   In w (tokens_in_use word_tokenize text) /\
                   isalpha w = true /\
                   ~ In w (stop_words_in_use stopwords_words_english)) ->
        Z.of_nat (length keywords) = Z.min k (Z.of_nat (length qualifying))) /\
    (forall w, In w keywords ->
               In w (tokens_in_use word_tokenize text) /\
               isalpha w = true /\
               ~ In w (stop_words_in_use stopwords_words_english)) /\
    ((forall w, In w (tokens_in_use word_tokenize text) ->
                isalpha w = true ->
                In w (stop_words_in_use stopwords_words_english)) ->
     keywords = []).
Proof.
  clear textblob_sentiment format_2f str_other series_mean.
  intros Hk Hsw Htok. eexists. split; [now apply extract_keywords_ok|].
  split; [|split].
  - intros qualifying Hnodup Hqual. rewrite rank_keywords_length.
    assert (Hsame : distinct (filter_words
                                (stop_words_in_use stopwords_words_english)
                                (tokens_in_use word_tokenize text)) =
                    length qualifying).
    { unfold distinct. apply Permutation_length.
      apply NoDup_Permutation; [apply NoDup_nodup | exact Hnodup |].
      intros w. rewrite nodup_In, filter_words_In. symmetry. apply Hqual. }
    rewrite Hsame. lia.
  - intros w Hw%rank_keywords_In. now apply filter_words_In in Hw.
  - intros Hnone.
    destruct (rank_keywords _ _ k) as [| w ws] eqn:Hr; [reflexivity|].
    exfalso.
    assert (Hw : In w (rank_keywords
                         (stop_words_in_use stopwords_words_english)
                         (tokens_in_use word_tokenize text) k))
      by (rewrite Hr; now left).
    apply rank_keywords_In, filter_words_In in Hw.
    destruct Hw as (Hin & Ha & Hns). apply Hns, Hnone; assumption.
Qed.

(** C4. The keywords come in order of non-increasing frequency among
    the filtered tokens, and of two keywords of equal frequency the one
    that occurs first in the filtered tokens comes first. *)
Theorem keywords_ranked_by_frequency_then_first_occurrence
  (text : string) (k : Z) :
  only_LookupError stopwords_words_english ->
  only_LookupError (word_tokenize (lower text)) ->
  exists keywords,
    extract_keywords stopwords_words_english word_tokenize (PStr text) k =
      Ok keywords /\
    forall i j a b,
      i < j ->
      nth_error keywords i = Some a ->
      nth_error keywords j = Some b ->
      let filtered_words :=
        filter_words (stop_words_in_use stopwords_words_english)
                     (tokens_in_use word_tokenize text) in
      frequency filtered_words b <= frequency filtered_words a /\
      (frequency filtered_words a = frequency filtered_words b ->
       first_index a filtered_words < first_index b filtered_words).
Proof.
  intros Hsw Htok. eexists. split; [now apply extract_keywords_ok|].
  intros i j a b Hij Ha Hb filtered_words.
  pose proof (StronglySorted_nth_error _ _
                (rank_keywords_sorted _ _ _) i j a b Hij Ha Hb)
    as [Hlt | [Heq Hidx]].
  - fold filtered_words in Hlt. lia.
  - fold filtered_words in Heq, Hidx. split; [lia | intros _; exact Hidx].
Qed.

(** C8. When the stop-word corpus or the tokenizer data cannot be
    looked up, [extract_keywords] still returns keywords: it ranks with
    the built-in stop words in place of the missing corpus and with the
    whitespace split in place of the missing tokenizer, and raises
    nothing. *)
Theorem extract_keywords_falls_back (text : string) (k : Z) :
  stopwords_words_english = Raise LookupError \/
  word_tokenize (lower text) = Raise LookupError ->
  only_LookupError stopwords_words_english ->
  only_LookupError (word_tokenize (lower text)) ->
  exists stop_words word_tokens,
    extract_keywords stopwords_words_english word_tokenize (PStr text) k =
      Ok (rank_keywords stop_words word_tokens k) /\
    (stopwords_words_english = Raise LookupError ->
     stop_words = fallback_stop_words) /\
    (forall corpus, stopwords_words_english = Ok corpus ->
                    stop_words = corpus) /\
    (word_tokenize (lower text) = Raise LookupError ->
     word_tokens = split (lower text)) /\
    (forall tokens, word_tokenize (lower text) = Ok tokens ->
                    word_tokens = tokens).
Proof.
  intros _ Hsw Htok.
  exists (stop_words_in_use stopwords_words_english),
         (tokens_in_use word_tokenize text).
  split; [now apply extract_keywords_ok|].
  unfold stop_words_in_use, tokens_in_use.
  repeat split; intros; match goal with H : _ = _ |- _ => now rewrite H end.
Qed.

(** On ASCII text the keywords are pairwise distinct and, the tokenizer
    adding no upper-case letter of its own, made of lower-case letters
    only.  The second part rests on every ASCII letter having a
    lower-case form, which is not so of all the letters of Unicode. *)
Theorem keywords_distinct_and_lower_case (text : string) (k : Z) :
  only_LookupError stopwords_words_english ->
  only_LookupError (word_tokenize (lower text)) ->
  (forall s tokens w,
      no_upper s = true -> word_tokenize s = Ok tokens -> In w tokens ->
      no_upper w = true) ->
  exists keywords,
    extract_keywords stopwords_words_english word_tokenize (PStr text) k =
      Ok keywords /\
    NoDup keywords /\
    (forall w, In w keywords ->
               lower w = w /\ all_chars is_lower_char w = true).
Proof.
  intros Hsw Htok Hcase. eexists. split; [now apply extract_keywords_ok|].
  split; [apply rank_keywords_NoDup|].
  intros w Hw%rank_keywords_In. apply filter_words_In in Hw.
  destruct Hw as (Hin & Ha & _).
  assert (Hn : no_upper w = true).
  { unfold tokens_in_use in Hin.
    destruct (word_tokenize (lower text)) as [tokens | e] eqn:Htoks.
    - eapply Hcase; [apply no_upper_lower | exact Htoks | exact Hin].
    - eapply split_no_upper; [apply no_upper_lower | exact Hin]. }
  split; [now apply no_upper_fixes_lower | now apply isalpha_no_upper_lowercase].
Qed.

(** *** The orchestrator *)

Lemma getitem_lookup (d : dict) (k : string) (v : pyval) :
  getitem d k = Ok v <-> dict_lookup d k = Some v.
Proof.
  unfold getitem. destruct (dict_lookup d k); split; congruence.
Qed.

Lemma analyze_item_shape (text_item row : dict) :
  analyze_item textblob_sentiment stopwords_words_english word_tokenize
               text_item = Ok row ->
  is_batch_row text_item row.
Proof.
  unfold analyze_item. intros H.
  destruct (getitem text_item "text") as [text | e] eqn:Ht;
    cbn [bind] in H; [|discriminate].
  apply getitem_lookup in Ht.
  destruct (analyze_sentiment_textblob textblob_sentiment text)
    as [[[[sentiment confidence] polarity] subjectivity] | e];
    cbn [bind] in H; [|discriminate].
  destruct (extract_keywords stopwords_words_english word_tokenize text 5)
    as [keywords | e]; cbn [bind] in H; [|discriminate].
  inversion H. unfold is_batch_row. eauto 10.
Qed.

Lemma analyze_item_total (text_item : dict) :
  only_LookupError stopwords_words_english ->
  (forall s, only_LookupError (word_tokenize s)) ->
  has_str_text text_item ->
  exists row,
    analyze_item textblob_sentiment stopwords_words_english word_tokenize
                 text_item = Ok row.
Proof.
  intros Hsw Htok [s Hs]. unfold analyze_item.
  rewrite (proj2 (getitem_lookup _ _ _) Hs). cbn [bind].
  unfold analyze_sentiment_textblob. cbn [TextBlob bind].
  rewrite (extract_keywords_ok s 5 Hsw (Htok _)). cbn [bind]. eauto.
Qed.

Lemma batch_analyze_sentiment_rows (texts : list dict) :
  only_LookupError stopwords_words_english ->
  (forall s, only_LookupError (word_tokenize s)) ->
  Forall has_str_text texts ->
  exists results,
    batch_analyze_sentiment textblob_sentiment stopwords_words_english
                            word_tokenize texts = Ok results /\
    Forall2 is_batch_row texts results.
Proof.
  intros Hsw Htok Htexts. unfold batch_analyze_sentiment.
  destruct (for_each_total
              (analyze_item textblob_sentiment stopwords_words_english
                            word_tokenize) texts) as [results Hres].
  { eapply Forall_impl; [|exact Htexts].
    intros item. now apply analyze_item_total. }
  exists results. split; [exact Hres|].
  apply for_each_Forall2 in Hres.
  eapply Forall2_impl; [|exact Hres].
  apply analyze_item_shape.
Qed.

Lemma explain_row_ok (text_item row : dict) :
  (forall f, exists s, format_2f (PFloat f) = Ok s) ->
  is_batch_row text_item row ->
  exists explained,
    explain_row format_2f str_other row = Ok explained /\
    is_explained row explained.
Proof.
  intros Hfmt (text & sentiment & confidence & polarity & subjectivity &
               keywords & _ & ->).
  destruct (Hfmt polarity) as [score Hscore].
  unfold explain_row, getitem. cbn [dict_lookup String.eqb Ascii.eqb Bool.eqb bind].
  unfold get_sentiment_explanation. rewrite Hscore. cbn [bind].
  unfold is_explained.
  destruct (eq_str (PStr sentiment) "Positive");
    [| destruct (eq_str (PStr sentiment) "Negative")];
    cbn [bind dict_set String.eqb Ascii.eqb Bool.eqb app]; eauto.
Qed.

Lemma add_explanations_rows (texts : list dict) (results : DataFrame) :
  (forall f, exists s, format_2f (PFloat f) = Ok s) ->
  Forall2 is_batch_row texts results ->
  exists explained,
    add_explanations format_2f str_other results = Ok explained /\
    Forall2 is_explained results explained.
Proof.
  intros Hfmt Hrows. unfold add_explanations.
  assert (Hall : Forall (fun row => exists explained,
                             explain_row format_2f str_other row = Ok explained /\
                             is_explained row explained) results).
  { clear -Hfmt Hrows. induction Hrows as [| item row texts results Hrow _ IH];
      constructor; [eapply explain_row_ok; eauto | exact IH]. }
  clear Hrows. induction Hall as [| row results (out & Hout & Hex) _ IH]; cbn.
  - exists []. split; [reflexivity | constructor].
  - destruct IH as (outs & Houts & Hexs). rewrite Hout, Houts. cbn.
    exists (out :: outs). split; [reflexivity | now constructor].
Qed.

Lemma batch_row_lookup (text_item row : dict) :
  is_batch_row text_item row ->
  keys row = batch_columns /\
  dict_lookup row "text" = dict_lookup text_item "text" /\
  dict_lookup row "source" = Some (dict_get text_item "source" (PStr "N/A")) /\
  dict_lookup row "date" = Some (dict_get text_item "date" (PStr "N/A")) /\
  dict_lookup row "explanation" = None.
Proof.
  intros (text & sentiment & confidence & polarity & subjectivity &
          keywords & Ht & ->).
  rewrite Ht. repeat split.
Qed.

(** C3. On records whose text is a string the orchestrator returns one
    row per record, and row [i] carries the text of record [i]. *)
Theorem batch_preserves_order (texts : list dict) :
  only_LookupError stopwords_words_english ->
  (forall s, only_LookupError (word_tokenize s)) ->
  Forall has_str_text texts ->
  exists results,
    batch_analyze_sentiment textblob_sentiment stopwords_words_english
                            word_tokenize texts = Ok results /\
    length results = length texts /\
    forall i text_item,
      nth_error texts i = Some text_item ->
      exists row,
        nth_error results i = Some row /\
        dict_lookup row "text" = dict_lookup text_item "text".
Proof.
  intros Hsw Htok Htexts.
  destruct (batch_analyze_sentiment_rows texts Hsw Htok Htexts)
    as (results & Hres & Hrows).
  exists results. split; [exact Hres|]. split.
  - symmetry. eapply Forall2_length, Hrows.
  - intros i item Hi.
    destruct (Forall2_nth_error Hrows i _ Hi) as (row & Hrow & Hshape).
    exists row. split; [exact Hrow|]. now apply batch_row_lookup.
Qed.

(** C5, amended. The file-upload caller passes every cell of the text
    column through [str] before it calls the orchestrator, so a cell
    that is not a string costs no row: every row of the combined frame
    yields an output row whose text is the rendering of that cell. *)
Theorem file_upload_coerces_text (today : string) (combined_df : DataFrame) :
  only_LookupError stopwords_words_english ->
  (forall s, only_LookupError (word_tokenize s)) ->
  (forall f, exists s, format_2f (PFloat f) = Ok s) ->
  Forall (fun row => exists cell, dict_lookup row "text" = Some cell) combined_df ->
  exists results,
    file_upload_analysis textblob_sentiment stopwords_words_english
                         word_tokenize format_2f str_other today combined_df =
      Ok results /\
    length results = length combined_df /\
    forall i row cell,
      nth_error combined_df i = Some row ->
      dict_lookup row "text" = Some cell ->
      exists out,
        nth_error results i = Some out /\
        dict_lookup out "text" = Some (PStr (str str_other cell)).
Proof.
  intros Hsw Htok Hfmt Hcells. unfold file_upload_analysis.
  destruct (for_each_total (file_upload_record str_other today) combined_df)
    as [text_data Hdata].
  { eapply Forall_impl; [|exact Hcells]. intros row [cell Hcell].
    unfold file_upload_record.
    rewrite (proj2 (getitem_lookup _ _ _) Hcell). cbn [bind]. eauto. }
  rewrite Hdata. cbn [bind]. apply for_each_Forall2 in Hdata.
  assert (Hstr : Forall has_str_text text_data).
  { clear -Hdata. induction Hdata as [| row rec rows recs Hrec _ IH];
      constructor; [|exact IH].
    unfold file_upload_record in Hrec.
    destruct (getitem row "text"); cbn [bind] in Hrec; [|discriminate].
    inversion Hrec. eexists. reflexivity. }
  destruct (batch_analyze_sentiment_rows text_data Hsw Htok Hstr)
    as (results & Hres & Hrows).
  rewrite Hres. cbn [bind].
  destruct (add_explanations_rows _ _ Hfmt Hrows) as (explained & Hexp & Hexps).
  exists explained. split; [exact Hexp|]. split.
  - rewrite <- (Forall2_length Hexps), <- (Forall2_length Hrows).
    symmetry. exact (Forall2_length Hdata).
  - intros i row cell Hi Hcell.
    destruct (Forall2_nth_error Hdata i _ Hi) as (rec & Hreci & Hrec).
    destruct (Forall2_nth_error Hrows i _ Hreci) as (res & Hresi & Hshape).
    destruct (Forall2_nth_error Hexps i _ Hresi) as (out & Houti & [e Hout]).
    exists out. split; [exact Houti|]. subst out.
    unfold file_upload_record in Hrec.
    rewrite (proj2 (getitem_lookup _ _ _) Hcell) in Hrec. cbn [bind] in Hrec.
    inversion Hrec; subst rec. clear Hrec.
    destruct Hshape as (text & sentiment & confidence & polarity &
                        subjectivity & keywords & Ht & ->).
    cbn in Ht. inversion Ht; subst text. reflexivity.
Qed.

(** On a frame that is not empty the summary, when it is returned, has
    the ten metric fields. *)
Lemma metrics_summary_fields (df : DataFrame) (metrics : dict) :
  df_empty df = false ->
  create_sentiment_metrics_summary series_mean df = Ok metrics ->
  keys metrics = metric_fields /\
  dict_lookup metrics "total_texts" = Some (PInt (df_len df)).
Proof.
  unfold create_sentiment_metrics_summary. intros -> H.
  destruct (df_getitem df "sentiment") as [sentiments |]; cbn [bind] in H;
    [|discriminate].
  destruct (value_counts sentiments); cbn [bind] in H; [|discriminate].
  destruct (column_mean series_mean df "confidence"); cbn [bind] in H; [|discriminate].
  destruct (column_mean series_mean df "polarity"); cbn [bind] in H; [|discriminate].
  destruct (column_mean series_mean df "subjectivity"); cbn [bind] in H; [|discriminate].
  inversion H. split; reflexivity.
Qed.

(** C6, amended. On an empty frame the summary does not fail and
    returns the empty dictionary: none of the metric fields is in it. *)
Theorem metrics_summary_of_empty_frame (df : DataFrame) :
  df_empty df = true ->
  exists metrics,
    create_sentiment_metrics_summary series_mean df = Ok metrics /\
    metrics = [] /\
    forall field, In field metric_fields -> dict_lookup metrics field = None.
Proof.
  intros Hempty. unfold create_sentiment_metrics_summary.
  rewrite Hempty. exists []. repeat split.
Qed.

(** C7, amended. A record that omits [source] gets the source "N/A" in
    its row and a record that omits [date] gets the date "N/A"; a field
    that is present is copied.  The positional label "Batch Input i+1"
    is written by [batch_text_analysis] into the records it builds when
    no default source was entered, before the orchestrator runs. *)
Theorem batch_defaults_are_NA (texts : list dict) :
  only_LookupError stopwords_words_english ->
  (forall s, only_LookupError (word_tokenize s)) ->
  Forall has_str_text texts ->
  (exists results,
      batch_analyze_sentiment textblob_sentiment stopwords_words_english
                              word_tokenize texts = Ok results /\
      forall i text_item,
        nth_error texts i = Some text_item ->
        exists row,
          nth_error results i = Some row /\
          (dict_lookup text_item "source" = None ->
           dict_lookup row "source" = Some (PStr "N/A")) /\
          (dict_lookup text_item "date" = None ->
           dict_lookup row "date" = Some (PStr "N/A")) /\
          (forall v, dict_lookup text_item "source" = Some v ->
                     dict_lookup row "source" = Some v) /\
          (forall v, dict_lookup text_item "date" = Some v ->
                     dict_lookup row "date" = Some v)) /\
  (forall lines default_date i line,
      nth_error lines i = Some line ->
      nth_error (batch_text_data lines EmptyString default_date) i =
      Some [ ("text", PStr line);
             ("source", PStr (String.append "Batch Input " (str_of_nat (i + 1))));
             ("date", PStr default_date) ]).
Proof.
  intros Hsw Htok Htexts. split.
  - destruct (batch_analyze_sentiment_rows texts Hsw Htok Htexts)
      as (results & Hres & Hrows).
    exists results. split; [exact Hres|].
    intros i item Hi.
    destruct (Forall2_nth_error Hrows i _ Hi) as (row & Hrow & Hshape).
    exists row. split; [exact Hrow|].
    apply batch_row_lookup in Hshape.
    destruct Hshape as (_ & _ & Hsrc & Hdate & _).
    rewrite Hsrc, Hdate. unfold dict_get.
    repeat split; intros; match goal with H : dict_lookup _ _ = _ |- _ =>
                                     now rewrite H end.
  - intros lines default_date i line Hi. unfold batch_text_data.
    rewrite nth_error_map, (enumerate_nth_error lines i line Hi). reflexivity.
Qed.

(** C9, amended. Every row that the orchestrator returns has exactly
    the columns text, sentiment, confidence, polarity, subjectivity,
    keywords, source and date; the column explanation is the ninth,
    added to each row by the caller afterwards. *)
Theorem batch_rows_have_eight_columns (texts : list dict) :
  only_LookupError stopwords_words_english ->
  (forall s, only_LookupError (word_tokenize s)) ->
  (forall f, exists s, format_2f (PFloat f) = Ok s) ->
  Forall has_str_text texts ->
  exists results,
    batch_analyze_sentiment textblob_sentiment stopwords_words_english
                            word_tokenize texts = Ok results /\
    Forall (fun row => keys row = batch_columns) results /\
    exists explained,
      add_explanations format_2f str_other results = Ok explained /\
      length explained = length results /\
      Forall (fun row => keys row = result_columns) explained.
Proof.
  intros Hsw Htok Hfmt Htexts.
  destruct (batch_analyze_sentiment_rows texts Hsw Htok Htexts)
    as (results & Hres & Hrows).
  exists results. split; [exact Hres|].
  destruct (add_explanations_rows _ _ Hfmt Hrows) as (explained & Hexp & Hexps).
  assert (Hcols : Forall (fun row => keys row = batch_columns) results).
  { clear -Hrows. induction Hrows as [| item row ? ? Hrow _ IH];
      constructor; [now apply batch_row_lookup in Hrow | exact IH]. }
  split; [exact Hcols|].
  exists explained. split; [exact Hexp|]. split.
  - symmetry. exact (Forall2_length Hexps).
  - clear -Hexps Hcols.
    induction Hexps as [| row out ? ? [e ->] _ IH]; constructor.
    + inversion Hcols; subst. unfold keys in *. rewrite map_app.
      match goal with H : map fst row = _ |- _ => rewrite H end. reflexivity.
    + inversion Hcols; subst. now apply IH.
Qed.

End PipelineProperties.

(** ** The pipeline at work *)

Lemma only_LookupError_Ok {A : Type} (a : A) : only_LookupError (Ok a).
Proof. intros e H. discriminate H. Defined.

Lemma only_LookupError_missing {A : Type} :
  only_LookupError (@Raise A LookupError).
Proof. intros e H. inversion H. reflexivity. Defined.

Lemma toy_tokenizer_keeps_case (s : string) (tokens : list string) (w : string) :
  no_upper s = true -> toy_tokenizer s = Ok tokens -> In w tokens ->
  no_upper w = true.
Proof.
  intros Hs Ht Hw. inversion Ht; subst tokens.
  exact (split_no_upper s w Hs Hw).
Defined.

Lemma toy_format_2f_total (f : float) : exists s, toy_format_2f (PFloat f) = Ok s.
Proof. destruct f as [[] | [] | | [] m e]; cbn; eauto. Defined.

Example split_example :
  split "  the cat	sat  " = ["the"; "cat"; "sat"].
Proof. reflexivity. Qed.

Example lower_example : lower "The CAT, 42!" = "the cat, 42!".
Proof. reflexivity. Qed.

Example float_one_is_one : SFone 53 1024 = float_one.
Proof. reflexivity. Qed.

Example percentage_example :
  percentage 1 2 = PFloat (float_of_Z 50) /\ percentage 0 0 = PInt 0.
Proof. split; vm_compute; reflexivity. Qed.

(** The example of the specification: "cat" occurs twice and comes
    first; of the words that occur once, "sat" is the first seen. *)
Example extract_keywords_cat_fallback :
  extract_keywords no_corpus no_tokenizer (PStr cat_text) 2 = Ok ["cat"; "sat"].
Proof. vm_compute. reflexivity. Qed.

Example extract_keywords_cat_installed :
  extract_keywords toy_corpus toy_tokenizer (PStr cat_text) 5 =
  Ok ["cat"; "sat"; "mat"; "slept"].
Proof. vm_compute. reflexivity. Qed.

Example extract_keywords_empty_text :
  extract_keywords no_corpus no_tokenizer (PStr EmptyString) 5 = Ok [] /\
  extract_keywords no_corpus no_tokenizer (PStr "?! ... 42") 5 = Ok [].
Proof. split; vm_compute; reflexivity. Qed.

Example extract_keywords_nonpositive :
  extract_keywords no_corpus no_tokenizer (PStr cat_text) 0 = Ok [] /\
  extract_keywords no_corpus no_tokenizer (PStr cat_text) (-3) = Ok [].
Proof. split; vm_compute; reflexivity. Qed.

(** A NaN polarity is labelled Neutral although it is not equal to zero:
    the range assumption of C1 is what excludes it. *)
Example analyze_sentiment_nan :
  analyze_sentiment_textblob (fun _ => (S754_nan, float_zero)) (PStr "x") =
    Ok ("Neutral", S754_nan, S754_nan, float_zero) /\
  float_eq S754_nan float_zero = false.
Proof. split; reflexivity. Qed.

Example file_upload_example :
  exists row,
    file_upload_analysis toy_sentiment no_corpus no_tokenizer toy_format_2f
                         toy_str_other "2024-05-01"
                         [[("text", PInt 5); ("file_source", PStr "a.csv")]] =
      Ok [row] /\
    dict_lookup row "text" = Some (PStr "5") /\
    dict_lookup row "source" = Some (PStr "a.csv") /\
    dict_lookup row "date" = Some (PStr "2024-05-01").
Proof. eexists. vm_compute. repeat split. Qed.

Lemma sentiment_follows_polarity_sign_witness :
  exists sentiment confidence,
    analyze_sentiment_textblob toy_sentiment (PStr "This is good") =
      Ok (sentiment, confidence, float_half, float_one) /\
    (sentiment = "Positive" <-> float_gt float_half float_zero = true) /\
    (sentiment = "Negative" <-> float_lt float_half float_zero = true) /\
    (sentiment = "Neutral" <-> float_eq float_half float_zero = true) /\
    confidence = float_abs float_half /\
    float_le float_zero confidence = true /\
    float_le confidence float_one = true.
Proof.
  apply (sentiment_follows_polarity_sign toy_sentiment "This is good"
           float_half float_one); vm_compute; reflexivity.
Defined.

Lemma extract_keywords_length_and_filter_witness :
  exists keywords,
    extract_keywords toy_corpus toy_tokenizer (PStr cat_text) 3 = Ok keywords /\
    Z.of_nat (length keywords) = 3%Z /\
    (forall w, In w keywords ->
               In w (tokens_in_use toy_tokenizer cat_text) /\
               isalpha w = true /\ ~ In w (stop_words_in_use toy_corpus)) /\
    ((forall w, In w (tokens_in_use toy_tokenizer cat_text) ->
                isalpha w = true -> In w (stop_words_in_use toy_corpus)) ->
     keywords = []).
Proof.
  destruct (extract_keywords_length_and_filter toy_corpus toy_tokenizer cat_text 3
              eq_refl (only_LookupError_Ok _) (only_LookupError_Ok _))
    as (keywords & Hrun & Hlen & Hkw & Hnone).
  exists keywords. split; [exact Hrun|]. split; [|split; assumption].
  apply (Hlen ["cat"; "sat"; "mat"; "slept"]).
  - repeat constructor; cbn; intuition discriminate.
  - intros w. split.
    + intros [<- | [<- | [<- | [<- | []]]]]; vm_compute; intuition discriminate.
    + vm_compute. intuition discriminate.
Defined.

Lemma keywords_ranked_witness :
  exists keywords,
    extract_keywords no_corpus toy_tokenizer (PStr cat_text) 3 = Ok keywords /\
    forall i j a b,
      i < j ->
      nth_error keywords i = Some a ->
      nth_error keywords j = Some b ->
      let filtered_words :=
        filter_words (stop_words_in_use no_corpus)
                     (tokens_in_use toy_tokenizer cat_text) in
      frequency filtered_words b <= frequency filtered_words a /\
      (frequency filtered_words a = frequency filtered_words b ->
       first_index a filtered_words < first_index b filtered_words).
Proof.
  apply (keywords_ranked_by_frequency_then_first_occurrence
           no_corpus toy_tokenizer cat_text 3).
  - apply only_LookupError_missing.
  - apply only_LookupError_Ok.
Defined.

Lemma extract_keywords_falls_back_witness :
  exists stop_words word_tokens,
    extract_keywords no_corpus no_tokenizer (PStr cat_text) 2 =
      Ok (rank_keywords stop_words word_tokens 2) /\
    (no_corpus = Raise LookupError -> stop_words = fallback_stop_words) /\
    (forall corpus, no_corpus = Ok corpus -> stop_words = corpus) /\
    (no_tokenizer (lower cat_text) = Raise LookupError ->
     word_tokens = split (lower cat_text)) /\
    (forall tokens, no_tokenizer (lower cat_text) = Ok tokens ->
                    word_tokens = tokens).
Proof.
  apply (extract_keywords_falls_back no_corpus no_tokenizer cat_text 2).
  - left. reflexivity.
  - apply only_LookupError_missing.
  - apply only_LookupError_missing.
Defined.

Lemma keywords_distinct_and_lower_case_witness :
  exists keywords,
    extract_keywords toy_corpus toy_tokenizer (PStr cat_text) 5 = Ok keywords /\
    NoDup keywords /\
    (forall w, In w keywords ->
               lower w = w /\ all_chars is_lower_char w = true).
Proof.
  apply (keywords_distinct_and_lower_case toy_corpus toy_tokenizer cat_text 5).
  - apply only_LookupError_Ok.
  - apply only_LookupError_Ok.
  - exact toy_tokenizer_keeps_case.
Defined.

Lemma two_records_have_str_text : Forall has_str_text two_records.
Proof. repeat constructor; eexists; reflexivity. Defined.

Lemma uploaded_rows_have_text :
  Forall (fun row => exists cell, dict_lookup row "text" = Some cell) uploaded_rows.
Proof. repeat constructor; eexists; reflexivity. Defined.

Lemma batch_preserves_order_witness :
  exists results,
    batch_analyze_sentiment toy_sentiment toy_corpus toy_tokenizer two_records =
      Ok results /\
    length results = length two_records /\
    forall i text_item,
      nth_error two_records i = Some text_item ->
      exists row,
        nth_error results i = Some row /\
        dict_lookup row "text" = dict_lookup text_item "text".
Proof.
  apply (batch_preserves_order toy_sentiment toy_corpus toy_tokenizer two_records).
  - apply only_LookupError_Ok.
  - intros s. apply only_LookupError_Ok.
  - exact two_records_have_str_text.
Defined.

(** C5, counterexample. The orchestrator itself coerces nothing: the
    batch whose second text is a number yields no row at all. *)
Lemma batch_aborts_on_non_string_text :
  batch_analyze_sentiment toy_sentiment no_corpus no_tokenizer mixed_records =
    Raise TypeError /\
  ~ exists results,
      batch_analyze_sentiment toy_sentiment no_corpus no_tokenizer mixed_records =
        Ok results /\
      length results = length mixed_records.
Proof.
  assert (H : batch_analyze_sentiment toy_sentiment no_corpus no_tokenizer
                mixed_records = Raise TypeError) by (vm_compute; reflexivity).
  split; [exact H|]. intros (results & Hres & _). congruence.
Qed.

Example extract_keywords_on_number :
  extract_keywords no_corpus no_tokenizer (PInt 5) 5 = Raise AttributeError.
Proof. reflexivity. Qed.

Lemma file_upload_coerces_text_witness :
  exists results,
    file_upload_analysis toy_sentiment no_corpus no_tokenizer toy_format_2f
                         toy_str_other "2024-05-01" uploaded_rows = Ok results /\
    length results = length uploaded_rows /\
    forall i row cell,
      nth_error uploaded_rows i = Some row ->
      dict_lookup row "text" = Some cell ->
      exists out,
        nth_error results i = Some out /\
        dict_lookup out "text" = Some (PStr (str toy_str_other cell)).
Proof.
  apply (file_upload_coerces_text toy_sentiment no_corpus no_tokenizer
           toy_format_2f toy_str_other "2024-05-01" uploaded_rows).
  - apply only_LookupError_missing.
  - intros s. apply only_LookupError_missing.
  - exact toy_format_2f_total.
  - exact uploaded_rows_have_text.
Defined.

(** C6, counterexample. The summary of the empty frame has no
    [total_texts] field, zero or otherwise. *)
Lemma empty_summary_has_no_zero_field :
  create_sentiment_metrics_summary toy_mean [] = Ok [] /\
  ~ exists metrics value,
      create_sentiment_metrics_summary toy_mean [] = Ok metrics /\
      dict_lookup metrics "total_texts" = Some value.
Proof.
  split; [reflexivity|].
  intros (metrics & value & Hm & Hv). vm_compute in Hm.
  inversion Hm; subst metrics. discriminate Hv.
Qed.

Lemma metrics_summary_of_empty_frame_witness :
  exists metrics,
    create_sentiment_metrics_summary toy_mean [] = Ok metrics /\
    metrics = [] /\
    forall field, In field metric_fields -> dict_lookup metrics field = None.
Proof.
  apply (metrics_summary_of_empty_frame toy_mean []). reflexivity.
Defined.

(** C7, counterexample. Two records without a source get the same
    source, "N/A": the default does not tell their positions apart. *)
Lemma batch_default_source_is_not_positional :
  exists row1 row2,
    batch_analyze_sentiment toy_sentiment no_corpus no_tokenizer bare_records =
      Ok [row1; row2] /\
    dict_lookup row1 "source" = Some (PStr "N/A") /\
    dict_lookup row2 "source" = Some (PStr "N/A").
Proof. do 2 eexists. vm_compute. repeat split. Qed.

Lemma batch_defaults_are_NA_witness :
  (exists results,
      batch_analyze_sentiment toy_sentiment toy_corpus toy_tokenizer two_records =
        Ok results /\
      forall i text_item,
        nth_error two_records i = Some text_item ->
        exists row,
          nth_error results i = Some row /\
          (dict_lookup text_item "source" = None ->
           dict_lookup row "source" = Some (PStr "N/A")) /\
          (dict_lookup text_item "date" = None ->
           dict_lookup row "date" = Some (PStr "N/A")) /\
          (forall v, dict_lookup text_item "source" = Some v ->
                     dict_lookup row "source" = Some v) /\
          (forall v, dict_lookup text_item "date" = Some v ->
                     dict_lookup row "date" = Some v)) /\
  (forall lines default_date i line,
      nth_error lines i = Some line ->
      nth_error (batch_text_data lines EmptyString default_date) i =
      Some [ ("text", PStr line);
             ("source", PStr (String.append "Batch Input " (str_of_nat (i + 1))));
             ("date", PStr default_date) ]).
Proof.
  apply (batch_defaults_are_NA toy_sentiment toy_corpus toy_tokenizer two_records).
  - apply only_LookupError_Ok.
  - intros s. apply only_LookupError_Ok.
  - exact two_records_have_str_text.
Defined.

(** C9, counterexample. The row that the orchestrator returns has
    eight columns and no explanation. *)
Lemma batch_row_lacks_explanation :
  exists row,
    batch_analyze_sentiment toy_sentiment no_corpus no_tokenizer
                            [[("text", PStr "good")]] = Ok [row] /\
    dict_lookup row "explanation" = None /\
    keys row <> result_columns.
Proof.
  eexists. vm_compute. repeat split. discriminate.
Qed.

Lemma batch_rows_have_eight_columns_witness :
  exists results,
    batch_analyze_sentiment toy_sentiment toy_corpus toy_tokenizer two_records =
      Ok results /\
    Forall (fun row => keys row = batch_columns) results /\
    exists explained,
      add_explanations toy_format_2f toy_str_other results = Ok explained /\
      length explained = length results /\
      Forall (fun row => keys row = result_columns) explained.
Proof.
  apply (batch_rows_have_eight_columns toy_sentiment toy_corpus toy_tokenizer
           toy_format_2f toy_str_other two_records).
  - apply only_LookupError_Ok.
  - intros s. apply only_LookupError_Ok.
  - exact toy_format_2f_total.
  - exact two_records_have_str_text.
Defined.

Example metrics_summary_example :
  exists metrics,
    create_sentiment_metrics_summary toy_mean
      [[("text", PStr "good"); ("sentiment", PStr "Positive")];
       [("text", PStr "bad"); ("sentiment", PStr "Negative")]] = Ok metrics /\
    dict_lookup metrics "total_texts" = Some (PInt 2) /\
    dict_lookup metrics "positive_count" = Some (PInt 1) /\
    dict_lookup metrics "positive_pct" = Some (PFloat (float_of_Z 50)) /\
    dict_lookup metrics "neutral_pct" = Some (PFloat float_zero) /\
    dict_lookup metrics "avg_confidence" = Some (PInt 0).
Proof. eexists. vm_compute. repeat split. Qed.

Example batch_text_analysis_example :
  exists row1 row2,
    batch_text_analysis toy_sentiment no_corpus no_tokenizer toy_format_2f
                        toy_str_other ["good"; "bad"] EmptyString "2024-05-01" =
      Ok [row1; row2] /\
    keys row1 = result_columns /\
    dict_lookup row1 "source" = Some (PStr "Batch Input 1") /\
    dict_lookup row2 "source" = Some (PStr "Batch Input 2") /\
    dict_lookup row2 "sentiment" = Some (PStr "Negative").
Proof. do 2 eexists. vm_compute. repeat split. Qed.

(** * Further properties of the keyword extractor *)

Lemma StronglySorted_app_inv {A : Type} (R : A -> A -> Prop) (l1 l2 : list A) :
  StronglySorted R (l1 ++ l2) ->
  forall a b, In a l1 -> In b l2 -> R a b.
Proof.
  induction l1 as [| x l1 IH]; cbn; intros Hs a b Ha Hb; [tauto|].
  inversion Hs as [| ? ? Hs' Hx]; subst.
  destruct Ha as [<- | Ha].
  - rewrite Forall_forall in Hx. apply Hx, in_or_app. now right.
  - now apply IH.
Qed.

Lemma sorted_keys_ranked (filtered_words : list string) :
  StronglySorted (ranked_before filtered_words)
                 (map fst (sorted_by_count (Counter filtered_words))).
Proof.
  apply (proj1 (StronglySorted_map fst _ _)).
  pose proof (Counter_keys_order filtered_words) as Hord.
  apply (proj2 (StronglySorted_map fst _ _)) in Hord.
  apply sorted_by_count_sorted in Hord.
  eapply StronglySorted_weaken; [|exact Hord].
  intros [a na] [b nb] Ha Hb Hab.
  apply (Permutation_in _ (sorted_by_count_Permutation _)), Counter_items in Ha, Hb.
  destruct Ha as [_ ->], Hb as [_ ->].
  exact Hab.
Qed.

Lemma sorted_keys_In (filtered_words : list string) (w : string) :
  In w (map fst (sorted_by_count (Counter filtered_words))) <-> In w filtered_words.
Proof.
  split; intros H.
  - apply Counter_keys_In. revert H. apply Permutation_in.
    apply Permutation_map, sorted_by_count_Permutation.
  - apply (proj2 (Counter_keys_In _ _)) in H. revert H. apply Permutation_in.
    apply Permutation_map, Permutation_sym, sorted_by_count_Permutation.
Qed.

Lemma rank_keywords_firstn (stop_words word_tokens : list string) (k : Z) :
  rank_keywords stop_words word_tokens k =
  firstn (Z.to_nat k)
         (map fst (sorted_by_count (Counter (filter_words stop_words word_tokens)))).
Proof. unfold rank_keywords, most_common. now rewrite firstn_map. Qed.

Lemma lower_idempotent (s : string) : lower (lower s) = lower s.
Proof. apply no_upper_fixes_lower, no_upper_lower. Qed.

Section ExtractorProperties.

Variable stopwords_words_english : result (list string).
Variable word_tokenize : string -> result (list string).

(** X1. A request for zero or a negative number of keywords is answered
    with the empty list. *)
Theorem extract_keywords_nonpositive_count (text : string) (k : Z) :
  (k <= 0)%Z ->
  only_LookupError stopwords_words_english ->
  only_LookupError (word_tokenize (lower text)) ->
  extract_keywords stopwords_words_english word_tokenize (PStr text) k = Ok [].
Proof.
  intros Hk Hsw Htok. rewrite (extract_keywords_ok _ _ text k Hsw Htok).
  rewrite rank_keywords_firstn.
  replace (Z.to_nat k) with 0 by lia. reflexivity.
Qed.

(** X2. A text that is an int, a float, None or a list, none of which
    has a [lower] method, makes [extract_keywords] raise AttributeError,
    whatever the tokenizer; the except-clauses of the function do not
    catch it. *)
Theorem extract_keywords_rejects_non_string (text : pyval) (k : Z) :
  (exists z, text = PInt z) \/ (exists f, text = PFloat f) \/
  text = PNone \/ (exists l, text = PList l) ->
  only_LookupError stopwords_words_english ->
  extract_keywords stopwords_words_english word_tokenize text k =
  Raise AttributeError.
Proof.
  intros Htext Hsw. unfold extract_keywords.
  rewrite (load_stop_words_ok _ Hsw). cbn [bind].
  destruct Htext as [[z ->] | [[f ->] | [-> | [l ->]]]]; reflexivity.
Qed.

(** X3. When [k] is at least the number of distinct qualifying tokens,
    the keywords are exactly the qualifying tokens: every alphabetic
    token that is not a stop word is returned, once. *)
Theorem extract_keywords_returns_all_when_few (text : string) (k : Z) :
  (Z.of_nat (distinct (filter_words (stop_words_in_use stopwords_words_english)
                                    (tokens_in_use word_tokenize text))) <= k)%Z ->
  only_LookupError stopwords_words_english ->
  only_LookupError (word_tokenize (lower text)) ->
  exists keywords,
    extract_keywords stopwords_words_english word_tokenize (PStr text) k =
      Ok keywords /\
    NoDup keywords /\
    forall w,
      In w keywords <->
      In w (tokens_in_use word_tokenize text) /\
      isalpha w = true /\
      ~ In w (stop_words_in_use stopwords_words_english).
Proof.
  intros Hk Hsw Htok. eexists. split; [now apply extract_keywords_ok|].
  split; [apply rank_keywords_NoDup|].
  intros w. rewrite <- filter_words_In, rank_keywords_firstn.
  rewrite firstn_all2.
  - apply sorted_keys_In.
  - rewrite length_map, (Permutation_length (sorted_by_count_Permutation _)),
      Counter_length. lia.
Qed.

(** X4. Asking for fewer keywords returns a prefix of the longer
    answer: the first [k] keywords do not depend on how many are
    requested. *)
Theorem extract_keywords_prefix (text : pyval) (k k' : Z) (keywords' : list string) :
  (k <= k')%Z ->
  extract_keywords stopwords_words_english word_tokenize text k' = Ok keywords' ->
  extract_keywords stopwords_words_english word_tokenize text k =
  Ok (firstn (Z.to_nat k) keywords').
Proof.
  intros Hk. unfold extract_keywords.
  destruct (load_stop_words stopwords_words_english) as [sw | e];
    cbn [bind]; [|discriminate].
  destruct (tokenize word_tokenize text) as [toks | e]; cbn [bind]; [|discriminate].
  intros H. inversion H. f_equal.
  rewrite !rank_keywords_firstn, firstn_firstn. f_equal. lia.
Qed.

(** X5. The keywords are the most frequent qualifying tokens: a
    qualifying token that is left out occurs no more often than any
    keyword that is returned. *)
Theorem extract_keywords_keeps_most_frequent (text : string) (k : Z) :
  only_LookupError stopwords_words_english ->
  only_LookupError (word_tokenize (lower text)) ->
  exists keywords,
    extract_keywords stopwords_words_english word_tokenize (PStr text) k =
      Ok keywords /\
    forall kept left_out,
      let filtered_words :=
        filter_words (stop_words_in_use stopwords_words_english)
                     (tokens_in_use word_tokenize text) in
      In kept keywords ->
      In left_out filtered_words ->
      ~ In left_out keywords ->
      1 <= frequency filtered_words left_out <= frequency filtered_words kept.
Proof.
  intros Hsw Htok. eexists. split; [now apply extract_keywords_ok|].
  intros kept left_out filtered_words Hkept Hin Hout.
  rewrite rank_keywords_firstn in Hkept, Hout. fold filtered_words in Hkept, Hout.
  set (ranked := map fst (sorted_by_count (Counter filtered_words))) in *.
  assert (Hrest : In left_out (skipn (Z.to_nat k) ranked)).
  { apply sorted_keys_In in Hin. fold ranked in Hin.
    rewrite <- (firstn_skipn (Z.to_nat k) ranked) in Hin.
    apply in_app_or in Hin. tauto. }
  pose proof (sorted_keys_ranked filtered_words) as Hsorted. fold ranked in Hsorted.
  rewrite <- (firstn_skipn (Z.to_nat k) ranked) in Hsorted.
  pose proof (StronglySorted_app_inv _ _ _ Hsorted kept left_out Hkept Hrest)
    as Hrank.
  split.
  - unfold frequency. apply (proj1 (count_occ_In string_dec _ _)), Hin.
  - destruct Hrank as [Hlt | [Heq _]]; lia.
Qed.

(** X6. Keyword extraction ignores letter case: two texts with the same
    lower-case form get the same answer, so a text and its lower-case
    form do. *)
Theorem extract_keywords_ignores_case (text text' : string) (k : Z) :
  lower text = lower text' ->
  extract_keywords stopwords_words_english word_tokenize (PStr text) k =
    extract_keywords stopwords_words_english word_tokenize (PStr text') k /\
  extract_keywords stopwords_words_english word_tokenize (PStr (lower text)) k =
    extract_keywords stopwords_words_english word_tokenize (PStr text) k.
Proof.
  intros Heq. unfold extract_keywords, tokenize, method_lower.
  rewrite Heq, lower_idempotent. split; reflexivity.
Qed.

End ExtractorProperties.

(** * Further properties of the orchestrator and its callers *)

Lemma for_each_app {A B : Type} (f : A -> result B) (l1 l2 : list A) :
  for_each f (l1 ++ l2) =
  (ys1 <- for_each f l1 ;; ys2 <- for_each f l2 ;; Ok (ys1 ++ ys2)).
Proof.
  induction l1 as [| x l1 IH]; cbn.
  - now destruct (for_each f l2).
  - destruct (f x) as [y | e]; cbn; [|reflexivity]. rewrite IH.
    destruct (for_each f l1) as [ys1 | e]; cbn; [|reflexivity].
    now destruct (for_each f l2).
Qed.

Lemma for_each_first_failure {A B : Type} (f : A -> result B)
  (good : list A) (bad : A) (rest : list A) (e : exn) :
  Forall (fun x => exists y, f x = Ok y) good ->
  f bad = Raise e ->
  for_each f (good ++ bad :: rest) = Raise e.
Proof.
  intros Hgood Hbad. rewrite for_each_app.
  destruct (for_each_total f good Hgood) as [ys Hys]. rewrite Hys. cbn.
  now rewrite Hbad.
Qed.

Lemma to_uint_not_Nil (n : nat) : Nat.to_uint n <> Decimal.Nil.
Proof.
  intros H. pose proof (DecimalNat.Unsigned.of_to n) as Hn.
  rewrite H in Hn. cbn in Hn. subst n. discriminate H.
Qed.

Lemma str_of_nat_injective (n m : nat) : str_of_nat n = str_of_nat m -> n = m.
Proof.
  unfold str_of_nat. intros H.
  apply (f_equal NilZero.uint_of_string) in H.
  rewrite !NilZero.usu in H by apply to_uint_not_Nil.
  inversion H. now apply DecimalNat.Unsigned.to_uint_inj.
Qed.

Lemma fold_add_column_known (ks cols : list string) :
  (forall k, In k ks -> In k cols) -> fold_left add_column ks cols = cols.
Proof.
  induction ks as [| k ks IH]; cbn; intros H; [reflexivity|].
  unfold add_column at 2. rewrite (proj2 (mem_In k cols)) by (apply H; now left).
  apply IH. intros k' Hk'. apply H. now right.
Qed.

Lemma fold_add_column_fresh (ks cols : list string) :
  NoDup (cols ++ ks) -> fold_left add_column ks cols = cols ++ ks.
Proof.
  revert cols. induction ks as [| k ks IH]; cbn; intros cols Hnd.
  - now rewrite app_nil_r.
  - unfold add_column at 2.
    assert (Hk : ~ In k cols).
    { apply NoDup_remove_2 in Hnd. intros Hin. apply Hnd, in_or_app. now left. }
    rewrite (proj2 (mem_false_not_In k cols) Hk).
    rewrite IH; rewrite <- app_assoc; [reflexivity | exact Hnd].
Qed.

(** A frame whose rows all carry the same keys has these keys as its
    columns. *)
Lemma df_columns_uniform (cols : list string) (df : DataFrame) :
  NoDup cols -> df <> [] -> Forall (fun row => keys row = cols) df ->
  df_columns df = cols.
Proof.
  intros Hnd Hne Hrows. destruct df as [| row df]; [congruence|].
  apply Forall_cons_iff in Hrows as [Hrow Hrest].
  unfold df_columns. cbn [fold_left].
  rewrite fold_add_column_fresh by (now rewrite Hrow).
  cbn [app]. rewrite Hrow. clear Hrow Hne.
  induction Hrest as [| r df Hr _ IH]; cbn [fold_left]; [reflexivity|].
  rewrite fold_add_column_known by (now rewrite Hr). exact IH.
Qed.

Lemma label_counts_exclusive (v : pyval) :
  (if eq_str v "Positive" then 1 else 0) +
  (if eq_str v "Negative" then 1 else 0) +
  (if eq_str v "Neutral" then 1 else 0) <= 1.
Proof.
  destruct v as [t | | | |]; cbn; try lia.
  destruct (String.eqb_spec t "Positive") as [-> | _]; [cbn; lia|].
  destruct (String.eqb_spec t "Negative") as [-> | _]; [cbn; lia|].
  destruct (String.eqb t "Neutral"); lia.
Qed.

Lemma value_counts_bounded (series : list pyval) :
  (0 <= value_count series "Positive")%Z /\
  (0 <= value_count series "Negative")%Z /\
  (0 <= value_count series "Neutral")%Z /\
  (value_count series "Positive" + value_count series "Negative" +
   value_count series "Neutral" <= Z.of_nat (length series))%Z.
Proof.
  unfold value_count. repeat split; try lia.
  induction series as [| v series IH]; cbn [filter length]; [lia|].
  pose proof (label_counts_exclusive v).
  destruct (eq_str v "Positive"), (eq_str v "Negative"), (eq_str v "Neutral");
    cbn [length] in *; lia.
Qed.

Lemma value_counts_complete (series : list pyval) :
  Forall (fun v => v = PStr "Positive" \/ v = PStr "Negative" \/ v = PStr "Neutral")
         series ->
  (value_count series "Positive" + value_count series "Negative" +
   value_count series "Neutral" = Z.of_nat (length series))%Z.
Proof.
  unfold value_count. induction 1 as [| v series Hv _ IH]; cbn [filter length]; [lia|].
  destruct Hv as [-> | [-> | ->]];
    repeat match goal with
           | |- context [eq_str ?a ?b] =>
               let r := eval vm_compute in (eq_str a b) in
               change (eq_str a b) with r
           end;
    cbn [length] in *; lia.
Qed.

Section OrchestratorProperties.

Variable textblob_sentiment : string -> float * float.
Variable stopwords_words_english : result (list string).
Variable word_tokenize : string -> result (list string).
Variable format_2f : pyval -> result string.
Variable str_other : pyval -> string.
Variable series_mean : list pyval -> pyval.

Lemma analyze_sentiment_label (s : string) :
  exists sentiment,
    analyze_sentiment_textblob textblob_sentiment (PStr s) =
      Ok (sentiment, float_abs (fst (textblob_sentiment s)),
          fst (textblob_sentiment s), snd (textblob_sentiment s)) /\
    (sentiment = "Positive" \/ sentiment = "Negative" \/ sentiment = "Neutral").
Proof.
  unfold analyze_sentiment_textblob. cbn [TextBlob bind].
  destruct (float_gt _ _); [eauto|]. destruct (float_lt _ _); eauto.
Qed.

Lemma analyze_item_label (text_item row : dict) :
  analyze_item textblob_sentiment stopwords_words_english word_tokenize
               text_item = Ok row ->
  dict_lookup row "sentiment" = Some (PStr "Positive") \/
  dict_lookup row "sentiment" = Some (PStr "Negative") \/
  dict_lookup row "sentiment" = Some (PStr "Neutral").
Proof.
  unfold analyze_item. intros H.
  destruct (getitem text_item "text") as [text | e]; cbn [bind] in H; [|discriminate].
  destruct text as [s | | | |];
    try (unfold analyze_sentiment_textblob in H; cbn [TextBlob bind] in H;
         discriminate H).
  destruct (analyze_sentiment_label s) as (sentiment & Hana & Hlabel).
  rewrite Hana in H. cbn [bind] in H.
  destruct (extract_keywords stopwords_words_english word_tokenize (PStr s) 5);
    cbn [bind] in H; [|discriminate].
  inversion H. cbn.
  destruct Hlabel as [-> | [-> | ->]]; auto.
Qed.

(** X7. Row [i] of the batch holds what the two single-text functions
    return for the text of record [i]: the label, confidence, polarity
    and subjectivity of [analyze_sentiment_textblob] and the keywords of
    [extract_keywords] with its default of five, so at most five. *)
Theorem batch_rows_are_single_analyses (texts : list dict) :
  only_LookupError stopwords_words_english ->
  (forall s, only_LookupError (word_tokenize s)) ->
  Forall has_str_text texts ->
  exists results,
    batch_analyze_sentiment textblob_sentiment stopwords_words_english
                            word_tokenize texts = Ok results /\
    forall i text_item s,
      nth_error texts i = Some text_item ->
      dict_lookup text_item "text" = Some (PStr s) ->
      exists sentiment confidence polarity subjectivity keywords,
        analyze_sentiment_textblob textblob_sentiment (PStr s) =
          Ok (sentiment, confidence, polarity, subjectivity) /\
        extract_keywords stopwords_words_english word_tokenize (PStr s) 5 =
          Ok keywords /\
        length keywords <= 5 /\
        nth_error results i =
          Some [ ("text", PStr s);
                 ("sentiment", PStr sentiment);
                 ("confidence", PFloat confidence);
                 ("polarity", PFloat polarity);
                 ("subjectivity", PFloat subjectivity);
                 ("keywords", PList keywords);
                 ("source", dict_get text_item "source" (PStr "N/A"));
                 ("date", dict_get text_item "date" (PStr "N/A")) ].
Proof.
  intros Hsw Htok Htexts.
  destruct (batch_analyze_sentiment_rows textblob_sentiment _ _ texts Hsw Htok Htexts)
    as (results & Hres & _).
  exists results. split; [exact Hres|].
  intros i item s Hi Hs.
  apply for_each_Forall2 in Hres.
  destruct (Forall2_nth_error Hres i _ Hi) as (row & Hrow & Hitem).
  unfold analyze_item in Hitem.
  rewrite (proj2 (getitem_lookup _ _ _) Hs) in Hitem. cbn [bind] in Hitem.
  destruct (analyze_sentiment_label s) as (sentiment & Hana & _).
  rewrite Hana in Hitem. cbn [bind] in Hitem.
  rewrite (extract_keywords_ok _ _ s 5 Hsw (Htok _)) in Hitem. cbn [bind] in Hitem.
  inversion Hitem; subst row.
  do 5 eexists. split; [exact Hana|].
  split; [now apply extract_keywords_ok|].
  split; [|exact Hrow].
  rewrite rank_keywords_length. lia.
Qed.

(** X8. The first record without a string text decides the outcome of
    the whole batch: KeyError when the record has no text, TypeError
    when its text is not a string; no row is returned, not even for the
    records before it. *)
Theorem batch_fails_at_first_bad_record (good : list dict) (bad : dict) (rest : list dict) :
  only_LookupError stopwords_words_english ->
  (forall s, only_LookupError (word_tokenize s)) ->
  Forall has_str_text good ->
  ~ has_str_text bad ->
  batch_analyze_sentiment textblob_sentiment stopwords_words_english
                          word_tokenize (good ++ bad :: rest) =
  Raise (match dict_lookup bad "text" with
         | None => KeyError
         | Some _ => TypeError
         end).
Proof.
  intros Hsw Htok Hgood Hbad. unfold batch_analyze_sentiment.
  apply for_each_first_failure.
  - eapply Forall_impl; [|exact Hgood]. intros item.
    now apply analyze_item_total.
  - unfold analyze_item, getitem.
    destruct (dict_lookup bad "text") as [text |] eqn:Hb; [|reflexivity].
    cbn [bind]. destruct text as [s | | | |]; try reflexivity.
    elim Hbad. now exists s.
Qed.

(** X9. Records are analysed independently: the batch of a
    concatenation is the concatenation of the two batches, and fails
    when the first or else the second fails. *)
Theorem batch_of_concatenation (texts1 texts2 : list dict) :
  batch_analyze_sentiment textblob_sentiment stopwords_words_english
                          word_tokenize (texts1 ++ texts2) =
  (results1 <- batch_analyze_sentiment textblob_sentiment
                 stopwords_words_english word_tokenize texts1 ;;
   results2 <- batch_analyze_sentiment textblob_sentiment
                 stopwords_words_english word_tokenize texts2 ;;
   Ok (results1 ++ results2)).
Proof. apply for_each_app. Qed.

(** X10. The explanation written for an analysed text quotes the text,
    names the label that the classifier returned for it and gives the
    formatted polarity. *)
Theorem explanation_names_label
  (s sentiment score : string) (confidence polarity subjectivity : float) :
  analyze_sentiment_textblob textblob_sentiment (PStr s) =
    Ok (sentiment, confidence, polarity, subjectivity) ->
  format_2f (PFloat polarity) = Ok score ->
  exists reason ending,
    get_sentiment_explanation format_2f str_other
                              (PStr s) (PStr sentiment) (PFloat polarity) =
    Ok (String.concat EmptyString
          ["The text '"; s; "' is classified as "; sentiment; reason;
           "The polarity score is "; score; ending]).
Proof.
  intros Hana Hscore.
  destruct (analyze_sentiment_label s) as (label & Hlabel & Hcases).
  rewrite Hlabel in Hana. inversion Hana; subst.
  unfold get_sentiment_explanation.
  destruct Hcases as [-> | [-> | ->]];
    repeat match goal with
           | |- context [eq_str ?a ?b] =>
               let r := eval vm_compute in (eq_str a b) in
               change (eq_str a b) with r
           end;
    cbv iota; rewrite Hscore; cbn [bind str].
  - exists " due to words and phrases indicating approval or satisfaction. ", ".".
    reflexivity.
  - exists " due to words and phrases indicating disapproval or dissatisfaction. ", ".".
    reflexivity.
  - exists ". ", ". This could be due to a lack of strong emotional language or a balance of positive and negative terms.".
    reflexivity.
Qed.

End OrchestratorProperties.

Lemma value_counts_countable (df : DataFrame) (col : string) :
  countable df col = true ->
  value_counts (map (fun row => dict_get row col (PFloat S754_nan)) df) =
  Ok (column_values df col).
Proof.
  unfold countable, value_counts, column_values. now intros ->.
Qed.

Lemma value_counts_not_countable (df : DataFrame) (col : string) :
  countable df col = false ->
  value_counts (map (fun row => dict_get row col (PFloat S754_nan)) df) =
  Raise TypeError.
Proof.
  unfold countable, value_counts, column_values. now intros ->.
Qed.

Lemma column_mean_averageable (series_mean : list pyval -> pyval)
  (df : DataFrame) (col : string) :
  averageable df col = true ->
  column_mean series_mean df col =
  Ok (if mem col (df_columns df) then series_mean (column_values df col)
      else PInt 0).
Proof.
  unfold averageable, column_mean, df_getitem, column_values.
  destruct (mem col (df_columns df)); cbn [negb orb bind]; [|reflexivity].
  now intros ->.
Qed.

Lemma column_mean_not_averageable (series_mean : list pyval -> pyval)
  (df : DataFrame) (col : string) :
  averageable df col = false ->
  column_mean series_mean df col = Raise TypeError.
Proof.
  unfold averageable, column_mean, df_getitem, column_values.
  destruct (mem col (df_columns df)); cbn [negb orb bind]; [|discriminate].
  now intros ->.
Qed.

Lemma column_mean_returns (series_mean : list pyval -> pyval)
  (df : DataFrame) (col : string) (v : pyval) :
  column_mean series_mean df col = Ok v -> averageable df col = true.
Proof.
  intros H. destruct (averageable df col) eqn:Ha; [reflexivity|].
  rewrite (column_mean_not_averageable series_mean df col Ha) in H.
  discriminate H.
Qed.

Lemma batch_text_data_nth (lines : list string) (default_source default_date : string)
  (i : nat) (line : string) :
  nth_error lines i = Some line ->
  nth_error (batch_text_data lines default_source default_date) i =
  Some [ ("text", PStr line);
         ("source",
          PStr (if String.length default_source =? 0
                then String.append "Batch Input " (str_of_nat (i + 1))
                else default_source));
         ("date", PStr default_date) ].
Proof.
  intros Hi. unfold batch_text_data.
  now rewrite nth_error_map, (enumerate_nth_error lines i line Hi).
Qed.

Lemma batch_text_data_length (lines : list string) (default_source default_date : string) :
  length (batch_text_data lines default_source default_date) = length lines.
Proof.
  unfold batch_text_data, enumerate.
  rewrite length_map, length_combine, length_seq. lia.
Qed.

Lemma batch_text_data_str (lines : list string) (default_source default_date : string) :
  Forall has_str_text (batch_text_data lines default_source default_date).
Proof.
  unfold batch_text_data. apply Forall_forall.
  intros rec [[i line] [<- _]]%in_map_iff. now exists line.
Qed.

(** X11. Without a default source, the records that [batch_text_analysis]
    builds carry pairwise different sources: the label of a line tells
    its position. *)
Theorem batch_text_labels_distinct
  (lines : list string) (default_date : string) (i j : nat) (rec_i rec_j : dict) :
  i <> j ->
  nth_error (batch_text_data lines EmptyString default_date) i = Some rec_i ->
  nth_error (batch_text_data lines EmptyString default_date) j = Some rec_j ->
  dict_lookup rec_i "source" <> dict_lookup rec_j "source".
Proof.
  intros Hij Hi Hj.
  assert (Hline : forall n rec,
             nth_error (batch_text_data lines EmptyString default_date) n = Some rec ->
             dict_lookup rec "source" =
             Some (PStr (String.append "Batch Input " (str_of_nat (n + 1))))).
  { intros n rec Hn.
    destruct (nth_error lines n) as [line |] eqn:Hl.
    - rewrite (batch_text_data_nth lines EmptyString default_date n line Hl) in Hn.
      inversion Hn. reflexivity.
    - apply nth_error_None in Hl.
      assert (Hsome : nth_error (batch_text_data lines EmptyString default_date) n
                      <> None) by congruence.
      apply nth_error_Some in Hsome. rewrite batch_text_data_length in Hsome. lia. }
  rewrite (Hline i rec_i Hi), (Hline j rec_j Hj). intros Heq.
  inversion Heq as [Hlabel]. apply str_of_nat_injective in Hlabel. lia.
Qed.

Section CallerProperties.

Variable textblob_sentiment : string -> float * float.
Variable stopwords_words_english : result (list string).
Variable word_tokenize : string -> result (list string).
Variable format_2f : pyval -> result string.
Variable str_other : pyval -> string.
Variable series_mean : list pyval -> pyval.

(** X12. Batch text analysis cannot fail on its lines: it returns one
    row per line, in order, with the nine columns of the result table,
    the text of the line, the date of the form, and as source the
    default source or, when none was entered, the label of the line. *)
Theorem batch_text_analysis_rows
  (lines : list string) (default_source default_date : string) :
  only_LookupError stopwords_words_english ->
  (forall s, only_LookupError (word_tokenize s)) ->
  (forall f, exists s, format_2f (PFloat f) = Ok s) ->
  exists results,
    batch_text_analysis textblob_sentiment stopwords_words_english word_tokenize
                        format_2f str_other lines default_source default_date =
      Ok results /\
    length results = length lines /\
    forall i line,
      nth_error lines i = Some line ->
      exists row,
        nth_error results i = Some row /\
        keys row = result_columns /\
        dict_lookup row "text" = Some (PStr line) /\
        dict_lookup row "date" = Some (PStr default_date) /\
        dict_lookup row "source" =
          Some (PStr (if String.length default_source =? 0
                      then String.append "Batch Input " (str_of_nat (i + 1))
                      else default_source)).
Proof.
  intros Hsw Htok Hfmt. unfold batch_text_analysis.
  destruct (batch_analyze_sentiment_rows textblob_sentiment _ _ _ Hsw Htok
              (batch_text_data_str lines default_source default_date))
    as (results & Hres & Hrows).
  rewrite Hres. cbn [bind].
  destruct (add_explanations_rows format_2f str_other _ _ Hfmt Hrows)
    as (explained & Hexp & Hexps).
  exists explained. split; [exact Hexp|]. split.
  - rewrite <- (Forall2_length Hexps), <- (Forall2_length Hrows).
    apply batch_text_data_length.
  - intros i line Hi.
    pose proof (batch_text_data_nth lines default_source default_date i line Hi)
      as Hrec.
    destruct (Forall2_nth_error Hrows i _ Hrec) as (res & Hresi & Hshape).
    destruct (Forall2_nth_error Hexps i _ Hresi) as (out & Houti & [e Hout]).
    exists out. split; [exact Houti|]. subst out.
    destruct Hshape as (text & sentiment & confidence & polarity &
                        subjectivity & keywords & Ht & ->).
    cbn in Ht. inversion Ht; subst text. repeat split.
Qed.

(** X13. In the summary of a frame that is not empty the three counts
    are non-negative and add up to at most the number of rows, which is
    [total_texts], and the three percentages are floats: the branch that
    would return the integer 0 for an empty total is never taken. *)
Theorem metrics_counts_bounded (df : DataFrame) (metrics : dict) :
  df_empty df = false ->
  create_sentiment_metrics_summary series_mean df = Ok metrics ->
  exists positive negative neutral : Z,
    dict_lookup metrics "total_texts" = Some (PInt (df_len df)) /\
    dict_lookup metrics "positive_count" = Some (PInt positive) /\
    dict_lookup metrics "negative_count" = Some (PInt negative) /\
    dict_lookup metrics "neutral_count" = Some (PInt neutral) /\
    (0 <= positive /\ 0 <= negative /\ 0 <= neutral /\
     positive + negative + neutral <= df_len df)%Z /\
    dict_lookup metrics "positive_pct" =
      Some (PFloat (float_mul (float_div (float_of_Z positive)
                                         (float_of_Z (df_len df)))
                              (float_of_Z 100))) /\
    dict_lookup metrics "negative_pct" =
      Some (PFloat (float_mul (float_div (float_of_Z negative)
                                         (float_of_Z (df_len df)))
                              (float_of_Z 100))) /\
    dict_lookup metrics "neutral_pct" =
      Some (PFloat (float_mul (float_div (float_of_Z neutral)
                                         (float_of_Z (df_len df)))
                              (float_of_Z 100))).
Proof.
  unfold create_sentiment_metrics_summary. intros Hne H. rewrite Hne in H.
  assert (Hpos : (0 <? df_len df)%Z = true).
  { unfold df_empty in Hne. apply orb_false_iff in Hne as [Hlen _].
    apply Nat.eqb_neq in Hlen. apply Z.ltb_lt. unfold df_len. lia. }
  unfold df_getitem in H at 1.
  destruct (mem "sentiment" (df_columns df)); cbn [bind] in H; [|discriminate].
  set (sentiments := map _ df) in H. unfold value_counts in H.
  destruct (forallb is_hashable sentiments); cbn [bind] in H; [|discriminate].
  unfold percentage in H. rewrite Hpos in H.
  destruct (column_mean series_mean df "confidence"); cbn [bind] in H; [|discriminate].
  destruct (column_mean series_mean df "polarity"); cbn [bind] in H; [|discriminate].
  destruct (column_mean series_mean df "subjectivity"); cbn [bind] in H; [|discriminate].
  inversion H.
  pose proof (value_counts_bounded sentiments) as (Hp & Hn & Hu & Hsum).
  exists (value_count sentiments "Positive"), (value_count sentiments "Negative"),
         (value_count sentiments "Neutral").
  assert (Hlen : Z.of_nat (length sentiments) = df_len df).
  { unfold sentiments, df_len. now rewrite length_map. }
  rewrite Hlen in Hsum. repeat split; assumption.
Qed.

(** X14. A frame with rows but no sentiment column makes the summary
    raise KeyError.  With a sentiment column that can be counted, the
    summary is returned when each of the columns confidence, polarity
    and subjectivity is missing or numeric, a missing one being
    reported as the integer 0.  It raises TypeError when the sentiment
    column holds a list or when one of the three columns is there and
    not numeric. *)
Theorem metrics_missing_columns (df : DataFrame) :
  df_empty df = false ->
  (mem "sentiment" (df_columns df) = false ->
   create_sentiment_metrics_summary series_mean df = Raise KeyError) /\
  (mem "sentiment" (df_columns df) = true ->
   countable df "sentiment" = true ->
   averageable df "confidence" = true ->
   averageable df "polarity" = true ->
   averageable df "subjectivity" = true ->
   exists metrics,
     create_sentiment_metrics_summary series_mean df = Ok metrics /\
     (mem "confidence" (df_columns df) = false ->
      dict_lookup metrics "avg_confidence" = Some (PInt 0)) /\
     (mem "polarity" (df_columns df) = false ->
      dict_lookup metrics "avg_polarity" = Some (PInt 0)) /\
     (mem "subjectivity" (df_columns df) = false ->
      dict_lookup metrics "avg_subjectivity" = Some (PInt 0))) /\
  (mem "sentiment" (df_columns df) = true ->
   countable df "sentiment" && averageable df "confidence" &&
     averageable df "polarity" && averageable df "subjectivity" = false ->
   create_sentiment_metrics_summary series_mean df = Raise TypeError).
Proof.
  intros Hne. unfold create_sentiment_metrics_summary. rewrite Hne.
  split; [|split]; unfold df_getitem.
  - intros Hs. now rewrite Hs.
  - intros Hs Hcount Hc Hp Hu. rewrite Hs. cbn [bind].
    rewrite (value_counts_countable df _ Hcount). cbn [bind].
    rewrite (column_mean_averageable series_mean df _ Hc),
      (column_mean_averageable series_mean df _ Hp),
      (column_mean_averageable series_mean df _ Hu).
    cbn [bind]. eexists. split; [reflexivity|].
    repeat split; intros Hcol; rewrite Hcol; reflexivity.
  - intros Hs Hbad. rewrite Hs. cbn [bind].
    destruct (countable df "sentiment") eqn:Hcount;
      [| now rewrite (value_counts_not_countable df _ Hcount)].
    rewrite (value_counts_countable df _ Hcount). cbn [bind].
    destruct (averageable df "confidence") eqn:Hc;
      [| now rewrite (column_mean_not_averageable series_mean df _ Hc)].
    rewrite (column_mean_averageable series_mean df _ Hc). cbn [bind].
    destruct (averageable df "polarity") eqn:Hp;
      [| now rewrite (column_mean_not_averageable series_mean df _ Hp)].
    rewrite (column_mean_averageable series_mean df _ Hp). cbn [bind].
    cbn [andb] in Hbad.
    now rewrite (column_mean_not_averageable series_mean df _ Hbad).
Qed.

(** X15. The summary of the rows that the orchestrator returns for at
    least one record does not fail: [total_texts] is the number of
    records, every row is counted under exactly one of the three labels,
    and the averages are taken over the columns of the batch. *)
Theorem metrics_of_batch_result (texts : list dict) :
  only_LookupError stopwords_words_english ->
  (forall s, only_LookupError (word_tokenize s)) ->
  Forall has_str_text texts ->
  texts <> [] ->
  exists results metrics (positive negative neutral : Z),
    batch_analyze_sentiment textblob_sentiment stopwords_words_english
                            word_tokenize texts = Ok results /\
    create_sentiment_metrics_summary series_mean results = Ok metrics /\
    keys metrics = metric_fields /\
    dict_lookup metrics "total_texts" = Some (PInt (Z.of_nat (length texts))) /\
    dict_lookup metrics "positive_count" = Some (PInt positive) /\
    dict_lookup metrics "negative_count" = Some (PInt negative) /\
    dict_lookup metrics "neutral_count" = Some (PInt neutral) /\
    (positive + negative + neutral = Z.of_nat (length texts))%Z /\
    dict_lookup metrics "avg_confidence" =
      Some (series_mean
              (map (fun row => dict_get row "confidence" (PFloat S754_nan)) results)) /\
    dict_lookup metrics "avg_polarity" =
      Some (series_mean
              (map (fun row => dict_get row "polarity" (PFloat S754_nan)) results)).
Proof.
  intros Hsw Htok Htexts Hne.
  destruct (batch_analyze_sentiment_rows textblob_sentiment _ _ texts Hsw Htok Htexts)
    as (results & Hres & Hrows).
  pose proof (Forall2_length Hrows) as Hlen.
  assert (Hcols : df_columns results = batch_columns).
  { apply df_columns_uniform.
    - unfold batch_columns. repeat constructor; cbn; intuition discriminate.
    - destruct results; [destruct texts; [congruence | discriminate] | discriminate].
    - clear -Hrows. induction Hrows as [| item row ? ? Hrow _ IH];
        constructor; [now apply batch_row_lookup in Hrow | exact IH]. }
  assert (Hlabels :
            Forall (fun v => v = PStr "Positive" \/ v = PStr "Negative" \/
                             v = PStr "Neutral")
                   (map (fun row => dict_get row "sentiment" (PFloat S754_nan))
                        results)).
  { apply for_each_Forall2 in Hres. clear -Hres.
    induction Hres as [| item row ? ? Hrow _ IH]; cbn [map]; constructor;
      [|exact IH].
    apply analyze_item_label in Hrow. unfold dict_get.
    destruct Hrow as [-> | [-> | ->]]; auto. }
  assert (Hcount :
            value_counts (map (fun row => dict_get row "sentiment" (PFloat S754_nan))
                              results) =
            Ok (map (fun row => dict_get row "sentiment" (PFloat S754_nan))
                    results)).
  { unfold value_counts.
    replace (forallb is_hashable _) with true; [reflexivity|].
    symmetry. apply forallb_forall. intros v Hv.
    rewrite Forall_forall in Hlabels.
    destruct (Hlabels v Hv) as [-> | [-> | ->]]; reflexivity. }
  apply value_counts_complete in Hlabels. rewrite length_map in Hlabels.
  assert (Hnumeric :
            forall col, In col ["confidence"; "polarity"; "subjectivity"] ->
                        forallb is_numeric
                          (map (fun row => dict_get row col (PFloat S754_nan))
                               results) = true).
  { intros col Hcol. apply forallb_forall. intros v [row [<- Hrow]]%in_map_iff.
    clear -Hrows Hrow Hcol.
    induction Hrows as [| item r ? ? Hshape _ IH]; [destruct Hrow|].
    destruct Hrow as [-> | Hrow]; [|now apply IH].
    destruct Hshape as (text & sentiment & confidence & polarity &
                        subjectivity & keywords & _ & ->).
    destruct Hcol as [<- | [<- | [<- | []]]]; reflexivity. }
  do 5 eexists. split; [exact Hres|].
  unfold create_sentiment_metrics_summary, df_empty, column_mean, df_getitem.
  rewrite Hcols.
  replace (length results =? 0) with false
    by (symmetry; apply Nat.eqb_neq; destruct texts; [congruence | cbn in Hlen; lia]).
  cbn [orb length batch_columns Nat.eqb].
  repeat match goal with
         | |- context [mem ?a batch_columns] =>
             let r := eval vm_compute in (mem a batch_columns) in
             change (mem a batch_columns) with r
         end.
  cbv iota. cbn [bind].
  rewrite !Hnumeric by (cbn; tauto). cbn [bind].
  rewrite Hcount. cbn [bind].
  split; [reflexivity|]. split; [reflexivity|].
  split; [unfold df_len; rewrite <- Hlen; reflexivity|].
  split; [reflexivity|]. split; [reflexivity|]. split; [reflexivity|].
  split; [rewrite Hlen; exact Hlabels|].
  split; reflexivity.
Qed.

End CallerProperties.

(** * Properties of the input forms *)

Lemma truthy_empty_iff (s : string) : truthy s = false <-> s = EmptyString.
Proof. destruct s; cbn; split; congruence. Qed.

Lemma lstrip_blank (s : string) :
  lstrip s = EmptyString <-> all_chars is_space_char s = true.
Proof.
  induction s as [| c s IH]; cbn; [tauto|].
  destruct (is_space_char c); cbn; [exact IH | split; discriminate].
Qed.

Lemma rstrip_blank (s : string) :
  rstrip s = EmptyString <-> all_chars is_space_char s = true.
Proof.
  induction s as [| c s IH]; cbn; [tauto|].
  destruct (rstrip s) as [| c' kept].
  - rewrite (proj1 IH eq_refl), andb_true_r.
    destruct (is_space_char c); split; congruence.
  - split; [discriminate|]. intros [_ H]%andb_true_iff.
    apply IH in H. discriminate H.
Qed.

Lemma lstrip_all_chars (p : ascii -> bool) (s : string) :
  all_chars p s = true -> all_chars p (lstrip s) = true.
Proof.
  induction s as [| c s IH]; cbn; [trivial|].
  intros H. destruct (is_space_char c); [|exact H].
  apply andb_true_iff in H as [_ H]. now apply IH.
Qed.

Lemma rstrip_all_chars (p : ascii -> bool) (s : string) :
  all_chars p s = true -> all_chars p (rstrip s) = true.
Proof.
  induction s as [| c s IH]; cbn; [trivial|].
  intros [Hc Hs]%andb_true_iff. specialize (IH Hs).
  destruct (rstrip s) as [| c' kept].
  - destruct (is_space_char c); cbn; [reflexivity | now rewrite Hc].
  - cbn in *. now rewrite Hc, IH.
Qed.

Lemma lstrip_space_blank (s : string) :
  all_chars is_space_char (lstrip s) = all_chars is_space_char s.
Proof.
  induction s as [| c s IH]; cbn; [reflexivity|].
  destruct (is_space_char c) eqn:Hc; cbn; [exact IH | now rewrite Hc].
Qed.

(** [s.strip()] is empty exactly when [s] is all whitespace. *)
Lemma strip_blank (s : string) :
  truthy (strip s) = negb (all_chars is_space_char s).
Proof.
  unfold strip. rewrite <- lstrip_space_blank.
  destruct (all_chars is_space_char (lstrip s)) eqn:Hb; cbn.
  - apply truthy_empty_iff, rstrip_blank, Hb.
  - destruct (truthy (rstrip (lstrip s))) eqn:Ht; [reflexivity|].
    apply truthy_empty_iff, rstrip_blank in Ht. congruence.
Qed.

Lemma rstrip_cons (c : ascii) (s : string) :
  rstrip (String c s) =
  match rstrip s with
  | EmptyString => if is_space_char c then EmptyString else String c EmptyString
  | kept => String c kept
  end.
Proof. reflexivity. Qed.

Lemma rstrip_idempotent (s : string) : rstrip (rstrip s) = rstrip s.
Proof.
  induction s as [| c s IH]; [reflexivity|].
  rewrite rstrip_cons.
  destruct (rstrip s) as [| c' kept] eqn:Hr.
  - destruct (is_space_char c) eqn:Hc; [reflexivity|].
    rewrite rstrip_cons. cbn [rstrip]. now rewrite Hc.
  - rewrite rstrip_cons, IH. reflexivity.
Qed.

Lemma lstrip_starts_clean (s : string) : starts_clean (lstrip s).
Proof.
  induction s as [| c s IH]; cbn; [trivial|].
  destruct (is_space_char c) eqn:Hc; [exact IH | exact Hc].
Qed.

Lemma lstrip_of_clean (s : string) : starts_clean s -> lstrip s = s.
Proof. destruct s as [| c s]; cbn; [trivial|]. now intros ->. Qed.

Lemma rstrip_starts_clean (s : string) : starts_clean s -> starts_clean (rstrip s).
Proof.
  destruct s as [| c s]; cbn; [trivial|]. intros Hc.
  destruct (rstrip s); [rewrite Hc|]; exact Hc.
Qed.

Lemma strip_idempotent (s : string) : strip (strip s) = strip s.
Proof.
  unfold strip.
  rewrite (lstrip_of_clean (rstrip (lstrip s)))
    by apply rstrip_starts_clean, lstrip_starts_clean.
  apply rstrip_idempotent.
Qed.

Lemma strip_all_chars (p : ascii -> bool) (s : string) :
  all_chars p s = true -> all_chars p (strip s) = true.
Proof. intros H. now apply rstrip_all_chars, lstrip_all_chars. Qed.

Lemma split_on_not_nil (sep : ascii) (s : string) : split_on sep s <> [].
Proof.
  destruct s as [| c s]; cbn; [discriminate|].
  destruct (Ascii.eqb c sep); [discriminate|].
  destruct (split_on sep s); discriminate.
Qed.

Lemma split_on_all_chars (p : ascii -> bool) (sep : ascii) (s : string) :
  p sep = true ->
  forallb (all_chars p) (split_on sep s) = all_chars p s.
Proof.
  intros Hsep. induction s as [| c s IH]; cbn; [reflexivity|].
  destruct (Ascii.eqb_spec c sep) as [-> | _].
  - cbn. now rewrite IH, Hsep.
  - pose proof (split_on_not_nil sep s) as Hne.
    destruct (split_on sep s) as [| piece pieces]; [congruence|].
    cbn in *. rewrite <- IH. now rewrite andb_assoc.
Qed.

Lemma split_on_pieces_free (sep : ascii) (s piece : string) :
  In piece (split_on sep s) ->
  all_chars (fun c => negb (Ascii.eqb c sep)) piece = true.
Proof.
  revert piece. induction s as [| c s IH]; cbn; intros piece H.
  - destruct H as [<- | []]. reflexivity.
  - destruct (Ascii.eqb c sep) eqn:Hc.
    + destruct H as [<- | H]; [reflexivity | now apply IH].
    + pose proof (split_on_not_nil sep s) as Hne.
      destruct (split_on sep s) as [| first pieces]; [congruence|].
      destruct H as [<- | H].
      * cbn. rewrite Hc. cbn. apply IH. now left.
      * apply IH. now right.
Qed.

(** X16. Every text that the batch form hands to the analysis is a line
    of the input that is not empty, has no whitespace at either end and
    contains no line break. *)
Theorem batch_lines_are_clean (batch_text line : string) :
  In line (nonblank_lines batch_text) ->
  truthy line = true /\
  strip line = line /\
  all_chars (fun c => negb (Ascii.eqb c newline)) line = true.
Proof.
  unfold nonblank_lines. intros [raw [<- Hraw]]%in_map_iff.
  apply filter_In in Hraw as [Hraw Htruthy].
  split; [exact Htruthy|]. split; [apply strip_idempotent|].
  apply strip_all_chars, (split_on_pieces_free newline batch_text raw Hraw).
Qed.

Lemma lines_kept_iff_not_blank (text : string) :
  truthy (strip text) = true <-> nonblank_lines text <> [].
Proof.
  rewrite strip_blank, negb_true_iff.
  rewrite <- (split_on_all_chars is_space_char newline text eq_refl).
  unfold nonblank_lines.
  induction (split_on newline text) as [| raw lines IH]; cbn.
  - split; [discriminate | congruence].
  - rewrite strip_blank.
    destruct (all_chars is_space_char raw); cbn; [exact IH|].
    split; [discriminate | reflexivity].
Qed.

(** X17. The guard of the batch form and its list of lines agree: the
    input passes [batch_text.strip()] exactly when at least one line is
    kept, so an accepted input always yields at least one text, and an
    input is refused exactly when it is all whitespace. *)
Theorem batch_guard_matches_lines (batch_text : string) :
  (truthy (strip batch_text) = true <-> nonblank_lines batch_text <> []) /\
  (truthy (strip batch_text) = false <->
   all_chars is_space_char batch_text = true).
Proof.
  split; [apply lines_kept_iff_not_blank|].
  rewrite strip_blank. apply negb_false_iff.
Qed.

(** * Properties of the session results *)

Lemma reindex_keys (cols : list string) (row : dict) : keys (reindex cols row) = cols.
Proof. unfold keys, reindex. rewrite map_map. cbn. apply map_id. Qed.

Lemma reindex_lookup (cols : list string) (row : dict) (col : string) :
  dict_lookup (reindex cols row) col =
  if mem col cols then Some (dict_get row col (PFloat S754_nan)) else None.
Proof.
  unfold reindex, mem. induction cols as [| c cols IH]; cbn; [reflexivity|].
  rewrite (String.eqb_sym col c).
  destruct (String.eqb_spec c col) as [-> | _]; cbn; [reflexivity | exact IH].
Qed.

Lemma reindex_get (cols : list string) (row : dict) (col : string) :
  In col cols ->
  dict_get (reindex cols row) col (PFloat S754_nan) =
  dict_get row col (PFloat S754_nan).
Proof.
  intros Hin. unfold dict_get at 1.
  now rewrite reindex_lookup, (proj2 (mem_In col cols) Hin).
Qed.

Lemma reindex_same_keys (row : dict) :
  NoDup (keys row) -> reindex (keys row) row = row.
Proof.
  unfold reindex, keys. induction row as [| [k v] row IH]; cbn; [reflexivity|].
  intros Hnd. inversion Hnd as [| ? ? Hk Hnd']; subst.
  unfold dict_get at 1. cbn. rewrite String.eqb_refl. f_equal.
  rewrite <- (IH Hnd') at 2. apply map_ext_in.
  intros c Hc. unfold dict_get. cbn.
  destruct (String.eqb_spec k c) as [-> | _]; [contradiction | reflexivity].
Qed.

Lemma add_column_NoDup (cols : list string) (k : string) :
  NoDup cols -> NoDup (add_column cols k).
Proof.
  intros Hnd. unfold add_column. destruct (mem k cols) eqn:Hk; [exact Hnd|].
  apply mem_false_not_In in Hk.
  apply NoDup_rev in Hnd. rewrite <- (rev_involutive (cols ++ [k])).
  apply NoDup_rev. rewrite rev_app_distr. cbn. constructor; [|exact Hnd].
  now rewrite <- in_rev.
Qed.

Lemma add_column_In (cols : list string) (k c : string) :
  In c (add_column cols k) <-> In c cols \/ c = k.
Proof.
  unfold add_column. destruct (mem k cols) eqn:Hk.
  - apply mem_In in Hk. split; [tauto | intros [H | ->]; assumption].
  - rewrite in_app_iff. cbn. split; intros [H | H]; auto.
    destruct H as [<- | []]. now right.
Qed.

Lemma fold_add_column_NoDup (ks cols : list string) :
  NoDup cols -> NoDup (fold_left add_column ks cols).
Proof.
  revert cols. induction ks as [| k ks IH]; cbn; intros cols H; [exact H|].
  now apply IH, add_column_NoDup.
Qed.

Lemma fold_add_column_In (ks cols : list string) (c : string) :
  In c (fold_left add_column ks cols) <-> In c cols \/ In c ks.
Proof.
  revert cols. induction ks as [| k ks IH]; cbn; intros cols; [tauto|].
  rewrite IH, add_column_In. intuition (subst; auto).
Qed.

Lemma union_columns_NoDup (frames : list frame) : NoDup (union_columns frames).
Proof.
  unfold union_columns.
  enough (H : forall cols, NoDup cols ->
              NoDup (fold_left (fun cols f => fold_left add_column (fst f) cols)
                               frames cols)) by (apply H; constructor).
  induction frames as [| f frames IH]; cbn; intros cols Hnd; [exact Hnd|].
  now apply IH, fold_add_column_NoDup.
Qed.

Lemma union_columns_In (frames : list frame) (c : string) :
  In c (union_columns frames) <-> exists f, In f frames /\ In c (fst f).
Proof.
  unfold union_columns.
  enough (H : forall cols,
              In c (fold_left (fun cols f => fold_left add_column (fst f) cols)
                              frames cols) <->
              In c cols \/ exists f, In f frames /\ In c (fst f)).
  { rewrite H. cbn. tauto. }
  induction frames as [| f frames IH]; cbn; intros cols.
  - split; [tauto | intros [H | (f & [] & _)]; exact H].
  - rewrite IH, fold_add_column_In. split.
    + intros [[H | H] | (g & Hg & Hc)]; eauto.
    + intros [H | (g & [<- | Hg] & Hc)]; eauto.
Qed.

(** Frames whose rows all have the columns [cols] are concatenated row
    by row. *)
Lemma session_append_uniform (cols : list string) (a b : DataFrame) :
  NoDup cols ->
  Forall (fun row => keys row = cols) a ->
  Forall (fun row => keys row = cols) b ->
  session_append a b = Ok (a ++ b).
Proof.
  intros Hnd Ha Hb. unfold session_append, pd_concat. f_equal.
  cbn [map snd frame_of concat]. rewrite app_nil_r.
  assert (Hall : Forall (fun row => keys row = cols) (a ++ b))
    by (apply Forall_app; now split).
  destruct (a ++ b) as [| row rows] eqn:Hrows; [reflexivity|].
  assert (Hunion : union_columns [frame_of a; frame_of b] = cols).
  { unfold union_columns, frame_of. cbn [fold_left fst].
    destruct a as [| ra a'], b as [| rb b']; try discriminate Hrows.
    - rewrite (df_columns_uniform cols (rb :: b') Hnd) by (discriminate || exact Hb).
      cbn. now apply (fold_add_column_fresh cols []).
    - rewrite (df_columns_uniform cols (ra :: a') Hnd) by (discriminate || exact Ha).
      cbn. now apply (fold_add_column_fresh cols []).
    - rewrite (df_columns_uniform cols (ra :: a') Hnd) by (discriminate || exact Ha).
      rewrite (df_columns_uniform cols (rb :: b') Hnd) by (discriminate || exact Hb).
      rewrite (fold_add_column_fresh cols []) by exact Hnd. cbn [app].
      apply fold_add_column_known. auto. }
  rewrite Hunion. rewrite <- (map_id (row :: rows)) at 2.
  apply map_ext_in. intros r Hr.
  rewrite Forall_forall in Hall. specialize (Hall r Hr). subst cols.
  now apply reindex_same_keys.
Qed.

Lemma result_columns_NoDup : NoDup result_columns.
Proof.
  unfold result_columns, batch_columns. cbn.
  repeat constructor; cbn; intuition discriminate.
Qed.

Lemma df_columns_In_row (df : DataFrame) (row : dict) (c : string) :
  In row df -> In c (keys row) -> In c (df_columns df).
Proof.
  unfold df_columns. generalize (@nil string) as cols.
  induction df as [| r df IH]; cbn [fold_left]; intros cols Hrow Hc; [destruct Hrow|].
  destruct Hrow as [-> | Hrow]; [|now apply IH].
  assert (Hstart : In c (fold_left add_column (keys row) cols))
    by (apply fold_add_column_In; now right).
  revert Hstart. generalize (fold_left add_column (keys row) cols). clear.
  induction df as [| r df IH]; cbn; intros cols H; [exact H|].
  apply IH, fold_add_column_In. now left.
Qed.

Lemma dict_lookup_In_keys (d : dict) (k : string) (v : pyval) :
  dict_lookup d k = Some v -> In k (keys d).
Proof.
  induction d as [| [k' v'] d IH]; cbn; [discriminate|].
  destruct (String.eqb_spec k' k) as [-> | _]; [now left | right; now apply IH].
Qed.

(** A column that [column_mean] accepts reads as numbers and missing
    values only; a column that the frame lacks reads as NaN. *)
Lemma averageable_numeric (df : DataFrame) (col : string) :
  averageable df col = true -> forallb is_numeric (column_values df col) = true.
Proof.
  unfold averageable. destruct (mem col (df_columns df)) eqn:Hcol; cbn [negb orb];
    [trivial|]. intros _.
  apply mem_false_not_In in Hcol. unfold column_values.
  apply forallb_forall. intros v [row [<- Hrow]]%in_map_iff.
  unfold dict_get. destruct (dict_lookup row col) as [cell |] eqn:Hcell; [|reflexivity].
  elim Hcol. eapply df_columns_In_row; [exact Hrow|].
  eapply dict_lookup_In_keys, Hcell.
Qed.

(** What the summary of a frame with rows is made of. *)
Lemma metrics_summary_shape (series_mean : list pyval -> pyval)
  (df : DataFrame) (metrics : dict) :
  df_empty df = false ->
  create_sentiment_metrics_summary series_mean df = Ok metrics ->
  mem "sentiment" (df_columns df) = true /\
  (countable df "sentiment" = true /\
   averageable df "confidence" = true /\ averageable df "polarity" = true /\
   averageable df "subjectivity" = true) /\
  let sentiments := map (fun row => dict_get row "sentiment" (PFloat S754_nan)) df in
  dict_lookup metrics "total_texts" = Some (PInt (df_len df)) /\
  dict_lookup metrics "positive_count" =
    Some (PInt (value_count sentiments "Positive")) /\
  dict_lookup metrics "negative_count" =
    Some (PInt (value_count sentiments "Negative")) /\
  dict_lookup metrics "neutral_count" =
    Some (PInt (value_count sentiments "Neutral")).
Proof.
  unfold create_sentiment_metrics_summary. intros -> H.
  unfold df_getitem in H at 1.
  destruct (mem "sentiment" (df_columns df)); cbn [bind] in H; [|discriminate].
  destruct (countable df "sentiment") eqn:Hcount;
    [| rewrite (value_counts_not_countable df _ Hcount) in H; discriminate H].
  rewrite (value_counts_countable df _ Hcount) in H. cbn [bind] in H.
  destruct (column_mean series_mean df "confidence") eqn:Hc;
    cbn [bind] in H; [|discriminate].
  destruct (column_mean series_mean df "polarity") eqn:Hp;
    cbn [bind] in H; [|discriminate].
  destruct (column_mean series_mean df "subjectivity") eqn:Hu;
    cbn [bind] in H; [|discriminate].
  apply column_mean_returns in Hc, Hp, Hu.
  inversion H. repeat split; assumption.
Qed.

Lemma value_count_app (s1 s2 : list pyval) (label : string) :
  value_count (s1 ++ s2) label =
  (value_count s1 label + value_count s2 label)%Z.
Proof. unfold value_count. rewrite filter_app, length_app. lia. Qed.

Lemma df_empty_false (df : DataFrame) :
  df_empty df = false <-> df <> [] /\ df_columns df <> [].
Proof.
  unfold df_empty. rewrite orb_false_iff, !Nat.eqb_neq.
  destruct df, (df_columns _); cbn; intuition congruence.
Qed.

Section SessionProperties.

Variable series_mean : list pyval -> pyval.

(** X18. The summary is additive over the session: after the rows of a
    new result are appended to the session results, [total_texts] and
    the three counts of the summary are the sums of those of the two
    parts. *)
Theorem metrics_add_up_over_session
  (analysis_results results : DataFrame) (metrics1 metrics2 : dict) :
  df_empty analysis_results = false ->
  df_empty results = false ->
  create_sentiment_metrics_summary series_mean analysis_results = Ok metrics1 ->
  create_sentiment_metrics_summary series_mean results = Ok metrics2 ->
  exists session metrics,
    session_append analysis_results results = Ok session /\
    length session = length analysis_results + length results /\
    create_sentiment_metrics_summary series_mean session = Ok metrics /\
    forall field,
      In field ["total_texts"; "positive_count"; "negative_count"; "neutral_count"] ->
      exists n1 n2 : Z,
        dict_lookup metrics1 field = Some (PInt n1) /\
        dict_lookup metrics2 field = Some (PInt n2) /\
        dict_lookup metrics field = Some (PInt (n1 + n2)).
Proof.
  intros Ha Hb H1 H2.
  destruct (metrics_summary_shape series_mean _ _ Ha H1)
    as (Hsa & (Hsca & Hca & Hpa & Hua) & Ht1 & Hp1 & Hn1 & Hu1).
  destruct (metrics_summary_shape series_mean _ _ Hb H2)
    as (_ & (Hscb & Hcb & Hpb & Hub) & Ht2 & Hp2 & Hn2 & Hu2).
  cbv zeta in *.
  set (U := union_columns [frame_of analysis_results; frame_of results]).
  set (session := map (reindex U) (analysis_results ++ results)).
  assert (Happ : session_append analysis_results results = Ok session).
  { unfold session_append, pd_concat. cbn [map snd frame_of concat].
    now rewrite app_nil_r. }
  assert (HU : In "sentiment" U).
  { apply union_columns_In. exists (frame_of analysis_results).
    split; [now left | now apply mem_In]. }
  assert (Hne : session <> []).
  { apply df_empty_false in Ha as [Hane _]. unfold session.
    destruct analysis_results; [congruence | discriminate]. }
  assert (Hcols : df_columns session = U).
  { apply df_columns_uniform; [apply union_columns_NoDup | exact Hne |].
    unfold session. apply Forall_forall. intros row [r [<- _]]%in_map_iff.
    apply reindex_keys. }
  assert (Hseries :
            map (fun row => dict_get row "sentiment" (PFloat S754_nan)) session =
            map (fun row => dict_get row "sentiment" (PFloat S754_nan)) analysis_results ++
            map (fun row => dict_get row "sentiment" (PFloat S754_nan)) results).
  { unfold session. rewrite map_map, <- map_app. apply map_ext.
    intros row. now apply reindex_get. }
  assert (Hlen : length session = length analysis_results + length results).
  { unfold session. now rewrite length_map, length_app. }
  assert (Hempty : df_empty session = false).
  { apply df_empty_false. split; [exact Hne|]. rewrite Hcols.
    intros HnilU. rewrite HnilU in HU. destruct HU. }
  (* the averages of the session are taken over columns that the two
     parts already averaged, so they raise nothing *)
  assert (Havg : forall col,
             averageable analysis_results col = true ->
             averageable results col = true ->
             averageable session col = true).
  { intros col Hcola Hcolb.
    apply averageable_numeric in Hcola, Hcolb.
    unfold averageable. apply orb_true_iff. right.
    unfold column_values, session. rewrite map_map.
    destruct (mem col U) eqn:HcolU.
    - apply mem_In in HcolU.
      rewrite (map_ext _ (fun row => dict_get row col (PFloat S754_nan)))
        by (intros row; now apply reindex_get).
      rewrite map_app, forallb_app. fold (column_values analysis_results col).
      fold (column_values results col). now rewrite Hcola, Hcolb.
    - apply forallb_forall. intros v [row [<- _]]%in_map_iff.
      unfold dict_get. rewrite reindex_lookup, HcolU. reflexivity. }
  (* and the labels of the session are those of the two parts, so they
     can be counted *)
  assert (Hcount : countable session "sentiment" = true).
  { unfold countable, column_values. rewrite Hseries, forallb_app.
    fold (column_values analysis_results "sentiment").
    fold (column_values results "sentiment").
    fold (countable analysis_results "sentiment").
    fold (countable results "sentiment"). now rewrite Hsca, Hscb. }
  exists session.
  destruct (create_sentiment_metrics_summary series_mean session) as [metrics | e] eqn:Hm.
  - exists metrics. split; [exact Happ|]. split; [exact Hlen|]. split; [reflexivity|].
    destruct (metrics_summary_shape series_mean _ _ Hempty Hm)
      as (_ & _ & Ht & Hp & Hn & Hu).
    cbv zeta in *. rewrite Hseries, !value_count_app in *.
    intros field [<- | [<- | [<- | [<- | []]]]]; do 2 eexists;
      repeat split; try eassumption.
    rewrite Ht. unfold df_len. rewrite Hlen. do 2 f_equal. lia.
  - exfalso. unfold create_sentiment_metrics_summary in Hm. rewrite Hempty in Hm.
    unfold df_getitem in Hm at 1. rewrite Hcols, (proj2 (mem_In _ _) HU) in Hm.
    cbn [bind] in Hm.
    rewrite (value_counts_countable session _ Hcount) in Hm.
    cbn [bind] in Hm.
    rewrite !column_mean_averageable in Hm by (apply Havg; assumption).
    discriminate Hm.
Qed.

End SessionProperties.

Lemma is_explained_keys (row explained : dict) :
  keys row = batch_columns -> is_explained row explained ->
  keys explained = result_columns.
Proof.
  intros Hk [e ->]. unfold keys in *. rewrite map_app, Hk. reflexivity.
Qed.

Section FormProperties.

Variable textblob_sentiment : string -> float * float.
Variable stopwords_words_english : result (list string).
Variable word_tokenize : string -> result (list string).
Variable format_2f : pyval -> result string.
Variable str_other : pyval -> string.

(** The orchestrator followed by the explanations, on records with string
    texts. *)
Lemma batch_then_explain (texts : list dict) :
  only_LookupError stopwords_words_english ->
  (forall s, only_LookupError (word_tokenize s)) ->
  (forall f, exists s, format_2f (PFloat f) = Ok s) ->
  Forall has_str_text texts ->
  exists results explained,
    batch_analyze_sentiment textblob_sentiment stopwords_words_english
                            word_tokenize texts = Ok results /\
    add_explanations format_2f str_other results = Ok explained /\
    length explained = length texts /\
    Forall (fun row => keys row = result_columns) explained.
Proof.
  intros Hsw Htok Hfmt Htexts.
  destruct (batch_analyze_sentiment_rows textblob_sentiment _ _ texts Hsw Htok Htexts)
    as (results & Hres & Hrows).
  destruct (add_explanations_rows format_2f str_other _ _ Hfmt Hrows)
    as (explained & Hexp & Hexps).
  exists results, explained. repeat split; try assumption.
  - now rewrite <- (Forall2_length Hexps), <- (Forall2_length Hrows).
  - clear -Hrows Hexps. revert explained Hexps.
    induction Hrows as [| item row ? ? Hrow _ IH]; intros explained Hexps;
      inversion Hexps; subst; constructor.
    + eapply is_explained_keys; [|eassumption]. now apply batch_row_lookup in Hrow.
    + now apply IH.
Qed.

Lemma get_sentiment_explanation_ok (text sentiment polarity : pyval) :
  (exists s, format_2f polarity = Ok s) ->
  exists explanation,
    get_sentiment_explanation format_2f str_other text sentiment polarity =
    Ok explanation.
Proof.
  intros [score Hscore]. unfold get_sentiment_explanation. rewrite Hscore.
  destruct (eq_str sentiment "Positive"); [|destruct (eq_str sentiment "Negative")];
    cbn [bind]; eauto.
Qed.

(** X19. The single-text form leaves the session results alone when the
    text is blank; otherwise it appends exactly one row, with the nine
    columns of the table, holding the text as entered, the analysis of
    that text, the keywords for the chosen count, and "Manual Input" as
    source when none was entered. *)
Theorem single_text_analysis_appends_one_row
  (analysis_results : DataFrame) (text_input source date : string) (num_keywords : Z) :
  only_LookupError stopwords_words_english ->
  only_LookupError (word_tokenize (lower text_input)) ->
  (forall f, exists s, format_2f (PFloat f) = Ok s) ->
  Forall (fun row => keys row = result_columns) analysis_results ->
  (all_chars is_space_char text_input = true ->
   single_text_analysis textblob_sentiment stopwords_words_english word_tokenize
     format_2f str_other analysis_results text_input source date num_keywords =
   Ok analysis_results) /\
  (all_chars is_space_char text_input = false ->
   exists sentiment confidence polarity subjectivity keywords explanation,
     analyze_sentiment_textblob textblob_sentiment (PStr text_input) =
       Ok (sentiment, confidence, polarity, subjectivity) /\
     extract_keywords stopwords_words_english word_tokenize
                      (PStr text_input) num_keywords = Ok keywords /\
     single_text_analysis textblob_sentiment stopwords_words_english word_tokenize
       format_2f str_other analysis_results text_input source date num_keywords =
     Ok (analysis_results ++
         [[ ("text", PStr text_input);
            ("sentiment", PStr sentiment);
            ("confidence", PFloat confidence);
            ("polarity", PFloat polarity);
            ("subjectivity", PFloat subjectivity);
            ("keywords", PList keywords);
            ("source", PStr (if String.length source =? 0
                             then "Manual Input" else source));
            ("date", PStr date);
            ("explanation", PStr explanation) ]])).
Proof.
  intros Hsw Htok Hfmt Hstate. unfold single_text_analysis.
  rewrite strip_blank. split; intros Hblank; rewrite Hblank; cbn [negb];
    [reflexivity|].
  destruct (analyze_sentiment_label textblob_sentiment text_input)
    as (sentiment & Hana & _).
  rewrite Hana. cbn [bind].
  rewrite (extract_keywords_ok _ _ text_input num_keywords Hsw Htok). cbn [bind].
  destruct (get_sentiment_explanation_ok (PStr text_input) (PStr sentiment)
              (PFloat (fst (textblob_sentiment text_input))) (Hfmt _))
    as [explanation Hexp].
  rewrite Hexp. cbn [bind].
  do 6 eexists. split; [reflexivity|]. split; [reflexivity|].
  rewrite (session_append_uniform result_columns);
    [| apply result_columns_NoDup | exact Hstate | repeat constructor].
  unfold truthy. now destruct (String.length source =? 0).
Qed.

(** X20. The batch form keeps the session results append-only and of one
    shape: it returns the old rows followed by one new row per
    non-blank line, each with the nine columns of the table; a blank
    input adds nothing. *)
Theorem batch_text_session_appends
  (analysis_results : DataFrame) (batch_text default_source default_date : string) :
  only_LookupError stopwords_words_english ->
  (forall s, only_LookupError (word_tokenize s)) ->
  (forall f, exists s, format_2f (PFloat f) = Ok s) ->
  Forall (fun row => keys row = result_columns) analysis_results ->
  exists results,
    batch_text_session textblob_sentiment stopwords_words_english word_tokenize
      format_2f str_other analysis_results batch_text default_source default_date =
      Ok (analysis_results ++ results) /\
    length results = length (nonblank_lines batch_text) /\
    Forall (fun row => keys row = result_columns) (analysis_results ++ results).
Proof.
  intros Hsw Htok Hfmt Hstate. unfold batch_text_session.
  destruct (truthy (strip batch_text)) eqn:Hguard.
  - unfold batch_text_analysis.
    destruct (batch_then_explain _ Hsw Htok Hfmt
                (batch_text_data_str (nonblank_lines batch_text)
                                     default_source default_date))
      as (results & explained & Hres & Hexp & Hlen & Hkeys).
    rewrite Hres. cbn [bind]. rewrite Hexp. cbn [bind].
    exists explained.
    rewrite (session_append_uniform result_columns _ _ result_columns_NoDup
               Hstate Hkeys).
    split; [reflexivity|]. split.
    + now rewrite Hlen, batch_text_data_length.
    + apply Forall_app. now split.
  - exists []. rewrite app_nil_r. split; [reflexivity|]. split; [|exact Hstate].
    destruct (nonblank_lines batch_text) eqn:Hlines; [reflexivity|].
    assert (Hne : nonblank_lines batch_text <> []) by (rewrite Hlines; discriminate).
    apply lines_kept_iff_not_blank in Hne. congruence.
Qed.

End FormProperties.

(** * Properties of the file upload *)

Lemma dict_set_lookup_same (d : dict) (k : string) (v : pyval) :
  dict_lookup (dict_set d k v) k = Some v.
Proof.
  induction d as [| [k' v'] d IH]; cbn.
  - now rewrite String.eqb_refl.
  - destruct (String.eqb k' k) eqn:Hk; cbn; rewrite Hk; [reflexivity | exact IH].
Qed.

Lemma collect_frames_app (files1 files2 : list uploaded_file) :
  collect_frames (files1 ++ files2) = collect_frames files1 ++ collect_frames files2.
Proof.
  unfold collect_frames.
  set (step := fun all_results f =>
                 match process_file f with
                 | Ok (Some df) => all_results ++ [df]
                 | _ => all_results
                 end).
  assert (Hacc : forall files acc, fold_left step files acc = acc ++ fold_left step files []).
  { induction files as [| f files IH]; cbn; intros acc; [now rewrite app_nil_r|].
    rewrite (IH (step acc f)), (IH (step [] f)). unfold step.
    destruct (process_file f) as [[df |] | e]; cbn;
      now rewrite <- ?app_assoc, ?app_nil_r. }
  rewrite fold_left_app. apply Hacc.
Qed.

Lemma collect_frames_cons (f : uploaded_file) (files : list uploaded_file) :
  collect_frames (f :: files) =
  match process_file f with
  | Ok (Some df) => df :: collect_frames files
  | _ => collect_frames files
  end.
Proof.
  change (f :: files) with ([f] ++ files). rewrite collect_frames_app.
  unfold collect_frames at 1. cbn.
  now destruct (process_file f) as [[df |] | e].
Qed.

Lemma collect_frames_In (files : list uploaded_file) (df : frame) :
  In df (collect_frames files) ->
  exists f, In f files /\ process_file f = Ok (Some df).
Proof.
  induction files as [| f files IH]; [intros []|].
  rewrite collect_frames_cons.
  destruct (process_file f) as [[df' |] | e] eqn:Hf; cbn.
  - intros [<- | H]; [exists f; split; [now left | exact Hf]|].
    destruct (IH H) as (g & Hg & Hpg). exists g. split; [now right | exact Hpg].
  - intros H. destruct (IH H) as (g & Hg & Hpg). exists g. split; [now right | exact Hpg].
  - intros H. destruct (IH H) as (g & Hg & Hpg). exists g. split; [now right | exact Hpg].
Qed.

(** An accepted frame has the columns text and file_source, and its rows
    name the file. *)
Lemma process_file_accepted (f : uploaded_file) (df : frame) :
  process_file f = Ok (Some df) ->
  In "text" (fst df) /\
  In "file_source" (fst df) /\
  Forall (fun row => dict_lookup row "file_source" = Some (PStr (file_name f)))
         (snd df).
Proof.
  unfold process_file.
  destruct (endswith (file_name f) ".csv").
  - destruct (file_read_csv f) as [csv | e]; cbn [bind]; [|discriminate].
    destruct (mem "text" (fst csv)) eqn:Htext; [|discriminate].
    intros H. inversion H. cbn [fst snd frame_set_column].
    split; [apply add_column_In; left; now apply mem_In|].
    split; [apply add_column_In; now right|].
    apply Forall_forall. intros row [r [<- _]]%in_map_iff.
    apply dict_set_lookup_same.
  - destruct (endswith (file_name f) ".txt"); [|discriminate].
    destruct (file_read_decode f) as [content | e]; cbn [bind]; [|discriminate].
    intros H. inversion H. cbn [fst snd].
    split; [now left|]. split; [right; now left|].
    apply Forall_forall. intros row [line [<- _]]%in_map_iff. reflexivity.
Qed.

Lemma combined_rows_named (uploaded_files : list uploaded_file) :
  exists combined_df,
    batch_process_files uploaded_files = Ok combined_df /\
    Forall (fun row =>
              (exists cell, dict_lookup row "text" = Some cell) /\
              exists f, In f uploaded_files /\
                        dict_lookup row "file_source" = Some (PStr (file_name f)))
           combined_df.
Proof.
  unfold batch_process_files.
  destruct (collect_frames uploaded_files) as [| df frames] eqn:Hframes.
  - exists []. split; [reflexivity | constructor].
  - unfold pd_concat. eexists. split; [reflexivity|]. rewrite <- Hframes.
    apply Forall_forall. intros row [raw [<- Hraw]]%in_map_iff.
    apply in_concat in Hraw as (rows & Hrows & Hin).
    apply in_map_iff in Hrows as (fr & <- & Hfr).
    destruct (collect_frames_In _ _ Hfr) as (f & Hf & Hpf).
    destruct (process_file_accepted _ _ Hpf) as (Htext & Hsrc & Hname).
    rewrite Forall_forall in Hname. specialize (Hname raw Hin).
    rewrite !reindex_lookup.
    rewrite (proj2 (mem_In "text" _)), (proj2 (mem_In "file_source" _))
      by (apply union_columns_In; eauto).
    split; [eauto|]. exists f. split; [exact Hf|].
    unfold dict_get. now rewrite Hname.
Qed.

(** X21. [batch_process_files] does not fail, whatever the files: every
    row of the combined frame has a text cell and carries in
    [file_source] the name of one of the uploaded files. *)
Theorem batch_process_files_rows (uploaded_files : list uploaded_file) :
  exists combined_df,
    batch_process_files uploaded_files = Ok combined_df /\
    Forall (fun row =>
              (exists cell, dict_lookup row "text" = Some cell) /\
              exists f, In f uploaded_files /\
                        dict_lookup row "file_source" = Some (PStr (file_name f)))
           combined_df.
Proof. apply combined_rows_named. Qed.

(** X22. A file that cannot be used is skipped and changes nothing for
    the others: one that is neither .csv nor .txt, a .csv that cannot be
    read or has no text column, a .txt that cannot be decoded. *)
Theorem batch_process_files_skips_unusable
  (before after : list uploaded_file) (f : uploaded_file) :
  (endswith (file_name f) ".csv" = false /\ endswith (file_name f) ".txt" = false) \/
  (endswith (file_name f) ".csv" = true /\
   ((exists e, file_read_csv f = Raise e) \/
    (exists csv, file_read_csv f = Ok csv /\ mem "text" (fst csv) = false))) \/
  (endswith (file_name f) ".csv" = false /\ endswith (file_name f) ".txt" = true /\
   exists e, file_read_decode f = Raise e) ->
  batch_process_files (before ++ f :: after) = batch_process_files (before ++ after).
Proof.
  intros Hf. unfold batch_process_files.
  rewrite !collect_frames_app, collect_frames_cons.
  assert (Hskip : process_file f = Ok None \/ exists e, process_file f = Raise e).
  { unfold process_file.
    destruct Hf as [[-> ->] | [[-> [[e ->] | (csv & -> & Ht)]] | (-> & -> & [e ->])]];
      cbn [bind]; eauto. rewrite Ht. now left. }
  destruct Hskip as [-> | [e ->]]; reflexivity.
Qed.

(** X23. A text file alone yields one row per non-blank line: the line
    without the whitespace around it, attributed to the file. *)
Theorem batch_process_files_text_file (f : uploaded_file) (content : string) :
  endswith (file_name f) ".csv" = false ->
  endswith (file_name f) ".txt" = true ->
  file_read_decode f = Ok content ->
  batch_process_files [f] =
  Ok (map (fun line => [("text", PStr line); ("file_source", PStr (file_name f))])
          (nonblank_lines content)).
Proof.
  intros Hcsv Htxt Hread. unfold batch_process_files.
  rewrite collect_frames_cons. unfold process_file.
  rewrite Hcsv, Htxt, Hread. cbn [bind collect_frames fold_left].
  unfold pd_concat. f_equal. cbn [map snd concat]. rewrite app_nil_r, map_map.
  apply map_ext. intros line. reflexivity.
Qed.

Lemma dict_lookup_keys (d : dict) (k : string) (v : pyval) :
  dict_lookup d k = Some v -> In k (keys d).
Proof.
  induction d as [| [k' v'] d IH]; cbn; [discriminate|].
  destruct (String.eqb_spec k' k) as [-> | _]; [now left | right; now apply IH].
Qed.

Lemma df_columns_first_row (row : dict) (df : DataFrame) (c : string) :
  In c (keys row) -> In c (df_columns (row :: df)).
Proof.
  intros Hc. unfold df_columns. cbn [fold_left].
  assert (Hstart : In c (fold_left add_column (keys row) []))
    by (apply fold_add_column_In; now right).
  revert Hstart. generalize (fold_left add_column (keys row) []).
  induction df as [| r df IH]; cbn; intros cols H; [exact H|].
  apply IH, fold_add_column_In. now left.
Qed.

Section UploadProperties.

Variable textblob_sentiment : string -> float * float.
Variable stopwords_words_english : result (list string).
Variable word_tokenize : string -> result (list string).
Variable format_2f : pyval -> result string.
Variable str_other : pyval -> string.

Lemma file_upload_analysis_rows (today : string) (combined_df : DataFrame) :
  only_LookupError stopwords_words_english ->
  (forall s, only_LookupError (word_tokenize s)) ->
  (forall f, exists s, format_2f (PFloat f) = Ok s) ->
  Forall (fun row => exists cell, dict_lookup row "text" = Some cell) combined_df ->
  exists results,
    file_upload_analysis textblob_sentiment stopwords_words_english
                         word_tokenize format_2f str_other today combined_df =
      Ok results /\
    Forall2 (uploaded_as str_other today) combined_df results.
Proof.
  intros Hsw Htok Hfmt Hcells. unfold file_upload_analysis.
  destruct (for_each_total (file_upload_record str_other today) combined_df)
    as [text_data Hdata].
  { eapply Forall_impl; [|exact Hcells]. intros row [cell Hcell].
    unfold file_upload_record.
    rewrite (proj2 (getitem_lookup _ _ _) Hcell). cbn [bind]. eauto. }
  rewrite Hdata. cbn [bind]. apply for_each_Forall2 in Hdata.
  assert (Hstr : Forall has_str_text text_data).
  { clear -Hdata. induction Hdata as [| row rec rows recs Hrec _ IH];
      constructor; [|exact IH].
    unfold file_upload_record in Hrec.
    destruct (getitem row "text"); cbn [bind] in Hrec; [|discriminate].
    inversion Hrec. eexists. reflexivity. }
  destruct (batch_analyze_sentiment_rows textblob_sentiment _ _ text_data Hsw Htok Hstr)
    as (results & Hres & Hrows).
  rewrite Hres. cbn [bind].
  destruct (add_explanations_rows format_2f str_other _ _ Hfmt Hrows)
    as (explained & Hexp & Hexps).
  exists explained. split; [exact Hexp|].
  clear Hexp Hres Hstr Hcells. revert results explained Hrows Hexps.
  induction Hdata as [| row rec rows recs Hrec _ IH];
    intros results explained Hrows Hexps;
    inversion Hrows as [| ? res ? results' Hshape Hrows']; subst;
    inversion Hexps as [| ? out ? explained' Hout Hexps']; subst;
    constructor; [|now apply (IH results' explained')].
  destruct Hout as [e ->].
  destruct Hshape as (text & sentiment & confidence & polarity &
                      subjectivity & keywords & Ht & ->).
  unfold file_upload_record in Hrec.
  destruct (getitem row "text") as [cell |] eqn:Hcell; cbn [bind] in Hrec;
    [|discriminate].
  apply getitem_lookup in Hcell. inversion Hrec; subst rec. clear Hrec.
  cbn in Ht. inversion Ht; subst text.
  unfold uploaded_as. split; [reflexivity|]. split; [|split; reflexivity].
  intros cell' Hcell'. rewrite Hcell in Hcell'. inversion Hcell'. reflexivity.
Qed.

(** X24. The file upload keeps the session results append-only: it
    returns the old rows followed by one row per row of the combined
    frame, each with the nine columns of the table and the text cell
    rendered as a string.  Every row of the combined frame names in
    [file_source] the uploaded file it came from; the source of its
    result is its source cell when the combined frame has a source
    column and that file name otherwise, so that the default
    "File Upload" is never used. *)
Theorem file_upload_session_appends
  (analysis_results : DataFrame) (today : string)
  (uploaded_files : list uploaded_file) :
  only_LookupError stopwords_words_english ->
  (forall s, only_LookupError (word_tokenize s)) ->
  (forall f, exists s, format_2f (PFloat f) = Ok s) ->
  Forall (fun row => keys row = result_columns) analysis_results ->
  exists combined_df results,
    batch_process_files uploaded_files = Ok combined_df /\
    file_upload_session textblob_sentiment stopwords_words_english word_tokenize
      format_2f str_other analysis_results today uploaded_files =
      analysis_results ++ results /\
    Forall2 (fun row out =>
               keys out = result_columns /\
               exists cell f,
                 In f uploaded_files /\
                 dict_lookup row "file_source" = Some (PStr (file_name f)) /\
                 dict_lookup row "text" = Some cell /\
                 dict_lookup out "text" = Some (PStr (str str_other cell)) /\
                 dict_lookup out "source" =
                   Some (PStr (str str_other
                                 (dict_get row "source" (PStr (file_name f))))))
            combined_df results.
Proof.
  intros Hsw Htok Hfmt Hstate.
  destruct (combined_rows_named uploaded_files) as (combined & Hcomb & Hrows).
  exists combined. unfold file_upload_session. rewrite Hcomb. cbn [bind].
  destruct combined as [| row0 rows] eqn:Hc.
  - exists []. cbn. rewrite app_nil_r. repeat split. constructor.
  - rewrite <- Hc in *.
    assert (Hne : df_empty combined = false).
    { apply df_empty_false. rewrite Hc. split; [discriminate|].
      rewrite Hc in Hrows.
      apply Forall_cons_iff in Hrows as [[[cell Hcell] _] _].
      apply dict_lookup_keys in Hcell.
      intros Hnil. pose proof (df_columns_first_row row0 rows "text" Hcell) as Hin.
      rewrite Hnil in Hin. destruct Hin. }
    rewrite Hne.
    destruct (file_upload_analysis_rows today combined Hsw Htok Hfmt) as (results & Hres & Hrel).
    { eapply Forall_impl; [|exact Hrows]. cbn. tauto. }
    rewrite Hres. cbn [bind].
    assert (Hkeys : Forall (fun out => keys out = result_columns) results).
    { clear -Hrel. induction Hrel as [| ? ? ? ? [Hk _] _ IH]; now constructor. }
    rewrite (session_append_uniform result_columns _ _ result_columns_NoDup
               Hstate Hkeys).
    exists results. split; [reflexivity|]. split; [reflexivity|].
    clear -Hrel Hrows. induction Hrel as [| row out ? ? Hup _ IH]; constructor.
    + apply Forall_cons_iff in Hrows as [[[cell Hcell] (f & Hf & Hname)] _].
      destruct Hup as (Hk & Htext & Hsrc & _).
      split; [exact Hk|]. exists cell, f.
      repeat split; [exact Hf | exact Hname | exact Hcell | now apply Htext |].
      rewrite Hsrc. unfold dict_get at 2. now rewrite Hname.
    + apply IH. now apply Forall_cons_iff in Hrows as [_ Hrows].
Qed.

(** X25. When a text file is uploaded together with a CSV file that has
    a source column, the rows of the text file have no source cell of
    their own: the combined frame holds NaN there, and the record built
    for such a row gets the rendering of NaN as its source, not the
    name of its file. *)
Theorem mixed_upload_source_is_nan
  (csv_file text_file : uploaded_file) (csv : frame) (content today line : string) :
  endswith (file_name csv_file) ".csv" = true ->
  file_read_csv csv_file = Ok csv ->
  In "text" (fst csv) ->
  In "source" (fst csv) ->
  endswith (file_name text_file) ".csv" = false ->
  endswith (file_name text_file) ".txt" = true ->
  file_read_decode text_file = Ok content ->
  In line (nonblank_lines content) ->
  exists combined_df row rec,
    batch_process_files [csv_file; text_file] = Ok combined_df /\
    In row combined_df /\
    dict_lookup row "text" = Some (PStr line) /\
    dict_lookup row "file_source" = Some (PStr (file_name text_file)) /\
    dict_lookup row "source" = Some (PFloat S754_nan) /\
    file_upload_record str_other today row = Ok rec /\
    dict_lookup rec "source" = Some (PStr (str_other (PFloat S754_nan))).
Proof.
  clear textblob_sentiment stopwords_words_english word_tokenize format_2f.
  intros Hcsv Hread Htext Hsource Hnot Htxt Hdecode Hline.
  unfold batch_process_files. rewrite !collect_frames_cons.
  unfold process_file. rewrite Hcsv, Hread, Hnot, Htxt, Hdecode. cbn [bind].
  rewrite (proj2 (mem_In "text" (fst csv)) Htext).
  cbn [collect_frames fold_left]. unfold pd_concat.
  set (frames := [frame_set_column csv "file_source" (PStr (file_name csv_file));
                  (["text"; "file_source"],
                   map (fun l => [("text", PStr l);
                                  ("file_source", PStr (file_name text_file))])
                       (nonblank_lines content))]).
  set (raw := [("text", PStr line); ("file_source", PStr (file_name text_file))]).
  assert (Hcols : forall c, In c ["text"; "file_source"; "source"] ->
                            mem c (union_columns frames) = true).
  { intros c Hc. apply mem_In, union_columns_In.
    destruct Hc as [<- | [<- | [<- | []]]].
    - exists (["text"; "file_source"], snd (nth 1 frames ([], []))).
      split; [right; left; reflexivity | now left].
    - exists (["text"; "file_source"], snd (nth 1 frames ([], []))).
      split; [right; left; reflexivity | right; now left].
    - exists (frame_set_column csv "file_source" (PStr (file_name csv_file))).
      split; [now left|]. cbn [fst frame_set_column].
      apply add_column_In. now left. }
  set (row := reindex (union_columns frames) raw).
  assert (Hrow_text : dict_lookup row "text" = Some (PStr line)).
  { unfold row. rewrite reindex_lookup, Hcols by (cbn; tauto). reflexivity. }
  assert (Hrow_file : dict_lookup row "file_source" = Some (PStr (file_name text_file))).
  { unfold row. rewrite reindex_lookup, Hcols by (cbn; tauto). reflexivity. }
  assert (Hrow_source : dict_lookup row "source" = Some (PFloat S754_nan)).
  { unfold row. rewrite reindex_lookup, Hcols by (cbn; tauto). reflexivity. }
  exists (map (reindex (union_columns frames)) (concat (map snd frames))), row,
         [ ("text", PStr line);
           ("source", PStr (str_other (PFloat S754_nan)));
           ("date", PStr (str str_other (dict_get row "date" (PStr today)))) ].
  split; [reflexivity|]. split.
  { apply in_map. cbn [frames map snd concat]. apply in_or_app. right.
    rewrite app_nil_r. apply in_map_iff. now exists line. }
  split; [exact Hrow_text|]. split; [exact Hrow_file|]. split; [exact Hrow_source|].
  split; [|reflexivity].
  unfold file_upload_record, getitem. rewrite Hrow_text. cbn [bind].
  unfold dict_get at 1. rewrite Hrow_source. reflexivity.
Qed.

End UploadProperties.

(** * The further properties at work *)

Lemma extract_keywords_nonpositive_count_witness :
  extract_keywords toy_corpus toy_tokenizer (PStr cat_text) (-2) = Ok [].
Proof.
  apply (extract_keywords_nonpositive_count toy_corpus toy_tokenizer cat_text (-2)).
  - vm_compute. discriminate.
  - apply only_LookupError_Ok.
  - apply only_LookupError_Ok.
Defined.

Lemma extract_keywords_rejects_non_string_witness :
  extract_keywords no_corpus toy_tokenizer (PInt 5) 5 = Raise AttributeError /\
  extract_keywords toy_corpus no_tokenizer PNone 5 = Raise AttributeError /\
  extract_keywords toy_corpus toy_tokenizer (PList ["good"; "day"]) 5 =
    Raise AttributeError.
Proof.
  split; [|split].
  - apply (extract_keywords_rejects_non_string no_corpus toy_tokenizer (PInt 5) 5).
    + left. now exists 5%Z.
    + apply only_LookupError_missing.
  - apply (extract_keywords_rejects_non_string toy_corpus no_tokenizer PNone 5).
    + right. right. now left.
    + apply only_LookupError_Ok.
  - apply (extract_keywords_rejects_non_string toy_corpus toy_tokenizer
             (PList ["good"; "day"]) 5).
    + right. right. right. now exists ["good"; "day"].
    + apply only_LookupError_Ok.
Defined.

Lemma extract_keywords_returns_all_when_few_witness :
  exists keywords,
    extract_keywords toy_corpus toy_tokenizer (PStr cat_text) 10 = Ok keywords /\
    NoDup keywords /\
    forall w,
      In w keywords <->
      In w (tokens_in_use toy_tokenizer cat_text) /\
      isalpha w = true /\
      ~ In w (stop_words_in_use toy_corpus).
Proof.
  apply (extract_keywords_returns_all_when_few toy_corpus toy_tokenizer cat_text 10).
  - vm_compute. discriminate.
  - apply only_LookupError_Ok.
  - apply only_LookupError_Ok.
Defined.

Lemma extract_keywords_prefix_witness :
  extract_keywords toy_corpus toy_tokenizer (PStr cat_text) 2 =
  Ok (firstn (Z.to_nat 2) ["cat"; "sat"; "mat"; "slept"]).
Proof.
  apply (extract_keywords_prefix toy_corpus toy_tokenizer (PStr cat_text) 2 5).
  - vm_compute. discriminate.
  - vm_compute. reflexivity.
Defined.

Lemma extract_keywords_keeps_most_frequent_witness :
  exists keywords,
    extract_keywords toy_corpus toy_tokenizer (PStr cat_text) 2 = Ok keywords /\
    forall kept left_out,
      let filtered_words :=
        filter_words (stop_words_in_use toy_corpus)
                     (tokens_in_use toy_tokenizer cat_text) in
      In kept keywords ->
      In left_out filtered_words ->
      ~ In left_out keywords ->
      1 <= frequency filtered_words left_out <= frequency filtered_words kept.
Proof.
  apply (extract_keywords_keeps_most_frequent toy_corpus toy_tokenizer cat_text 2).
  - apply only_LookupError_Ok.
  - apply only_LookupError_Ok.
Defined.

Lemma extract_keywords_ignores_case_witness :
  extract_keywords no_corpus no_tokenizer (PStr "The Cat sat") 3 =
    extract_keywords no_corpus no_tokenizer (PStr "THE CAT SAT") 3 /\
  extract_keywords no_corpus no_tokenizer (PStr (lower "The Cat sat")) 3 =
    extract_keywords no_corpus no_tokenizer (PStr "The Cat sat") 3.
Proof.
  apply (extract_keywords_ignores_case no_corpus no_tokenizer
           "The Cat sat" "THE CAT SAT" 3).
  reflexivity.
Defined.

Lemma batch_rows_are_single_analyses_witness :
  exists results,
    batch_analyze_sentiment toy_sentiment toy_corpus toy_tokenizer two_records =
      Ok results /\
    exists keywords,
      extract_keywords toy_corpus toy_tokenizer (PStr "bad bad day") 5 = Ok keywords /\
      length keywords <= 5 /\
      nth_error results 1 =
        Some [ ("text", PStr "bad bad day");
               ("sentiment", PStr "Negative");
               ("confidence", PFloat float_half);
               ("polarity", PFloat float_minus_half);
               ("subjectivity", PFloat float_one);
               ("keywords", PList keywords);
               ("source", PStr "N/A");
               ("date", PStr "2024-05-01") ].
Proof.
  destruct (batch_rows_are_single_analyses toy_sentiment toy_corpus toy_tokenizer
              two_records (only_LookupError_Ok _)
              (fun s => only_LookupError_Ok _) two_records_have_str_text)
    as (results & Hres & Hrows).
  exists results. split; [exact Hres|].
  destruct (Hrows 1 _ "bad bad day" eq_refl eq_refl)
    as (sentiment & confidence & polarity & subjectivity & keywords &
        Hana & Hkw & Hlen & Hrow).
  exists keywords. split; [exact Hkw|]. split; [exact Hlen|].
  vm_compute in Hana. inversion Hana; subst. exact Hrow.
Defined.

Lemma batch_fails_at_first_bad_record_witness :
  batch_analyze_sentiment toy_sentiment toy_corpus toy_tokenizer
    ([[("text", PStr "good")]] ++ [("source", PStr "survey")] :: bare_records) =
  Raise KeyError.
Proof.
  apply (batch_fails_at_first_bad_record toy_sentiment toy_corpus toy_tokenizer
           [[("text", PStr "good")]] [("source", PStr "survey")] bare_records).
  - apply only_LookupError_Ok.
  - intros s. apply only_LookupError_Ok.
  - repeat constructor. eexists. reflexivity.
  - intros [s H]. discriminate H.
Defined.

Lemma explanation_names_label_witness :
  exists reason ending,
    get_sentiment_explanation toy_format_2f toy_str_other
      (PStr "This is good") (PStr "Positive") (PFloat float_half) =
    Ok (String.concat EmptyString
          ["The text '"; "This is good"; "' is classified as "; "Positive"; reason;
           "The polarity score is "; "0.50"; ending]).
Proof.
  apply (explanation_names_label toy_sentiment toy_format_2f toy_str_other
           "This is good" "Positive" "0.50" float_half float_half float_one);
    vm_compute; reflexivity.
Defined.

Lemma batch_text_labels_distinct_witness :
  dict_lookup [("text", PStr "good"); ("source", PStr "Batch Input 1");
               ("date", PStr "2024-05-01")] "source" <>
  dict_lookup [("text", PStr "bad"); ("source", PStr "Batch Input 2");
               ("date", PStr "2024-05-01")] "source".
Proof.
  apply (batch_text_labels_distinct ["good"; "bad"] "2024-05-01" 0 1).
  - discriminate.
  - reflexivity.
  - reflexivity.
Defined.

Lemma batch_text_analysis_rows_witness :
  exists results,
    batch_text_analysis toy_sentiment toy_corpus toy_tokenizer toy_format_2f
                        toy_str_other ["good"; "bad"] "survey" "2024-05-01" =
      Ok results /\
    length results = 2.
Proof.
  destruct (batch_text_analysis_rows toy_sentiment toy_corpus toy_tokenizer
              toy_format_2f toy_str_other ["good"; "bad"] "survey" "2024-05-01"
              (only_LookupError_Ok _) (fun s => only_LookupError_Ok _)
              toy_format_2f_total)
    as (results & Hres & Hlen & _).
  exists results. split; [exact Hres | exact Hlen].
Defined.

Lemma metrics_counts_bounded_witness :
  exists metrics positive negative neutral,
    create_sentiment_metrics_summary toy_mean labelled_rows = Ok metrics /\
    dict_lookup metrics "total_texts" = Some (PInt 3) /\
    dict_lookup metrics "positive_count" = Some (PInt positive) /\
    dict_lookup metrics "negative_count" = Some (PInt negative) /\
    dict_lookup metrics "neutral_count" = Some (PInt neutral) /\
    (positive + negative + neutral <= 3)%Z.
Proof.
  destruct (create_sentiment_metrics_summary toy_mean labelled_rows)
    as [metrics | e] eqn:Hm; [|vm_compute in Hm; discriminate Hm].
  destruct (metrics_counts_bounded toy_mean labelled_rows metrics eq_refl Hm)
    as (p & n & u & Ht & Hp & Hn & Hu & (_ & _ & _ & Hsum) & _).
  exists metrics, p, n, u. repeat split; assumption.
Defined.

Lemma metrics_missing_columns_witness :
  create_sentiment_metrics_summary toy_mean unlabelled_rows = Raise KeyError /\
  (exists metrics,
     create_sentiment_metrics_summary toy_mean labelled_rows = Ok metrics /\
     dict_lookup metrics "avg_confidence" = Some (PInt 0) /\
     dict_lookup metrics "avg_polarity" = Some (PInt 0) /\
     dict_lookup metrics "avg_subjectivity" = Some (PInt 0)) /\
  create_sentiment_metrics_summary toy_mean worded_rows = Raise TypeError.
Proof.
  split; [|split].
  - apply (proj1 (metrics_missing_columns toy_mean unlabelled_rows eq_refl)).
    reflexivity.
  - destruct (proj1 (proj2 (metrics_missing_columns toy_mean labelled_rows eq_refl))
                eq_refl eq_refl eq_refl eq_refl eq_refl)
      as (metrics & Hm & Hc & Hp & Hu).
    exists metrics. split; [exact Hm|]. split; [|split].
    + apply Hc. reflexivity.
    + apply Hp. reflexivity.
    + apply Hu. reflexivity.
  - apply (proj2 (proj2 (metrics_missing_columns toy_mean worded_rows eq_refl)));
      reflexivity.
Defined.

Lemma metrics_of_batch_result_witness :
  exists results metrics,
    batch_analyze_sentiment toy_sentiment toy_corpus toy_tokenizer two_records =
      Ok results /\
    create_sentiment_metrics_summary toy_mean results = Ok metrics /\
    dict_lookup metrics "total_texts" = Some (PInt 2).
Proof.
  destruct (metrics_of_batch_result toy_sentiment toy_corpus toy_tokenizer toy_mean
              two_records (only_LookupError_Ok _)
              (fun s => only_LookupError_Ok _) two_records_have_str_text)
    as (results & metrics & p & n & u & Hres & Hm & _ & Ht & _).
  - discriminate.
  - exists results, metrics. repeat split; assumption.
Defined.

Lemma batch_lines_are_clean_witness :
  truthy "bad day" = true /\
  strip "bad day" = "bad day" /\
  all_chars (fun c => negb (Ascii.eqb c newline)) "bad day" = true.
Proof.
  apply (batch_lines_are_clean notes_content "bad day").
  vm_compute. right. left. reflexivity.
Defined.

Lemma metrics_add_up_over_session_witness :
  exists session metrics,
    session_append labelled_rows labelled_rows = Ok session /\
    length session = 6 /\
    create_sentiment_metrics_summary toy_mean session = Ok metrics /\
    dict_lookup metrics "positive_count" = Some (PInt 2).
Proof.
  destruct (create_sentiment_metrics_summary toy_mean labelled_rows)
    as [metrics0 | e] eqn:Hm; [|vm_compute in Hm; discriminate Hm].
  destruct (metrics_add_up_over_session toy_mean labelled_rows labelled_rows
              metrics0 metrics0 eq_refl eq_refl Hm Hm)
    as (session & metrics & Happ & Hlen & Hsum & Hfields).
  exists session, metrics. repeat split; try assumption.
  destruct (Hfields "positive_count") as (n1 & n2 & H1 & H2 & H).
  - right. left. reflexivity.
  - vm_compute in Hm. inversion Hm; subst metrics0.
    vm_compute in H1, H2. inversion H1; inversion H2; subst. exact H.
Defined.

Lemma earlier_session_columns :
  Forall (fun row => keys row = result_columns) earlier_session.
Proof. repeat constructor. Qed.

Lemma single_text_analysis_appends_one_row_witness :
  single_text_analysis toy_sentiment toy_corpus toy_tokenizer toy_format_2f
    toy_str_other earlier_session "   " "survey" "2024-05-01" 5 =
  Ok earlier_session /\
  exists row,
    single_text_analysis toy_sentiment toy_corpus toy_tokenizer toy_format_2f
      toy_str_other earlier_session " This is good " EmptyString "2024-05-01" 3 =
    Ok (earlier_session ++ [row]) /\
    keys row = result_columns /\
    dict_lookup row "text" = Some (PStr " This is good ") /\
    dict_lookup row "source" = Some (PStr "Manual Input").
Proof.
  split.
  - apply (single_text_analysis_appends_one_row toy_sentiment toy_corpus
             toy_tokenizer toy_format_2f toy_str_other earlier_session
             "   " "survey" "2024-05-01" 5
             (only_LookupError_Ok _) (only_LookupError_Ok _) toy_format_2f_total
             earlier_session_columns).
    reflexivity.
  - destruct (proj2 (single_text_analysis_appends_one_row toy_sentiment toy_corpus
                       toy_tokenizer toy_format_2f toy_str_other earlier_session
                       " This is good " EmptyString "2024-05-01" 3
                       (only_LookupError_Ok _) (only_LookupError_Ok _)
                       toy_format_2f_total
                       earlier_session_columns)
                eq_refl)
      as (sentiment & confidence & polarity & subjectivity & keywords &
          explanation & _ & _ & Hrun).
    eexists. split; [exact Hrun|]. repeat split.
Defined.

Lemma batch_text_session_appends_witness :
  exists results,
    batch_text_session toy_sentiment toy_corpus toy_tokenizer toy_format_2f
      toy_str_other clear_all_results notes_content EmptyString "2024-05-01" =
      Ok (clear_all_results ++ results) /\
    length results = length (nonblank_lines notes_content) /\
    Forall (fun row => keys row = result_columns) (clear_all_results ++ results).
Proof.
  apply (batch_text_session_appends toy_sentiment toy_corpus toy_tokenizer
           toy_format_2f toy_str_other clear_all_results notes_content
           EmptyString "2024-05-01").
  - apply only_LookupError_Ok.
  - intros s. apply only_LookupError_Ok.
  - exact toy_format_2f_total.
  - constructor.
Defined.

Lemma batch_process_files_skips_unusable_witness :
  batch_process_files ([notes_txt] ++ image_png :: [data_csv]) =
  batch_process_files ([notes_txt] ++ [data_csv]).
Proof.
  apply (batch_process_files_skips_unusable [notes_txt] [data_csv] image_png).
  left. split; reflexivity.
Defined.

Lemma batch_process_files_text_file_witness :
  batch_process_files [notes_txt] =
  Ok (map (fun line => [("text", PStr line); ("file_source", PStr (file_name notes_txt))])
          (nonblank_lines notes_content)).
Proof.
  apply (batch_process_files_text_file notes_txt notes_content); reflexivity.
Defined.

Lemma file_upload_session_appends_witness :
  exists combined_df results,
    batch_process_files [data_csv; image_png; notes_txt] = Ok combined_df /\
    file_upload_session toy_sentiment toy_corpus toy_tokenizer toy_format_2f
      toy_str_other earlier_session "2024-05-01" [data_csv; image_png; notes_txt] =
      earlier_session ++ results /\
    length results = length combined_df /\
    Forall2 (fun row out =>
               exists name,
                 In name ["data.csv"; "image.png"; "notes.txt"] /\
                 dict_lookup row "file_source" = Some (PStr name) /\
                 dict_lookup out "source" =
                   Some (PStr (str toy_str_other
                                 (dict_get row "source" (PStr name)))))
            combined_df results.
Proof.
  destruct (file_upload_session_appends toy_sentiment toy_corpus toy_tokenizer
              toy_format_2f toy_str_other earlier_session "2024-05-01"
              [data_csv; image_png; notes_txt]
              (only_LookupError_Ok _) (fun s => only_LookupError_Ok _)
              toy_format_2f_total
              earlier_session_columns)
    as (combined & results & Hcomb & Hsession & Hrel).
  exists combined, results. split; [exact Hcomb|]. split; [exact Hsession|].
  split; [symmetry; exact (Forall2_length Hrel)|].
  eapply Forall2_impl; [|exact Hrel].
  intros row out (_ & cell & f & Hf & Hname & _ & _ & Hsrc).
  exists (file_name f). split; [|split; assumption].
  destruct Hf as [<- | [<- | [<- | []]]]; cbn; tauto.
Defined.

Lemma mixed_upload_source_is_nan_witness :
  exists combined_df row rec,
    batch_process_files [data_csv; notes_txt] = Ok combined_df /\
    In row combined_df /\
    dict_lookup row "text" = Some (PStr "good day") /\
    dict_lookup row "file_source" = Some (PStr (file_name notes_txt)) /\
    dict_lookup row "source" = Some (PFloat S754_nan) /\
    file_upload_record toy_str_other "2024-05-01" row = Ok rec /\
    dict_lookup rec "source" = Some (PStr (toy_str_other (PFloat S754_nan))).
Proof.
  apply (mixed_upload_source_is_nan toy_str_other data_csv notes_txt
           data_csv_frame notes_content "2024-05-01" "good day");
    try reflexivity.
  - now left.
  - right. now left.
  - vm_compute. left. reflexivity.
Defined.

Example single_text_analysis_example :
  exists row,
    single_text_analysis toy_sentiment no_corpus no_tokenizer toy_format_2f
      toy_str_other clear_all_results " This is good " EmptyString "2024-05-01" 3 =
      Ok [row] /\
    keys row = result_columns /\
    dict_lookup row "text" = Some (PStr " This is good ") /\
    dict_lookup row "sentiment" = Some (PStr "Positive") /\
    dict_lookup row "keywords" = Some (PList ["good"]) /\
    dict_lookup row "source" = Some (PStr "Manual Input").
Proof. eexists. vm_compute. repeat split. Qed.

Example file_upload_session_example :
  exists row1 row2 row3 row4,
    file_upload_session toy_sentiment no_corpus no_tokenizer toy_format_2f
      toy_str_other clear_all_results "2024-05-01" [data_csv; image_png; notes_txt] =
      [row1; row2; row3; row4] /\
    dict_lookup row2 "text" = Some (PStr "5") /\
    dict_lookup row2 "source" = Some (PStr "survey") /\
    dict_lookup row4 "text" = Some (PStr "bad day") /\
    dict_lookup row4 "source" = Some (PStr "nan") /\
    dict_lookup row4 "sentiment" = Some (PStr "Negative").
Proof. do 4 eexists. vm_compute. repeat split. Qed.

(** * Properties of the extractor on Unicode text *)

Lemma unicode_text_eqb_eq (a b : Unicode.text) :
  Unicode.text_eqb a b = true <-> a = b.
Proof.
  revert b. induction a as [| x a IH]; intros [| y b]; cbn;
    try (split; [discriminate | discriminate]); [tauto|].
  rewrite andb_true_iff, N.eqb_eq, IH. split.
  - now intros [-> ->].
  - intros H. inversion H. tauto.
Qed.

Lemma unicode_text_eqb_sym (a b : Unicode.text) :
  Unicode.text_eqb a b = Unicode.text_eqb b a.
Proof.
  destruct (Unicode.text_eqb a b) eqn:Hab, (Unicode.text_eqb b a) eqn:Hba;
    try reflexivity.
  - apply unicode_text_eqb_eq in Hab. subst b.
    rewrite (proj2 (unicode_text_eqb_eq a a) eq_refl) in Hba. discriminate.
  - apply unicode_text_eqb_eq in Hba. subst b.
    rewrite (proj2 (unicode_text_eqb_eq a a) eq_refl) in Hab. discriminate.
Qed.

Lemma unicode_mem_In (w : Unicode.text) (l : list Unicode.text) :
  Unicode.mem w l = true <-> In w l.
Proof.
  unfold Unicode.mem. rewrite existsb_exists. split.
  - intros [x [Hx Heq]]. apply unicode_text_eqb_eq in Heq. now subst.
  - intros H. exists w. split; [exact H | now apply unicode_text_eqb_eq].
Qed.

Lemma unicode_mem_false_not_In (w : Unicode.text) (l : list Unicode.text) :
  Unicode.mem w l = false <-> ~ In w l.
Proof.
  rewrite <- unicode_mem_In. destruct (Unicode.mem w l); split; congruence.
Qed.

(** ** Counters *)

Lemma unicode_Counter_snoc (l : list Unicode.text) (w : Unicode.text) :
  Unicode.Counter (l ++ [w]) = Unicode.counter_incr w (Unicode.Counter l).
Proof. unfold Unicode.Counter. now rewrite fold_left_app. Qed.

Lemma unicode_counter_incr_keys (w : Unicode.text) (c : Unicode.counter) :
  map fst (Unicode.counter_incr w c) =
  if Unicode.mem w (map fst c) then map fst c else map fst c ++ [w].
Proof.
  induction c as [| [k n] c IH]; cbn; [reflexivity|].
  rewrite (unicode_text_eqb_sym w k).
  destruct (Unicode.text_eqb k w); cbn; [reflexivity|].
  rewrite IH. unfold Unicode.mem.
  now destruct (existsb (Unicode.text_eqb w) (map fst c)).
Qed.

Lemma unicode_Counter_keys_In (l : list Unicode.text) (w : Unicode.text) :
  In w (map fst (Unicode.Counter l)) <-> In w l.
Proof.
  induction l as [| x l IH] using rev_ind; [reflexivity|].
  rewrite unicode_Counter_snoc, unicode_counter_incr_keys, in_app_iff. cbn.
  destruct (Unicode.mem x (map fst (Unicode.Counter l))) eqn:Hm.
  - apply unicode_mem_In in Hm. rewrite IH. split; [tauto|].
    intros [H | [<- | []]]; [exact H | now apply IH].
  - rewrite in_app_iff, IH. cbn. tauto.
Qed.

Lemma unicode_Counter_keys_NoDup (l : list Unicode.text) :
  NoDup (map fst (Unicode.Counter l)).
Proof.
  induction l as [| x l IH] using rev_ind; [constructor|].
  rewrite unicode_Counter_snoc, unicode_counter_incr_keys.
  destruct (Unicode.mem x (map fst (Unicode.Counter l))) eqn:Hm; [exact IH|].
  apply unicode_mem_false_not_In in Hm.
  apply NoDup_rev in IH. rewrite <- (rev_involutive (_ ++ _)).
  apply NoDup_rev. rewrite rev_app_distr. cbn. constructor; [|exact IH].
  now rewrite <- in_rev.
Qed.

Lemma unicode_insert_item_Permutation (x : Unicode.text * nat) (l : Unicode.counter) :
  Permutation (Unicode.insert_item x l) (x :: l).
Proof.
  induction l as [| y l IH]; cbn [Unicode.insert_item]; [reflexivity|].
  destruct (snd x <? snd y); [|reflexivity].
  rewrite IH. apply perm_swap.
Qed.

Lemma unicode_sorted_by_count_Permutation (c : Unicode.counter) :
  Permutation (Unicode.sorted_by_count c) c.
Proof.
  induction c as [| x c IH]; cbn [Unicode.sorted_by_count fold_right];
    [reflexivity|].
  fold (Unicode.sorted_by_count c).
  rewrite unicode_insert_item_Permutation. now constructor.
Qed.

(** ** Lower-casing and splitting *)

Section UnicodeStrings.

Variable db : Unicode.database.

(** [lower] produces the lower-case forms of the characters of the
    text, or one of the two small sigmas. *)
Lemma unicode_lower_chars (s : Unicode.text) (d : N) :
  In d (Unicode.lower db s) ->
  (exists c, In c s /\ In d (Unicode.to_lower db c)) \/
  d = Unicode.small_sigma \/ d = Unicode.final_small_sigma.
Proof.
  unfold Unicode.lower. generalize (@nil N) as before.
  induction s as [| c s IH]; intros before; cbn [Unicode.lower_aux];
    [intros []|].
  rewrite in_app_iff. intros [Hd | Hd].
  - unfold Unicode.lower_char in Hd.
    destruct (c =? Unicode.capital_sigma)%N.
    + destruct (Unicode.final_sigma db before s); destruct Hd as [<- | []];
        tauto.
    + left. exists c. split; [now left | exact Hd].
  - destruct (IH _ Hd) as [(c' & Hc' & Hd') | Hsigma]; [|tauto].
    left. exists c'. split; [now right | exact Hd'].
Qed.

Lemma unicode_lower_settled (s : Unicode.text) :
  Unicode.lower_settles db ->
  Forall (Unicode.unchanged_by_lower db) (Unicode.lower db s).
Proof.
  intros (Hmap & Hsmall & Hfinal). apply Forall_forall. intros d Hd.
  destruct (unicode_lower_chars s d Hd) as [(c & _ & Hc) | [-> | ->]];
    [eapply Hmap, Hc | exact Hsmall | exact Hfinal].
Qed.

(** A text whose characters [lower] leaves alone is its own lower-case
    form. *)
Lemma unicode_lower_unchanged (w : Unicode.text) :
  Forall (Unicode.unchanged_by_lower db) w -> Unicode.lower db w = w.
Proof.
  unfold Unicode.lower. generalize (@nil N) as before.
  induction w as [| c w IH]; intros before Hw; cbn [Unicode.lower_aux];
    [reflexivity|].
  apply Forall_cons_iff in Hw as [[Hsigma Hc] Hw].
  unfold Unicode.lower_char. apply N.eqb_neq in Hsigma.
  rewrite Hsigma, Hc, (IH _ Hw). reflexivity.
Qed.

(** The whitespace tokenizer only cuts: the characters of a token are
    characters of the text. *)
Lemma unicode_split_aux_chars (p : N -> Prop) (s cur : Unicode.text)
  (acc : list Unicode.text) :
  Forall p s -> Forall p cur -> Forall (Forall p) acc ->
  Forall (Forall p) (Unicode.split_aux db s cur acc).
Proof.
  assert (Hflush : forall cur acc,
             Forall p cur -> Forall (Forall p) acc ->
             Forall (Forall p) (Unicode.flush cur acc)).
  { intros [| c cur'] acc' Hc Ha; cbn [Unicode.flush]; [exact Ha|].
    constructor; [now apply Forall_rev | exact Ha]. }
  revert cur acc. induction s as [| c s IH]; intros cur acc Hs Hcur Hacc; cbn.
  - apply Forall_rev, Hflush; assumption.
  - apply Forall_cons_iff in Hs as [Hc Hs].
    destruct (Unicode.is_space db c).
    + apply IH; [exact Hs | constructor | now apply Hflush].
    + apply IH; [exact Hs | now constructor | exact Hacc].
Qed.

Lemma unicode_split_chars (s w : Unicode.text) (c : N) :
  In w (Unicode.split db s) -> In c w -> In c s.
Proof.
  intros Hw Hc.
  assert (H : Forall (Forall (fun c => In c s)) (Unicode.split db s)).
  { apply unicode_split_aux_chars; [| constructor | constructor].
    now apply Forall_forall. }
  rewrite Forall_forall in H. specialize (H w Hw).
  rewrite Forall_forall in H. now apply H.
Qed.

End UnicodeStrings.

(** ** The extractor *)

Section UnicodeExtractor.

Variable db : Unicode.database.
Variable stopwords_words_english : result (list Unicode.text).
Variable word_tokenize : Unicode.text -> result (list Unicode.text).

Lemma unicode_filter_words_In (stop_words word_tokens : list Unicode.text)
  (w : Unicode.text) :
  In w (Unicode.filter_words db stop_words word_tokens) <->
  In w word_tokens /\ Unicode.isalpha db w = true /\ ~ In w stop_words.
Proof.
  unfold Unicode.filter_words.
  rewrite filter_In, andb_true_iff, negb_true_iff.
  now rewrite unicode_mem_false_not_In.
Qed.

Lemma unicode_rank_keywords_In (stop_words word_tokens : list Unicode.text)
  (k : Z) (w : Unicode.text) :
  In w (Unicode.rank_keywords db stop_words word_tokens k) ->
  In w (Unicode.filter_words db stop_words word_tokens).
Proof.
  unfold Unicode.rank_keywords, Unicode.most_common.
  intros [[w' n] [<- Hin]]%in_map_iff. apply firstn_In in Hin.
  apply (Permutation_in _ (unicode_sorted_by_count_Permutation _)) in Hin.
  apply unicode_Counter_keys_In. now apply (in_map fst) in Hin.
Qed.

Lemma unicode_rank_keywords_NoDup (stop_words word_tokens : list Unicode.text)
  (k : Z) :
  NoDup (Unicode.rank_keywords db stop_words word_tokens k).
Proof.
  unfold Unicode.rank_keywords, Unicode.most_common.
  set (c := Unicode.Counter (Unicode.filter_words db stop_words word_tokens)).
  assert (Hnd : NoDup (map fst (Unicode.sorted_by_count c))).
  { eapply Permutation_NoDup; [| apply unicode_Counter_keys_NoDup].
    apply Permutation_map, Permutation_sym, unicode_sorted_by_count_Permutation. }
  rewrite <- (firstn_skipn (Z.to_nat k) (Unicode.sorted_by_count c)) in Hnd.
  rewrite map_app in Hnd. now apply NoDup_app_remove_r in Hnd.
Qed.

Lemma unicode_extract_keywords_ok (s : Unicode.text) (k : Z) :
  only_LookupError stopwords_words_english ->
  only_LookupError (word_tokenize (Unicode.lower db s)) ->
  Unicode.extract_keywords db stopwords_words_english word_tokenize s k =
  Ok (Unicode.rank_keywords db
        (Unicode.stop_words_in_use stopwords_words_english)
        (Unicode.tokens_in_use db word_tokenize s) k).
Proof.
  intros Hsw Htok.
  unfold Unicode.extract_keywords, Unicode.load_stop_words, Unicode.tokenize,
    Unicode.stop_words_in_use, Unicode.tokens_in_use, try_except_LookupError.
  destruct stopwords_words_english as [sw | e1].
  - destruct (word_tokenize (Unicode.lower db s)) as [toks | e2];
      [reflexivity|].
    now rewrite (Htok e2 eq_refl).
  - rewrite (Hsw e1 eq_refl).
    destruct (word_tokenize (Unicode.lower db s)) as [toks | e2];
      [reflexivity|].
    now rewrite (Htok e2 eq_refl).
Qed.

(** C10, amended. The keywords are pairwise distinct; each is an
    alphabetic token of the lower-cased text and, the tokenizer
    inventing no letters and lower-casing being settled in the
    character database, is left unchanged by [lower].  It need not be
    lower-case. *)
Theorem keywords_distinct_and_unchanged_by_lower (s : Unicode.text) (k : Z) :
  Unicode.lower_settles db ->
  Unicode.keeps_letters db word_tokenize ->
  only_LookupError stopwords_words_english ->
  only_LookupError (word_tokenize (Unicode.lower db s)) ->
  exists keywords,
    Unicode.extract_keywords db stopwords_words_english word_tokenize s k =
      Ok keywords /\
    NoDup keywords /\
    (forall w, In w keywords ->
               In w (Unicode.tokens_in_use db word_tokenize s) /\
               Unicode.isalpha db w = true /\
               Unicode.lower db w = w).
Proof.
  intros Hsettles Hletters Hsw Htok. eexists.
  split; [now apply unicode_extract_keywords_ok|].
  split; [apply unicode_rank_keywords_NoDup|].
  intros w Hw%unicode_rank_keywords_In. apply unicode_filter_words_In in Hw.
  destruct Hw as (Hin & Halpha & _). split; [exact Hin|]. split; [exact Halpha|].
  apply unicode_lower_unchanged. apply Forall_forall. intros c Hc.
  pose proof (unicode_lower_settled db s Hsettles) as Hs.
  rewrite Forall_forall in Hs. apply Hs.
  unfold Unicode.tokens_in_use in Hin.
  destruct (word_tokenize (Unicode.lower db s)) as [tokens | e] eqn:Htoks.
  - eapply Hletters; eassumption.
  - eapply unicode_split_chars; eassumption.
Qed.

End UnicodeExtractor.

(** ** The excerpt of the character database *)

Lemma sample_between (lo hi c : N) :
  Unicode.between lo hi c = true <-> (lo <= c /\ c <= hi)%N.
Proof. unfold Unicode.between. rewrite andb_true_iff, !N.leb_le. reflexivity. Qed.

Lemma sample_shifts_to_lower (c : N) :
  Unicode.shifts_to_lower c = true ->
  (0x41 <= c <= 0x5A \/ 0xC0 <= c <= 0xDE \/ 0x391 <= c <= 0x3A9)%N.
Proof.
  unfold Unicode.shifts_to_lower.
  rewrite !orb_true_iff, !andb_true_iff, !sample_between. tauto.
Qed.

Lemma sample_unshifted (d : N) :
  (d < 0x41 \/ 0x5A < d < 0xC0 \/ 0xDE < d < 0x130 \/ 0x130 < d < 0x391 \/
   0x3A9 < d)%N ->
  Unicode.sample_to_lower d = [d].
Proof.
  intros Hd. unfold Unicode.sample_to_lower, Unicode.shifts_to_lower.
  assert (H1 : Unicode.between 0x41 0x5A d = false).
  { apply not_true_is_false. rewrite sample_between. lia. }
  assert (H2 : Unicode.between 0xC0 0xDE d = false).
  { apply not_true_is_false. rewrite sample_between. lia. }
  assert (H3 : Unicode.between 0x391 0x3A9 d = false).
  { apply not_true_is_false. rewrite sample_between. lia. }
  assert (H4 : (d =? 0x130)%N = false) by (apply N.eqb_neq; lia).
  now rewrite H1, H2, H3, H4.
Qed.

(** Lower-casing is settled in the excerpt. *)
Lemma sample_lower_settles : Unicode.lower_settles Unicode.sample.
Proof.
  assert (Hfixed : forall d,
             (0x5A < d < 0xC0 \/ 0xDE < d < 0x130 \/ 0x130 < d < 0x391 \/
              0x3A9 < d)%N ->
             Unicode.unchanged_by_lower Unicode.sample d).
  { intros d Hd. split.
    - unfold Unicode.capital_sigma. lia.
    - cbn [Unicode.to_lower Unicode.sample]. apply sample_unshifted. lia. }
  split; [|split].
  - intros c d. cbn [Unicode.to_lower Unicode.sample].
    unfold Unicode.sample_to_lower.
    destruct (Unicode.shifts_to_lower c) eqn:Hshift.
    + apply sample_shifts_to_lower in Hshift.
      intros [<- | []]. apply Hfixed. lia.
    + destruct (N.eqb_spec c 0x130) as [-> | Hc].
      * intros [<- | [<- | []]]; apply Hfixed; lia.
      * intros [<- | []]. split.
        -- intros ->. discriminate Hshift.
        -- cbn [Unicode.to_lower Unicode.sample].
           unfold Unicode.sample_to_lower. rewrite Hshift.
           apply N.eqb_neq in Hc. now rewrite Hc.
  - apply Hfixed. unfold Unicode.small_sigma. lia.
  - apply Hfixed. unfold Unicode.final_small_sigma. lia.
Qed.

Lemma toy_tokenizer_keeps_letters :
  Unicode.keeps_letters Unicode.sample Unicode.toy_tokenizer.
Proof.
  intros s tokens w c Htoks Hw _ Hc. inversion Htoks; subst tokens.
  eapply unicode_split_chars; eassumption.
Qed.

(** C10, counterexample.  The text is the single letter U+1D400.  It is
    a letter and has no lower-case form, so [lower] returns it, the
    fallback tokenizer makes it the only token, it is alphabetic and no
    stop word, and it is returned as the only keyword: a keyword that
    is upper-case and not lower-case. *)
Lemma keyword_left_upper_case :
  Unicode.lower Unicode.sample Unicode.bold_capital_a = Unicode.bold_capital_a /\
  Unicode.extract_keywords Unicode.sample Unicode.no_corpus Unicode.no_tokenizer
    Unicode.bold_capital_a 5 = Ok [Unicode.bold_capital_a] /\
  Unicode.isalpha Unicode.sample Unicode.bold_capital_a = true /\
  Unicode.isupper Unicode.sample Unicode.bold_capital_a = true /\
  Unicode.islower Unicode.sample Unicode.bold_capital_a = false.
Proof. repeat split. Qed.

Lemma keywords_distinct_and_unchanged_by_lower_witness :
  exists keywords,
    Unicode.extract_keywords Unicode.sample Unicode.toy_corpus
      Unicode.toy_tokenizer Unicode.street_text 5 = Ok keywords /\
    NoDup keywords /\
    (forall w, In w keywords ->
               In w (Unicode.tokens_in_use Unicode.sample Unicode.toy_tokenizer
                       Unicode.street_text) /\
               Unicode.isalpha Unicode.sample w = true /\
               Unicode.lower Unicode.sample w = w).
Proof.
  apply (keywords_distinct_and_unchanged_by_lower Unicode.sample
           Unicode.toy_corpus Unicode.toy_tokenizer Unicode.street_text 5).
  - exact sample_lower_settles.
  - exact toy_tokenizer_keeps_letters.
  - apply only_LookupError_Ok.
  - apply only_LookupError_Ok.
Defined.

(** "Café ΟΔΟΣ café" and U+1D400: the capital sigma at the end of the
    word becomes the final small sigma, the two spellings of "café" are
    counted together, and the bold capital A stays as it is. *)
Example street_text_keywords :
  Unicode.extract_keywords Unicode.sample Unicode.no_corpus Unicode.no_tokenizer
    Unicode.street_text 5 =
  Ok [ [0x63; 0x61; 0x66; 0xE9]%N;
       [0x3BF; 0x3B4; 0x3BF; 0x3C2]%N;
       [0x1D400]%N ].
Proof. reflexivity. Qed.

(** ** The two models of the extractor agree on ASCII

    With the database cut down to ASCII, the extractor on code points
    returns what the extractor on [string]s returns. *)

Lemma literal_cons (c : ascii) (s : string) :
  Unicode.literal (String c s) = N_of_ascii c :: Unicode.literal s.
Proof. reflexivity. Qed.

Lemma literal_of_list (cs : list ascii) :
  Unicode.literal (string_of_list_ascii cs) = map N_of_ascii cs.
Proof.
  unfold Unicode.literal. now rewrite list_ascii_of_string_of_list_ascii.
Qed.

Lemma ascii_only_lower_char (before after : Unicode.text) (c : ascii) :
  Unicode.lower_char Unicode.ascii_only before (N_of_ascii c) after =
  [N_of_ascii (lower_char c)].
Proof. destruct c as [[] [] [] [] [] [] [] []]; reflexivity. Qed.

Lemma ascii_only_is_space (c : ascii) :
  Unicode.is_space Unicode.ascii_only (N_of_ascii c) = is_space_char c.
Proof. destruct c as [[] [] [] [] [] [] [] []]; reflexivity. Qed.

Lemma ascii_only_is_alpha (c : ascii) :
  Unicode.is_alpha Unicode.ascii_only (N_of_ascii c) = is_alpha_char c.
Proof. destruct c as [[] [] [] [] [] [] [] []]; reflexivity. Qed.

Lemma N_of_ascii_eqb (a b : ascii) :
  (N_of_ascii a =? N_of_ascii b)%N = Ascii.eqb a b.
Proof.
  destruct (Ascii.eqb_spec a b) as [-> | Hne]; [apply N.eqb_refl|].
  apply N.eqb_neq. intros Heq. apply Hne.
  now rewrite <- (ascii_N_embedding a), <- (ascii_N_embedding b), Heq.
Qed.

Lemma literal_lower (s : string) :
  Unicode.lower Unicode.ascii_only (Unicode.literal s) = Unicode.literal (lower s).
Proof.
  unfold Unicode.lower. generalize (@nil N) as before.
  induction s as [| c s IH]; intros before; [reflexivity|].
  cbn [lower]. rewrite !literal_cons. cbn [Unicode.lower_aux].
  now rewrite ascii_only_lower_char, IH.
Qed.

Lemma literal_isalpha (w : string) :
  Unicode.isalpha Unicode.ascii_only (Unicode.literal w) = isalpha w.
Proof.
  assert (Hall : forall s,
             forallb (Unicode.is_alpha Unicode.ascii_only) (Unicode.literal s) =
             all_chars is_alpha_char s).
  { induction s as [| c s IH]; [reflexivity|].
    rewrite literal_cons. cbn [forallb all_chars].
    now rewrite ascii_only_is_alpha, IH. }
  destruct w as [| c w]; [reflexivity|].
  unfold Unicode.isalpha, isalpha. rewrite <- Hall, literal_cons. reflexivity.
Qed.

Lemma literal_eqb (a b : string) :
  Unicode.text_eqb (Unicode.literal a) (Unicode.literal b) = String.eqb a b.
Proof.
  revert b. induction a as [| x a IH]; intros [| y b]; try reflexivity.
  rewrite !literal_cons. cbn [Unicode.text_eqb String.eqb].
  rewrite N_of_ascii_eqb, IH. now destruct (Ascii.eqb x y).
Qed.

Lemma literal_mem (w : string) (l : list string) :
  Unicode.mem (Unicode.literal w) (map Unicode.literal l) = mem w l.
Proof.
  unfold Unicode.mem, mem. induction l as [| x l IH]; [reflexivity|].
  cbn [map existsb]. now rewrite literal_eqb, IH.
Qed.

Lemma literal_split_aux (s : string) (cur : list ascii) (acc : list string) :
  Unicode.split_aux Unicode.ascii_only (Unicode.literal s)
    (map N_of_ascii cur) (map Unicode.literal acc) =
  map Unicode.literal (split_aux s cur acc).
Proof.
  assert (Hflush : forall cur acc,
             Unicode.flush (map N_of_ascii cur) (map Unicode.literal acc) =
             map Unicode.literal (flush cur acc)).
  { intros [| c cur'] acc'; [reflexivity|].
    cbn [map Unicode.flush flush]. unfold rev_string.
    rewrite literal_of_list, map_rev. reflexivity. }
  revert cur acc. induction s as [| c s IH]; intros cur acc.
  - cbn [Unicode.literal list_ascii_of_string map Unicode.split_aux split_aux].
    now rewrite Hflush, map_rev.
  - rewrite literal_cons. cbn [Unicode.split_aux split_aux].
    rewrite ascii_only_is_space. destruct (is_space_char c).
    + rewrite Hflush. apply (IH []).
    + apply (IH (c :: cur)).
Qed.

Lemma literal_split (s : string) :
  Unicode.split Unicode.ascii_only (Unicode.literal s) =
  map Unicode.literal (split s).
Proof. apply (literal_split_aux s [] []). Qed.

Lemma literal_filter_words (stop_words word_tokens : list string) :
  Unicode.filter_words Unicode.ascii_only (map Unicode.literal stop_words)
    (map Unicode.literal word_tokens) =
  map Unicode.literal (filter_words stop_words word_tokens).
Proof.
  unfold Unicode.filter_words, filter_words.
  induction word_tokens as [| w ws IH]; [reflexivity|].
  cbn [map filter]. rewrite literal_isalpha, literal_mem, IH.
  now destruct (isalpha w && negb (mem w stop_words)).
Qed.

Lemma literal_counter_incr (w : string) (c : counter) :
  Unicode.counter_incr (Unicode.literal w)
    (map (fun it => (Unicode.literal (fst it), snd it)) c) =
  map (fun it => (Unicode.literal (fst it), snd it)) (counter_incr w c).
Proof.
  induction c as [| [k n] c IH]; [reflexivity|].
  cbn [map fst snd Unicode.counter_incr counter_incr].
  rewrite literal_eqb. destruct (String.eqb k w); [reflexivity|].
  cbn [map fst snd]. now rewrite IH.
Qed.

Lemma literal_Counter (words : list string) :
  Unicode.Counter (map Unicode.literal words) =
  map (fun it => (Unicode.literal (fst it), snd it)) (Counter words).
Proof.
  unfold Unicode.Counter, Counter.
  change (@nil (Unicode.text * nat))
    with (map (fun it : string * nat => (Unicode.literal (fst it), snd it)) []).
  generalize (@nil (string * nat)) as c.
  induction words as [| w ws IH]; intros c; [reflexivity|].
  cbn [map fold_left]. now rewrite literal_counter_incr, IH.
Qed.

Lemma literal_sorted_by_count (c : counter) :
  Unicode.sorted_by_count (map (fun it => (Unicode.literal (fst it), snd it)) c) =
  map (fun it => (Unicode.literal (fst it), snd it)) (sorted_by_count c).
Proof.
  induction c as [| x c IH]; [reflexivity|].
  cbn [map Unicode.sorted_by_count sorted_by_count fold_right].
  fold (sorted_by_count c).
  fold (Unicode.sorted_by_count
          (map (fun it : string * nat => (Unicode.literal (fst it), snd it)) c)).
  rewrite IH. generalize (sorted_by_count c) as l. clear c IH. intros l.
  induction l as [| y l IH]; [reflexivity|].
  cbn [map Unicode.insert_item insert_item fst snd].
  destruct (snd x <? snd y); [|reflexivity].
  cbn [map]. now rewrite IH.
Qed.

Lemma literal_rank_keywords (stop_words word_tokens : list string) (k : Z) :
  Unicode.rank_keywords Unicode.ascii_only (map Unicode.literal stop_words)
    (map Unicode.literal word_tokens) k =
  map Unicode.literal (rank_keywords stop_words word_tokens k).
Proof.
  unfold Unicode.rank_keywords, rank_keywords, Unicode.most_common, most_common.
  rewrite literal_filter_words, literal_Counter, literal_sorted_by_count.
  rewrite firstn_map, !map_map. reflexivity.
Qed.

(** On a [string], with the same stop words and the same tokenizer,
    the extractor on code points returns the keywords of the extractor
    on [string]s. *)
Lemma extract_keywords_agree
  (stopwords_words_english : result (list string))
  (word_tokenize : string -> result (list string))
  (unicode_word_tokenize : Unicode.text -> result (list Unicode.text))
  (s : string) (k : Z) :
  (forall t, unicode_word_tokenize (Unicode.literal t) =
             Unicode.literals (word_tokenize t)) ->
  Unicode.extract_keywords Unicode.ascii_only
    (Unicode.literals stopwords_words_english) unicode_word_tokenize
    (Unicode.literal s) k =
  Unicode.literals (extract_keywords stopwords_words_english word_tokenize (PStr s) k).
Proof.
  intros Htok.
  unfold Unicode.extract_keywords, extract_keywords, Unicode.load_stop_words,
    load_stop_words, Unicode.tokenize, tokenize, method_lower,
    try_except_LookupError, Unicode.literals.
  cbn [bind]. rewrite literal_lower, Htok, literal_split.
  unfold Unicode.literals, Unicode.fallback_stop_words.
  destruct stopwords_words_english as [stop_words | []];
    destruct (word_tokenize (lower s)) as [word_tokens | []];
    cbn [bind]; try reflexivity;
    now rewrite literal_rank_keywords.
Qed.
